(** * Quadrature-based predictive deep GP: grid, weights, layer input, KL

    A shallow embedding of [gpytorch/models/deep_gps/predictive_deep_gp.py].
    Tensor entries are real numbers (idealised arithmetic: no rounding, no
    infinities, no NaN); shapes, broadcasting, Python exceptions and the
    order in which the interpreter evaluates attribute accesses are modelled
    as the code has them. *)

From Stdlib Require Import String Reals Lra Lia ZArith Bool Arith List.
From Stdlib Require Import DecimalString Permutation.
Import ListNotations.

Open Scope string_scope.
Open Scope Z_scope.
Open Scope nat_scope.

(** ** Python exceptions and the result of a call *)

Inductive exn : Type :=
| AttributeError (attr : string)   (* the attribute that was not found *)
| AssertionError
| ValueError (msg : string)
| RuntimeError (msg : string)
| IndexError
| TypeError.

Inductive result (A : Type) : Type :=
| Ok (a : A)
| Raise (e : exn).

Arguments Ok {A} a.
Arguments Raise {A} e.

Definition bind {A B : Type} (m : result A) (k : A -> result B) : result B :=
  match m with
  | Ok a => k a
  | Raise e => Raise e
  end.

Notation "x <- m ;; k" := (bind m (fun x => k))
  (at level 61, m at next level, right associativity).
Notation "m ;;; k" := (bind m (fun _ => k))
  (at level 61, right associativity).

Fixpoint mapM {A B : Type} (f : A -> result B) (l : list A) : result (list B) :=
  match l with
  | [] => Ok []
  | a :: l' => b <- f a ;; bs <- mapM f l' ;; Ok (b :: bs)
  end.

(** ** Lists of naturals and of reals *)

Fixpoint shape_eqb (a b : list nat) : bool :=
  match a, b with
  | [], [] => true
  | x :: a', y :: b' => (x =? y) && shape_eqb a' b'
  | _, _ => false
  end.

Definition insert_at {A : Type} (d : nat) (x : A) (l : list A) : list A :=
  firstn d l ++ x :: skipn d l.

Definition delete_at {A : Type} (d : nat) (l : list A) : list A :=
  firstn d l ++ skipn (S d) l.

Definition set_at {A : Type} (d : nat) (x : A) (l : list A) : list A :=
  firstn d l ++ x :: skipn (S d) l.

Fixpoint Rsum (l : list R) : R :=
  match l with
  | [] => 0%R
  | x :: l' => (x + Rsum l')%R
  end.

(** [sum_upto n f] is f 0 + ... + f (n-1). *)
Definition sum_upto (n : nat) (f : nat -> R) : R := Rsum (map f (seq 0 n)).

(** All index tuples of a shape, last axis fastest (row-major). *)
Fixpoint indices (sh : list nat) : list (list nat) :=
  match sh with
  | [] => [[]]
  | n :: sh' => flat_map (fun i => map (cons i) (indices sh')) (seq 0 n)
  end.

(** ** torch.Tensor: a shape and the entry at each index tuple *)

Module Torch.

Record tensor : Type := mkTensor {
  shape : list nat;
  get : list nat -> R
}.

Definition rank (t : tensor) : nat := length (shape t).

(** A Python axis number [dim] (negative counts from the end) for a tensor
    with [r] axes; out of range is an IndexError. *)
Definition norm_dim (r : nat) (dim : Z) : result nat :=
  if ((- Z.of_nat r <=? dim) && (dim <? Z.of_nat r))%Z
  then Ok (Z.to_nat (if (dim <? 0)%Z then dim + Z.of_nat r else dim)%Z)
  else Raise IndexError.

(** 0-d tensor holding [x]. *)
Definition scalar (x : R) : tensor := mkTensor [] (fun _ => x).

(** 1-d tensor with the entries of [l] (torch.from_numpy / torch.tensor of a
    sequence of floats). *)
Definition of_list (l : list R) : tensor :=
  mkTensor [length l] (fun idx => nth (hd 0 idx) l 0%R).

(** t.size(dim) *)
Definition size (t : tensor) (dim : Z) : result nat :=
  d <- norm_dim (rank t) dim ;; Ok (nth d (shape t) 0).

(** t.unsqueeze(dim): a new axis of extent 1 at position [dim]. *)
Definition unsqueeze (t : tensor) (dim : Z) : result tensor :=
  d <- norm_dim (S (rank t)) dim ;;
  Ok (mkTensor (insert_at d 1 (shape t)) (fun idx => get t (delete_at d idx))).

(** Element-wise unary operation (sqrt, exp, log, multiplication by a Python
    float). *)
Definition tmap (f : R -> R) (t : tensor) : tensor :=
  mkTensor (shape t) (fun idx => f (get t idx)).

(** Broadcasting of two shapes, given last axis first. *)
Fixpoint bshape_rev (a b : list nat) : option (list nat) :=
  match a, b with
  | [], _ => Some b
  | _, [] => Some a
  | x :: a', y :: b' =>
    match bshape_rev a' b' with
    | None => None
    | Some c =>
      if x =? y then Some (x :: c)
      else if x =? 1 then Some (y :: c)
      else if y =? 1 then Some (x :: c)
      else None
    end
  end.

Definition broadcast_shapes (a b : list nat) : option (list nat) :=
  option_map (@rev nat) (bshape_rev (rev a) (rev b)).

(** The index into an operand of shape [sh] that a broadcast result index
    [idx] reads: the trailing [length sh] positions, with 0 on every axis of
    extent 1. *)
Fixpoint bindex_aligned (sh idx : list nat) : list nat :=
  match sh, idx with
  | n :: sh', i :: idx' => (if n =? 1 then 0 else i) :: bindex_aligned sh' idx'
  | _, _ => []
  end.

Definition bindex (sh idx : list nat) : list nat :=
  bindex_aligned sh (skipn (length idx - length sh) idx).

(** Element-wise binary operation with broadcasting (a + b, a - b, a * b). *)
Definition binop (f : R -> R -> R) (a b : tensor) : result tensor :=
  match broadcast_shapes (shape a) (shape b) with
  | Some sh =>
    Ok (mkTensor sh (fun idx => f (get a (bindex (shape a) idx))
                                 (get b (bindex (shape b) idx))))
  | None => Raise (RuntimeError "size of tensor a must match size of tensor b")
  end.

Definition add := binop Rplus.
Definition sub := binop Rminus.
Definition mul := binop Rmult.

(** A Python int that torch accepts as a size: it fits in 64 signed bits. *)
Definition is_int64 (z : Z) : bool := ((- 2 ^ 63 <=? z) && (z <? 2 ^ 63))%Z.

Arguments is_int64 : simpl never.

(** t.expand(sizes...): every size must be an int64 (a larger Python int is
    refused as a TypeError when the arguments are parsed); sizes line up
    with the trailing axes; an axis keeps its extent (or grows from 1), -1
    keeps it; new leading axes need an explicit non-negative size. *)
Fixpoint expand_shape_rev (sh : list nat) (sizes : list Z) : option (list nat) :=
  match sh, sizes with
  | [], [] => Some []
  | [], z :: sizes' =>
    if (z <? 0)%Z then None
    else option_map (cons (Z.to_nat z)) (expand_shape_rev [] sizes')
  | _ :: _, [] => None
  | n :: sh', z :: sizes' =>
    if (z =? -1)%Z || (z =? Z.of_nat n)%Z
    then option_map (cons n) (expand_shape_rev sh' sizes')
    else if (n =? 1) && (0 <=? z)%Z
    then option_map (cons (Z.to_nat z)) (expand_shape_rev sh' sizes')
    else None
  end.

Definition expand (t : tensor) (sizes : list Z) : result tensor :=
  if negb (forallb is_int64 sizes) then Raise TypeError
  else
    match expand_shape_rev (rev (shape t)) (rev sizes) with
    | Some sh => Ok (mkTensor (rev sh) (fun idx => get t (bindex (shape t) idx)))
    | None => Raise (RuntimeError "expanded size must match the existing size")
    end.

(** t.repeat(reps...): tile the tensor; the counts must be int64 and there
    must be at least as many as axes (here used with exactly as many). *)
Definition repeat_ (t : tensor) (reps : list Z) : result tensor :=
  if negb (forallb is_int64 reps) then Raise TypeError
  else if negb (length reps =? rank t) then
    Raise (RuntimeError "number of repeat dims must match the tensor dims")
  else if existsb (fun z => (z <? 0)%Z) reps then
    Raise (RuntimeError "negative repeat")
  else
    Ok (mkTensor (map (fun p => fst p * Z.to_nat (snd p)) (combine (shape t) reps))
                 (fun idx => get t (map (fun p => snd p mod fst p)
                                        (combine (shape t) idx)))).

(** t.flip(dims=[0]): reverse along the first axis; a 0-d tensor is
    accepted and returned as it is. *)
Definition flip0 (t : tensor) : result tensor :=
  match shape t with
  | [] => Ok t
  | n :: _ =>
    Ok (mkTensor (shape t)
                 (fun idx => match idx with
                             | i :: rest => get t ((n - 1 - i) :: rest)
                             | [] => get t []
                             end))
  end.

(** t.t(): transpose of a tensor with at most 2 axes. *)
Definition t_ (t : tensor) : result tensor :=
  if rank t <=? 2
  then Ok (mkTensor (rev (shape t)) (fun idx => get t (rev idx)))
  else Raise (RuntimeError "t() expects a tensor with <= 2 dimensions").

(** t[i]: the sub-tensor at position [i] of the first axis. *)
Definition select (t : tensor) (i : nat) : tensor :=
  mkTensor (tl (shape t)) (fun idx => get t (i :: idx)).

(** Python iteration over a tensor (for row in t, or star-unpacking t): its sub-tensors along
    the first axis; a 0-d tensor cannot be iterated. *)
Definition iter (t : tensor) : result (list tensor) :=
  match shape t with
  | [] => Raise TypeError
  | n :: _ => Ok (map (select t) (seq 0 n))
  end.

(** Which tensor of [ts], and which position inside it, holds position [k]
    of the concatenation along axis [d]. *)
Fixpoint locate (d : nat) (ts : list tensor) (k : nat) : option (tensor * nat) :=
  match ts with
  | [] => None
  | t :: ts' =>
    let n := nth d (shape t) 0 in
    if k <? n then Some (t, k) else locate d ts' (k - n)
  end.

(** Two shapes have the same number of axes and agree outside axis [d]. *)
Definition cat_compatible (d : nat) (a b : list nat) : bool :=
  (length a =? length b) && shape_eqb (set_at d 0 a) (set_at d 0 b).

(** torch.cat(ts, dim): the list is not empty and all shapes agree outside
    axis [dim].  (torch also lets 1-d tensors of shape (0,) through; that
    legacy case is not used by this program and is rejected here.) *)
Definition cat (ts : list tensor) (dim : Z) : result tensor :=
  match ts with
  | [] => Raise (RuntimeError "cat expects a non-empty list of tensors")
  | t0 :: _ =>
    d <- norm_dim (rank t0) dim ;;
    if forallb (fun t => cat_compatible d (shape t) (shape t0)) ts
    then Ok (mkTensor
               (set_at d (list_sum (map (fun t => nth d (shape t) 0) ts)) (shape t0))
               (fun idx => match locate d ts (nth d idx 0) with
                           | Some (t, k) => get t (set_at d k idx)
                           | None => 0%R
                           end))
    else Raise (RuntimeError "sizes of tensors must match except in the cat dimension")
  end.

(** torch.stack(ts): a new leading axis over tensors of one shape. *)
Definition stack (ts : list tensor) : result tensor :=
  match ts with
  | [] => Raise (RuntimeError "stack expects a non-empty list of tensors")
  | t0 :: _ =>
    if forallb (fun t => shape_eqb (shape t) (shape t0)) ts
    then Ok (mkTensor (length ts :: shape t0)
                      (fun idx => match idx with
                                  | i :: rest => get (nth i ts t0) rest
                                  | [] => 0%R
                                  end))
    else Raise (RuntimeError "stack expects each tensor to be equal size")
  end.

(** t.sum(): the sum of all entries, a 0-d tensor. *)
Definition sum_all (t : tensor) : tensor :=
  scalar (Rsum (map (get t) (indices (shape t)))).

(** t.sum(dim=dim): sum along one axis, which disappears; on a 0-d tensor
    dim 0 and -1 are accepted and the tensor's value is the sum. *)
Definition sum_dim (t : tensor) (dim : Z) : result tensor :=
  match shape t with
  | [] =>
    if ((dim =? 0) || (dim =? -1))%Z then Ok (mkTensor [] (fun idx => get t idx))
    else Raise IndexError
  | _ :: _ =>
    d <- norm_dim (rank t) dim ;;
    Ok (mkTensor (delete_at d (shape t))
                 (fun idx => sum_upto (nth d (shape t) 0)
                                      (fun k => get t (insert_at d k idx))))
  end.

(** t.logsumexp(dim=dim): log of the sum of exponentials along one axis; on
    a 0-d tensor dim 0 and -1 are accepted and the sum has the one term.
    Along an axis of extent 0 torch returns -inf, which the reals do not
    have: the model returns [ln 0] there, and no statement below relies on
    that value. *)
Definition logsumexp (t : tensor) (dim : Z) : result tensor :=
  match shape t with
  | [] =>
    if ((dim =? 0) || (dim =? -1))%Z
    then Ok (mkTensor [] (fun idx => ln (exp (get t idx))))
    else Raise IndexError
  | _ :: _ =>
    d <- norm_dim (rank t) dim ;;
    Ok (mkTensor (delete_at d (shape t))
                 (fun idx => ln (sum_upto (nth d (shape t) 0)
                                          (fun k => exp (get t (insert_at d k idx))))))
  end.

(** torch.randn(sizes...): a tensor of the given shape, the sizes being
    int64, whose entries are the draw [sample]. *)
Definition randn (sample : list nat -> R) (sizes : list Z) : result tensor :=
  if negb (forallb is_int64 sizes) then Raise TypeError
  else if existsb (fun z => (z <? 0)%Z) sizes
  then Raise (RuntimeError "trying to create tensor with negative dimension")
  else Ok (mkTensor (map Z.to_nat sizes) sample).

End Torch.

Import Torch.

(** ** Python support: itertools.product, str of an int, attribute lookup *)

(** itertools.product(pool_1, ..., pool_k) as its documentation defines it:
    result = [[]]; for pool in pools: result = [x+[y] for x in result for y
    in pool]. *)
Definition product_step {A : Type} (result : list (list A)) (pool : list A)
  : list (list A) :=
  flat_map (fun x => map (fun y => (x ++ [y])%list) pool) result.

Definition product {A : Type} (pools : list (list A)) : list (list A) :=
  fold_left product_step pools [[]].

(** str(z) as an f-string prints it. *)
Definition str_int (z : Z) : string := NilZero.string_of_int (Z.to_int z).

(** The values an attribute of a layer can hold. *)
Inductive value : Type :=
| VNone
| VInt (z : Z)
| VFloat (x : R)
| VStr (s : string)
| VTensor (t : tensor).

(** What reaches [__call__] as [inputs]: a MultitaskMultivariateNormal (its
    mean and variance), a tensor, an object of another class that has no
    [unsqueeze] attribute (a list, a number, another distribution), or an
    object of another class that has one (a lazy tensor, say):
    [repeated od] is then what lines 122-123, inputs.unsqueeze(-3) followed
    by inputs.expand(..., od, ...), produce on it.  Objects of other classes
    are taken not to implement the torch function protocol, so torch.cat
    refuses a list that holds one. *)
#[warnings="-register-all"] Inductive pyobj : Type :=
| MMVN (mean variance : tensor)
| Tensor (t : tensor)
| Other (cls : string)
| TensorLike (cls : string) (repeated : Z -> result pyobj).

Definition is_tensor (o : pyobj) : bool :=
  match o with Tensor _ => true | _ => false end.

Definition class_of (o : pyobj) : string :=
  match o with
  | MMVN _ _ => "MultitaskMultivariateNormal"
  | Tensor _ => "Tensor"
  | Other cls => cls
  | TensorLike cls _ => cls
  end.

(** Attribute lookup on a class object whose name is [cls]: it has
    [__name__]; a class of this program defines no [__Name__]. *)
Definition class_getattr (cls name : string) : result string :=
  if (name =? "__name__")%string then Ok cls else Raise (AttributeError name).

(** Attribute lookup on an int, a float, a str, None or a tensor, for the
    names this program asks of them: none is found. *)
Definition value_getattr (v : value) (name : string) : result value :=
  Raise (AttributeError name).

(** math.pow(x, y) on two ints; 0 to a negative power is a ValueError. *)
Definition math_pow (x y : value) : result value :=
  match x, y with
  | VInt a, VInt b =>
    if ((a =? 0) && (b <? 0))%Z then Raise (ValueError "math domain error")
    else Ok (VFloat (powerRZ (IZR a) b))
  | _, _ => Raise TypeError
  end.

(** [==] between an int and an int or a float. *)
Definition int_eq_value (n : Z) (v : value) : bool :=
  match v with
  | VInt m => (n =? m)%Z
  | VFloat x => if Req_EM_T (IZR n) x then true else false
  | _ => false
  end.

(** The statement [assert e]: skipped when the interpreter strips
    assertions (python -O), otherwise [e] is evaluated and must be true. *)
Definition assert_ (asserts : bool) (e : result bool) : result unit :=
  if asserts then b <- e ;; if b then Ok tt else Raise AssertionError
  else Ok tt.

(** ** AbstractPredictiveDeepGPLayer *)

Record Layer : Type := mkLayer {
  input_dims : Z;              (* set by DeepGPLayer.__init__ *)
  output_dims : option Z;      (* set by DeepGPLayer.__init__; None allowed *)
  grid_strategy : string;
  num_sample_sites : Z;
  sample_site_dims : Z;
  xi : option tensor           (* None: [self.xi] was never assigned *)
}.

(** [self.name]: the attributes [__init__] assigns; any other name is not
    found (torch.nn.Module.__getattr__ raises AttributeError). *)
Definition getattr (self : Layer) (name : string) : result value :=
  if (name =? "input_dims")%string then Ok (VInt (input_dims self))
  else if (name =? "output_dims")%string then
    Ok (match output_dims self with Some z => VInt z | None => VNone end)
  else if (name =? "grid_strategy")%string then Ok (VStr (grid_strategy self))
  else if (name =? "num_sample_sites")%string then Ok (VInt (num_sample_sites self))
  else if (name =? "sample_site_dims")%string then Ok (VInt (sample_site_dims self))
  else if (name =? "xi")%string then
    match xi self with
    | Some x => Ok (VTensor x)
    | None => Raise (AttributeError name)
    end
  else Raise (AttributeError name).

Definition self_xi (self : Layer) : result tensor :=
  v <- getattr self "xi" ;;
  match v with VTensor x => Ok x | _ => Raise TypeError end.

Section Environment.

(** Python's [__debug__]: false under python -O, where [assert] statements
    are not executed. *)
Variable asserts : bool.

(** gpytorch.settings.debug.on() *)
Variable debug : bool.

(** numpy.polynomial.hermite.hermgauss(deg): abscissae and weights, or a
    ValueError. *)
Variable hermgauss : Z -> result (list R * list R).

(** The outcome of one torch.randn draw, entry by entry. *)
Variable sample : list nat -> R.

(** torch.from_numpy(xi).float().unsqueeze(-1).repeat(1, sample_site_dims) *)
Definition replicate_abscissae (x : list R) (dims : Z) : result tensor :=
  u <- unsqueeze (of_list x) (-1) ;;
  repeat_ u [1%Z; dims].

(** AbstractPredictiveDeepGPLayer.__init__; [xi_arg] and [sample_site_dims_arg]
    are None by default. *)
Definition Layer_init (input_dims_arg : Z) (output_dims_arg : option Z)
    (num_sample_sites_arg : Z) (grid_strategy_arg : string)
    (xi_arg : option tensor) (sample_site_dims_arg : option Z) : result Layer :=
  assert_ asserts
    (Ok (existsb (String.eqb grid_strategy_arg) ["flipgrid"; "freegrid"; "freeform"])) ;;;
  let dims := match sample_site_dims_arg with
              | None => input_dims_arg
              | Some d => d
              end in
  xi' <- match xi_arg with
         | Some x => Ok (Some x)
         | None =>
           if (grid_strategy_arg =? "freegrid")%string then
             xw <- hermgauss num_sample_sites_arg ;;
             r <- replicate_abscissae (fst xw) dims ;;
             Ok (Some r)
           else if (grid_strategy_arg =? "flipgrid")%string then
             xw <- hermgauss num_sample_sites_arg ;;
             r <- replicate_abscissae (fst xw) dims ;;
             Ok (Some (tmap (Rmult (1 / 2)) r))
           else if (grid_strategy_arg =? "freeform")%string then
             r <- randn sample [num_sample_sites_arg; dims] ;;
             Ok (Some r)
           else Ok None
         end ;;
  Ok (mkLayer input_dims_arg output_dims_arg grid_strategy_arg
              num_sample_sites_arg dims xi').

(** torch.stack([torch.cat([p.unsqueeze(-1) for p in xi])
                 for xi in product( *xi.t())]) *)
Definition stack_product (xi_ : tensor) : result tensor :=
  xi_t <- t_ xi_ ;;
  cols <- iter xi_t ;;
  pools <- mapM iter cols ;;
  rows <- mapM (fun tup => ps <- mapM (fun p => unsqueeze p (-1)) tup ;; cat ps 0)
               (product pools) ;;
  stack rows.

(** The expression of the two size assertions, evaluated left to right:
    res.size(-2) == math.pow(self.num_sample_sites, self.self.sample_site_dims)
    and res.size(-1) == self.self.sample_site_dims *)
Definition size_assertion (self : Layer) (res : tensor) : result bool :=
  n2 <- size res (-2) ;;
  q <- getattr self "num_sample_sites" ;;
  s <- getattr self "self" ;;
  d <- value_getattr s "sample_site_dims" ;;
  p <- math_pow q d ;;
  if int_eq_value (Z.of_nat n2) p then
    n1 <- size res (-1) ;;
    s' <- getattr self "self" ;;
    d' <- value_getattr s' "sample_site_dims" ;;
    Ok (int_eq_value (Z.of_nat n1) d')
  else Ok false.

(** The body of the [quad_grid] property; [None] is Python's None, returned
    when no branch matches. *)
Definition quad_grid (self : Layer) : result (option tensor) :=
  if (grid_strategy self =? "flipgrid")%string then
    x <- self_xi self ;;
    x' <- self_xi self ;;
    f <- flip0 x' ;;
    xi_ <- sub x f ;;
    res <- stack_product xi_ ;;
    assert_ asserts (size_assertion self res) ;;;
    Ok (Some res)
  else if (grid_strategy self =? "freegrid")%string then
    xi_ <- self_xi self ;;
    res <- stack_product xi_ ;;
    assert_ asserts (size_assertion self res) ;;;
    Ok (Some res)
  else if (grid_strategy self =? "freeform")%string then
    x <- self_xi self ;;
    Ok (Some x)
  else Ok None.

(** Reading [self.quad_grid]: when the property body raises AttributeError,
    the interpreter falls back to torch.nn.Module.__getattr__, which reports
    the property's own name as missing. *)
Definition read_quad_grid (self : Layer) : result (option tensor) :=
  match quad_grid self with
  | Raise (AttributeError _) => Raise (AttributeError "quad_grid")
  | r => r
  end.

(** Lines 79-97 of [__call__]: a distribution becomes the tensor
    xi_mus + xi_sigmas * qg; anything else is left as it is. *)
Definition quadrature_inputs (self : Layer) (inputs : pyobj)
    (expand_for_quadgrid : bool) : result pyobj :=
  match inputs with
  | MMVN mean variance =>
    let mus := mean in
    let sigmas := tmap sqrt variance in
    ms <- (if expand_for_quadgrid then
             xi_mus <- unsqueeze mus (-3) ;;
             xi_sigmas <- unsqueeze sigmas (-3) ;;
             Ok (xi_mus, xi_sigmas)
           else Ok (mus, sigmas)) ;;
    g <- read_quad_grid self ;;
    qg <- match g with
          | Some g' => unsqueeze g' (-2)
          | None => Raise (AttributeError "unsqueeze")
          end ;;
    xi_sigmas <- mul (snd ms) qg ;;
    r <- add (fst ms) xi_sigmas ;;
    Ok (Tensor r)
  | _ => Ok inputs
  end.

(** Lines 99-105: every extra input gets a leading axis of extent
    [self.num_sample_sites] (inp.unsqueeze(0).expand(self.num_sample_sites,
    inp.shape...)) and all are concatenated on the last axis. *)
Definition process_other_input (self : Layer) (inp : tensor) : result tensor :=
  u <- unsqueeze inp 0 ;;
  expand u (num_sample_sites self :: map Z.of_nat (shape inp)).

Definition concat_other_inputs (self : Layer) (inputs : pyobj)
    (other_inputs : list tensor) : result pyobj :=
  if 0 <? length other_inputs then
    processed_inputs <- mapM (process_other_input self) other_inputs ;;
    match inputs with
    | Tensor t => r <- cat (t :: processed_inputs) (-1) ;; Ok (Tensor r)
    | _ => Raise TypeError
    end
  else Ok inputs.

(** [inputs.size(dim)]; the checks reach it with a tensor only. *)
Definition pyobj_size (inputs : pyobj) (dim : Z) : result nat :=
  match inputs with
  | Tensor t => size t dim
  | _ => Raise (AttributeError "size")
  end.

(** Lines 107-118: the checks made when settings.debug is on.  The message
    of the ValueError is an f-string, evaluated before the exception is
    constructed. *)
Definition debug_checks (self : Layer) (inputs : pyobj) : result unit :=
  if debug then
    (if negb (is_tensor inputs) then
       name <- class_getattr (class_of inputs) "__Name__" ;;
       Raise (ValueError
                ("`inputs` should either be a MultitaskMultivariateNormal or a Tensor, got "
                   ++ name))
     else Ok tt) ;;;
    n <- pyobj_size inputs (-1) ;;
    if negb (Z.of_nat n =? input_dims self)%Z then
      Raise (RuntimeError
               ("Input shape did not match self.input_dims. Got total feature dims ["
                  ++ str_int (Z.of_nat n) ++ "],"
                  ++ " expected [" ++ str_int (input_dims self) ++ "]"))
    else Ok tt
  else Ok tt.

(** Lines 121-123: one copy of the input per output dimension. *)
Definition repeat_for_outputs (self : Layer) (inputs : pyobj) : result pyobj :=
  match output_dims self with
  | Some od =>
    match inputs with
    | Tensor t =>
      u <- unsqueeze t (-3) ;;
      let sh := map Z.of_nat (shape u) in
      r <- expand u (firstn (length sh - 3) sh ++ od :: skipn (length sh - 2) sh)%list ;;
      Ok (Tensor r)
    | TensorLike _ repeated => repeated od
    | _ => Raise (AttributeError "unsqueeze")
    end
  | None => Ok inputs
  end.

(** [__call__] up to line 125: the object handed to ApproximateGP.__call__. *)
Definition call_inputs (self : Layer) (inputs : pyobj) (other_inputs : list tensor)
    (expand_for_quadgrid : bool) : result pyobj :=
  inputs1 <- quadrature_inputs self inputs expand_for_quadgrid ;;
  inputs2 <- concat_other_inputs self inputs1 other_inputs ;;
  debug_checks self inputs2 ;;;
  repeat_for_outputs self inputs2.

End Environment.

(** ** DeepPredictiveGaussianLikelihood and
       MultitaskDeepPredictiveGaussianLikelihood

    The two classes have the same body and differ in their base class only,
    so one model serves both: [super_log_marginal] is the base class's
    log_marginal (GaussianLikelihood's, or MultitaskGaussianLikelihood's). *)

Record Likelihood : Type := mkLikelihood {
  lik_num_sample_sites : Z;
  raw_quad_weight_grid : option tensor   (* None: the parameter was never registered *)
}.

Section DeepLikelihood.

Variable hermgauss : Z -> result (list R * list R).
Variable sample : list nat -> R.

Variables Observations FunctionDist : Type.
Variable super_log_marginal : Observations -> FunctionDist -> result tensor.

(** __init__(dims, num_sample_sites, grid_strategy) *)
Definition Likelihood_init (dims : Z) (num_sample_sites_arg : Z)
    (grid_strategy_arg : string) : result Likelihood :=
  if existsb (String.eqb grid_strategy_arg) ["flipgrid"; "freegrid"] then
    xw <- hermgauss num_sample_sites_arg ;;
    let log_weights := map ln (snd xw) in
    (* product of one copy of log(weights) per element of range(dims) *)
    let tuples := product (repeat log_weights (Z.to_nat dims)) in
    raw <- stack (map of_list tuples) ;;
    data <- sum_dim raw (-1) ;;
    Ok (mkLikelihood num_sample_sites_arg (Some data))
  else if (grid_strategy_arg =? "freeform")%string then
    r <- randn sample [num_sample_sites_arg] ;;
    Ok (mkLikelihood num_sample_sites_arg (Some r))
  else Ok (mkLikelihood num_sample_sites_arg None).

Definition self_raw_quad_weight_grid (self : Likelihood) : result tensor :=
  match raw_quad_weight_grid self with
  | Some w => Ok w
  | None => Raise (AttributeError "raw_quad_weight_grid")
  end.

(** The body of the [quad_weight_grid] property:
    qwd - qwd.logsumexp(dim=-1) *)
Definition quad_weight_grid (self : Likelihood) : result tensor :=
  qwd <- self_raw_quad_weight_grid self ;;
  l <- logsumexp qwd (-1) ;;
  sub qwd l.

(** Reading [self.quad_weight_grid]: when the property body raises
    AttributeError, the interpreter falls back to torch.nn.Module.__getattr__,
    which reports the property's own name as missing. *)
Definition read_quad_weight_grid (self : Likelihood) : result tensor :=
  match quad_weight_grid self with
  | Raise (AttributeError _) => Raise (AttributeError "quad_weight_grid")
  | r => r
  end.

(** log_marginal(observations, function_dist) *)
Definition log_marginal (self : Likelihood) (observations : Observations)
    (function_dist : FunctionDist) : result tensor :=
  base_log_marginal <- super_log_marginal observations function_dist ;;
  w <- read_quad_weight_grid self ;;
  w1 <- unsqueeze w (-1) ;;
  deep_log_marginal <- add w1 base_log_marginal ;;
  logsumexp deep_log_marginal (-2).

End DeepLikelihood.

(** ** _DeepGPVariationalStrategy *)

(** A sub-GP's variational strategy: the tensor its kl_divergence() returns. *)
Record VariationalStrategy : Type := mkStrategy {
  strategy_kl_divergence : tensor
}.

(** A module of the container, as isinstance(module, ApproximateGP) sees it. *)
Inductive Module_ : Type :=
| ApproximateGP (variational_strategy : VariationalStrategy)
| OtherModule.

(** The deep GP container: the modules that self.model.modules() yields. *)
Record AbstractDeepGP : Type := mkDeepGP {
  modules : list Module_
}.

Record DeepGPVariationalStrategy : Type := mkDeepStrategy {
  model : AbstractDeepGP;
  sub_variational_strategies_memo : option (list VariationalStrategy)
}.

(** __init__(model): no memo yet. *)
Definition DeepGPVariationalStrategy_init (m : AbstractDeepGP) : DeepGPVariationalStrategy :=
  mkDeepStrategy m None.

(** [module.variational_strategy for module in self.model.modules()
     if isinstance(module, ApproximateGP)] *)
Fixpoint collect_strategies (ms : list Module_) : list VariationalStrategy :=
  match ms with
  | [] => []
  | ApproximateGP vs :: ms' => vs :: collect_strategies ms'
  | OtherModule :: ms' => collect_strategies ms'
  end.

(** The [sub_variational_strategies] property: computed on the first read
    and kept on the object; returns the list and the object after the read. *)
Definition sub_variational_strategies (self : DeepGPVariationalStrategy)
  : list VariationalStrategy * DeepGPVariationalStrategy :=
  match sub_variational_strategies_memo self with
  | Some memo => (memo, self)
  | None =>
    let memo := collect_strategies (modules (model self)) in
    (memo, mkDeepStrategy (model self) (Some memo))
  end.

(** Python's sum(iterable): start from 0 and add from the left. *)
Definition py_sum (xs : list R) : R := fold_left Rplus xs 0%R.

(** kl_divergence(): sum(strategy.kl_divergence().sum() for strategy in
    self.sub_variational_strategies) *)
Definition kl_divergence (self : DeepGPVariationalStrategy)
  : R * DeepGPVariationalStrategy :=
  let '(strategies, self') := sub_variational_strategies self in
  (py_sum (map (fun s => get (sum_all (strategy_kl_divergence s)) []) strategies), self').

(** ** Auxiliary notions used in the statements *)

(** The value of p.unsqueeze(-1) when [p] is a 0-d tensor. *)
Definition unit_vector (p : tensor) : tensor :=
  mkTensor [1] (fun idx => get p (delete_at 0 idx)).

(** Digit [j] of [i] written in base [Q] with [T] digits, most significant
    first: the position in pool [j] that tuple number [i] of a lexicographic
    product of [T] pools of length [Q] takes. *)
Definition digit (Q T i j : nat) : nat := (i / Q ^ (T - 1 - j)) mod Q.

(** Entry (q, j) of the tensor whose columns the grid is the product of:
    [xi] itself for freegrid, [xi - xi.flip(dims=[0])] for flipgrid. *)
Definition abscissa (strategy : string) (x : tensor) (Q q j : nat) : R :=
  if (strategy =? "flipgrid")%string
  then (get x [q; j] - get x [(Q - 1 - q)%nat; j])%R
  else get x [q; j].

(** A grid (a tensor of points, one per row) is symmetric about zero: the
    negation of every row is a row. *)
Definition symmetric_grid (g : tensor) : Prop :=
  forall i, i < nth 0 (shape g) 0 ->
  exists k, k < nth 0 (shape g) 0 /\
            forall j, j < nth 1 (shape g) 0 -> get g [k; j] = (- get g [i; j])%R.

(** What numpy documents of hermgauss(deg): it succeeds only for deg >= 1,
    with deg abscissae and deg weights. *)
Definition hermgauss_contract (hermgauss : Z -> result (list R * list R)) : Prop :=
  forall deg x w,
    hermgauss deg = Ok (x, w) ->
    (1 <= deg)%Z /\ length x = Z.to_nat deg /\ length w = Z.to_nat deg.

(** The Gauss-Hermite rule for the three smallest orders, as hermgauss
    returns it (abscissae in increasing order); larger orders are not
    tabulated here. *)
Definition hermgauss_table (deg : Z) : result (list R * list R) :=
  if (deg <=? 0)%Z then Raise (ValueError "deg must be a positive integer")
  else if (deg =? 1)%Z then Ok ([0%R], [sqrt PI])
  else if (deg =? 2)%Z then
    Ok ([(- / sqrt 2)%R; (/ sqrt 2)%R], [(sqrt PI / 2)%R; (sqrt PI / 2)%R])
  else if (deg =? 3)%Z then
    Ok ([(- sqrt (3 / 2))%R; 0%R; sqrt (3 / 2)],
        [(sqrt PI / 6)%R; (2 * sqrt PI / 3)%R; (sqrt PI / 6)%R])
  else Raise (RuntimeError "order not tabulated").

(** ** Concrete inputs used to exercise the statements *)

(** A draw whose entry at (i, j) is i - 2 j. *)
Definition example_sample (idx : list nat) : R :=
  (INR (nth 0 idx 0%nat) - 2 * INR (nth 1 idx 0%nat))%R.

(** The flipgrid layer of order 3 over two dimensions that [__init__]
    constructs (assertions executed), and its xi. *)
Definition example_flipgrid_layer : Layer :=
  match Layer_init true hermgauss_table example_sample 2 None 3 "flipgrid" None None with
  | Ok self => self
  | Raise _ => mkLayer 2 None "flipgrid" 3 2 None
  end.

Definition example_flipgrid_xi : tensor :=
  match xi example_flipgrid_layer with
  | Some x => x
  | None => scalar 0
  end.

(** A freeform layer of order 2 over one dimension. *)
Definition example_freeform_layer : Layer :=
  mkLayer 1 None "freeform" 2 1 (Some (mkTensor [2; 1] example_sample)).

(** A likelihood with two sites and equal raw log-weights. *)
Definition example_likelihood : Likelihood :=
  mkLikelihood 2 (Some (of_list [0%R; 0%R])).

(** A base log-marginal of two sites and three observations. *)
Definition example_base_log_marginal (_ _ : unit) : result tensor :=
  Ok (mkTensor [2; 3] example_sample).

(** ** Further notions and inputs for the statements on the rest of the code *)

(** An extent that a torch tensor can have: it fits in an int64. *)
Definition int64_extent (n : nat) : Prop := (Z.of_nat n < 2 ^ 63)%Z.

(** The factor [__init__] applies to the Gauss-Hermite abscissae: 0.5 for
    flipgrid, none for freegrid. *)
Definition initial_scale (strategy : string) : R :=
  if (strategy =? "flipgrid")%string then (1 / 2)%R else 1%R.

(** A tensor of shape (2, 3, 2): the input of a layer after quadrature. *)
Definition example_inputs3 : tensor := mkTensor [2; 3; 2] example_sample.

(** An extra covariate of shape (3, 1). *)
Definition example_other_input : tensor :=
  mkTensor [3; 1] (fun idx => INR (nth 0 idx 0%nat)).

(** A flipgrid layer of order 2 with 4 output dimensions and 3 input
    features (2 of them from the previous layer). *)
Definition example_wide_layer : Layer :=
  mkLayer 3 (Some 4%Z) "flipgrid" 2 2 (Some (mkTensor [2; 2] example_sample)).

(** A flipgrid layer of order 3 over one dimension whose xi has been
    trained away from its initial value. *)
Definition example_trained_layer : Layer :=
  mkLayer 1 None "flipgrid" 3 1 (Some (mkTensor [3; 1] example_sample)).

(** A freegrid layer whose sample-site dimensionality is 0. *)
Definition example_zero_dim_layer : Layer :=
  mkLayer 0 None "freegrid" 2 0 (Some (mkTensor [2; 0] example_sample)).

(** A freeform layer of 2 sites over 2 dimensions, with 3 input features and
    4 output dimensions. *)
Definition example_freeform_wide_layer : Layer :=
  mkLayer 3 (Some 4%Z) "freeform" 2 2 (Some (mkTensor [2; 2] example_sample)).

(** The grid that the constructed flipgrid layer returns when assertions are
    stripped. *)
Definition example_flipgrid_grid : tensor :=
  match read_quad_grid false example_flipgrid_layer with
  | Ok (Some g) => g
  | _ => scalar 0
  end.

(** A likelihood with three sites. *)
Definition example_likelihood3 : Likelihood :=
  mkLikelihood 3 (Some (of_list [0%R; 1%R; 2%R])).

(** * Properties *)

(** ** The result monad *)

Lemma bind_Ok {A B : Type} (m : result A) (k : A -> result B) (b : B) :
  bind m k = Ok b -> exists a, m = Ok a /\ k a = Ok b.
Proof.
  destruct m as [a | e]; simpl; intros H.
  - exists a. split; [reflexivity | exact H].
  - discriminate H.
Qed.

Lemma mapM_Forall2 {A B : Type} (f : A -> result B) (P : A -> B -> Prop) (l : list A) :
  (forall a, In a l -> exists b, f a = Ok b /\ P a b) ->
  exists bs, mapM f l = Ok bs /\ Forall2 P l bs.
Proof.
  induction l as [| a l IH]; intros H.
  - exists []. split; [reflexivity | constructor].
  - destruct (H a (or_introl eq_refl)) as [b [Hb Pb]].
    destruct IH as [bs [Hbs Pbs]].
    { intros a' Ha'. apply H. right. exact Ha'. }
    exists (b :: bs). simpl. rewrite Hb. simpl. rewrite Hbs. simpl.
    split; [reflexivity | constructor; assumption].
Qed.

Lemma mapM_map {A B : Type} (f : A -> result B) (g : A -> B) (l : list A) :
  (forall a, In a l -> f a = Ok (g a)) -> mapM f l = Ok (map g l).
Proof.
  induction l as [| a l IH]; intros H; simpl.
  - reflexivity.
  - rewrite (H a (or_introl eq_refl)). simpl.
    rewrite IH; [reflexivity |]. intros a' Ha'. apply H. right. exact Ha'.
Qed.

Lemma Forall2_nth_rel {A B : Type} (P : A -> B -> Prop) (l : list A) (l' : list B)
    (da : A) (db : B) (i : nat) :
  Forall2 P l l' -> i < length l -> P (nth i l da) (nth i l' db).
Proof.
  intros H. revert i. induction H as [| a b l l' Hab _ IH]; intros i Hi.
  - simpl in Hi. lia.
  - destruct i as [| i]; simpl.
    + exact Hab.
    + apply IH. simpl in Hi. lia.
Qed.

Lemma Forall2_In_r {A B : Type} (P : A -> B -> Prop) (l : list A) (l' : list B) (b : B) :
  Forall2 P l l' -> In b l' -> exists a, In a l /\ P a b.
Proof.
  intros H. induction H as [| a b' l l' Hab _ IH]; intros Hin.
  - destruct Hin.
  - destruct Hin as [<- | Hin].
    + exists a. split; [left; reflexivity | exact Hab].
    + destruct (IH Hin) as [a' [Ha' Pa']].
      exists a'. split; [right; exact Ha' | exact Pa'].
Qed.

(** ** Sums of reals *)

Lemma sum_upto_ext (n : nat) (f g : nat -> R) :
  (forall k, k < n -> f k = g k) -> sum_upto n f = sum_upto n g.
Proof.
  intros H. unfold sum_upto. f_equal. apply map_ext_in.
  intros k Hk. apply in_seq in Hk. apply H. lia.
Qed.

Lemma Rsum_scale (c : R) (l : list R) :
  Rsum (map (fun x => (x * c)%R) l) = (Rsum l * c)%R.
Proof.
  induction l as [| x l IH]; simpl.
  - lra.
  - rewrite IH. lra.
Qed.

Lemma Rsum_exp_pos (l : list R) :
  l <> [] -> (0 < Rsum (map exp l))%R.
Proof.
  intros Hne. destruct l as [| x l]; [contradiction |]. clear Hne. simpl.
  assert (H : (0 <= Rsum (map exp l))%R).
  { induction l as [| y l IH]; simpl; [lra |].
    pose proof (exp_pos y). lra. }
  pose proof (exp_pos x). lra.
Qed.

Lemma py_sum_Rsum (xs : list R) : py_sum xs = Rsum xs.
Proof.
  unfold py_sum.
  assert (H : forall acc, fold_left Rplus xs acc = (acc + Rsum xs)%R).
  { induction xs as [| x xs IH]; intros acc; simpl.
    - lra.
    - rewrite IH. lra. }
  rewrite H. lra.
Qed.

(** ** itertools.product *)

Section Product.

Context {A : Type}.

Lemma product_snoc (pools : list (list A)) (pool : list A) :
  product (pools ++ [pool]) = product_step (product pools) pool.
Proof. unfold product. rewrite fold_left_app. reflexivity. Qed.

Lemma product_step_length (res : list (list A)) (pool : list A) :
  length (product_step res pool) = length res * length pool.
Proof.
  unfold product_step. induction res as [| x res IH]; simpl.
  - reflexivity.
  - rewrite length_app, length_map, IH. reflexivity.
Qed.

Lemma product_step_nth (res : list (list A)) (pool : list A) (d : A) (i : nat) :
  i < length res * length pool ->
  nth i (product_step res pool) [] =
  (nth (i / length pool) res [] ++ [nth (i mod length pool) pool d])%list.
Proof.
  unfold product_step. revert i. induction res as [| x res IH]; intros i Hi.
  - simpl in Hi. lia.
  - assert (Hq : 0 < length pool) by (destruct (length pool); simpl in Hi; lia).
    simpl. destruct (Nat.lt_ge_cases i (length pool)) as [Hlt | Hge].
    + rewrite app_nth1 by (rewrite length_map; exact Hlt).
      rewrite Nat.div_small, Nat.mod_small by exact Hlt. simpl.
      rewrite (nth_indep _ [] (x ++ [d])%list) by (rewrite length_map; exact Hlt).
      rewrite (map_nth (fun y => (x ++ [y])%list)). reflexivity.
    + rewrite app_nth2 by (rewrite length_map; exact Hge).
      rewrite length_map. rewrite IH by (simpl in Hi; lia).
      replace i with ((i - length pool) + 1 * length pool) at 3 4 by lia.
      rewrite Nat.div_add, Nat.Div0.mod_add by lia.
      replace ((i - length pool) / length pool + 1) with (S ((i - length pool) / length pool)) by lia.
      reflexivity.
Qed.

Lemma product_length (Q : nat) (pools : list (list A)) :
  Forall (fun p => length p = Q) pools ->
  length (product pools) = Q ^ length pools.
Proof.
  induction pools as [| pool pools IH] using rev_ind; intros Hall.
  - reflexivity.
  - apply Forall_app in Hall. destruct Hall as [Hps Hp].
    inversion Hp as [| ? ? Hlen _]; subst.
    rewrite product_snoc, product_step_length, IH by exact Hps.
    rewrite length_app. simpl. rewrite Nat.add_1_r. simpl. lia.
Qed.

Lemma product_elem_length (pools : list (list A)) (tup : list A) :
  In tup (product pools) -> length tup = length pools.
Proof.
  revert tup. induction pools as [| pool pools IH] using rev_ind; intros tup Hin.
  - simpl in Hin. destruct Hin as [<- | []]. reflexivity.
  - rewrite product_snoc in Hin. unfold product_step in Hin.
    apply in_flat_map in Hin. destruct Hin as [x [Hx Hin]].
    apply in_map_iff in Hin. destruct Hin as [y [<- _]].
    rewrite !length_app. simpl. rewrite (IH x Hx). reflexivity.
Qed.

(** Lexicographic order: tuple number [i] takes from pool [j] the element
    whose position is digit [j] of [i] written in base [Q] with [length
    pools] digits, first pool most significant. *)
Lemma product_nth (Q : nat) (pools : list (list A)) (d : A) (i : nat) :
  0 < Q ->
  Forall (fun p => length p = Q) pools ->
  i < Q ^ length pools ->
  nth i (product pools) [] =
  map (fun j => nth ((i / Q ^ (length pools - 1 - j)) mod Q) (nth j pools []) d)
      (seq 0 (length pools)).
Proof.
  intros HQ. revert i.
  induction pools as [| pool pools IH] using rev_ind; intros i Hall Hi.
  - simpl in Hi. assert (i = 0) by lia. subst. reflexivity.
  - apply Forall_app in Hall. destruct Hall as [Hps Hp].
    inversion Hp as [| ? ? Hlen _]; subst.
    rewrite length_app in *. simpl length in *. rewrite Nat.add_1_r in *.
    rewrite Nat.pow_succ_r' in Hi.
    rewrite product_snoc.
    rewrite (product_step_nth _ _ d)
      by (rewrite (product_length (length pool)) by exact Hps; lia).
    rewrite IH; [| exact Hps | apply Nat.Div0.div_lt_upper_bound; lia].
    rewrite seq_S, map_app. simpl. f_equal.
    + apply map_ext_in. intros j Hj. apply in_seq in Hj.
      rewrite app_nth1 by lia.
      rewrite Nat.Div0.div_div.
      replace (length pool * length pool ^ (length pools - 1 - j))
        with (length pool ^ (length pools - 0 - j)).
      * reflexivity.
      * replace (length pools - 0 - j) with (S (length pools - 1 - j)) by lia.
        apply Nat.pow_succ_r'.
    + rewrite Nat.sub_0_r, Nat.sub_diag, Nat.pow_0_r, Nat.div_1_r.
      rewrite nth_middle. reflexivity.
Qed.

End Product.

(** ** Broadcasting and axis bookkeeping *)

Lemma bsel (n i : nat) : i < n -> (if n =? 1 then 0 else i) = i.
Proof.
  intros H. destruct (Nat.eqb_spec n 1); [lia | reflexivity].
Qed.

Ltac bsel_all :=
  repeat match goal with
         | |- context [if ?n =? 1 then 0 else ?i] => rewrite (bsel n i) by lia
         end.

Ltac list_simpl :=
  cbn [insert_at delete_at set_at firstn skipn app length tl hd rev shape get bind].

Ltac solve_bshape :=
  unfold broadcast_shapes; cbn [rev app bshape_rev];
  repeat match goal with
         | |- context [?a =? ?b] => destruct (Nat.eqb_spec a b); subst
         end;
  cbn [option_map rev app]; first [reflexivity | congruence | lia].

Ltac norm_dims_in H :=
  repeat match type of H with
         | context [norm_dim ?r ?d] =>
           let v := eval vm_compute in (norm_dim r d) in
           match v with
           | Ok _ => change (norm_dim r d) with v in H
           | Raise _ => change (norm_dim r d) with v in H
           end
         end.

Lemma broadcast_same (sh : list nat) : broadcast_shapes sh sh = Some sh.
Proof.
  unfold broadcast_shapes.
  assert (H : forall l, bshape_rev l l = Some l).
  { induction l as [| x l IH]; simpl; [reflexivity |].
    rewrite IH, Nat.eqb_refl. reflexivity. }
  rewrite H. simpl. rewrite rev_involutive. reflexivity.
Qed.

Lemma broadcast_scalar_r (sh : list nat) : broadcast_shapes sh [] = Some sh.
Proof.
  unfold broadcast_shapes. simpl.
  assert (H : forall l : list nat, bshape_rev l [] = Some l)
    by (intros [| x l]; reflexivity).
  rewrite H. simpl. rewrite rev_involutive. reflexivity.
Qed.

Lemma broadcast_col (n m : nat) : broadcast_shapes [n; 1] [n; m] = Some [n; m].
Proof. solve_bshape. Qed.

Lemma broadcast_sites_batch (s n t : nat) :
  broadcast_shapes [1; n; t] [s; 1; t] = Some [s; n; t].
Proof. solve_bshape. Qed.

Lemma broadcast_lead_one (s n t : nat) :
  broadcast_shapes [1; n; t] [s; n; t] = Some [s; n; t].
Proof. solve_bshape. Qed.

Lemma broadcast_batch_one (s n t : nat) :
  broadcast_shapes [s; n; t] [s; 1; t] = Some [s; n; t].
Proof. solve_bshape. Qed.

(** Evaluate every axis normalisation whose rank and axis are known. *)
Ltac norm_dims :=
  repeat match goal with
         | |- context [norm_dim ?r ?d] =>
           let v := eval vm_compute in (norm_dim r d) in
           match v with
           | Ok _ => change (norm_dim r d) with v
           | Raise _ => change (norm_dim r d) with v
           end
         end.

(** ** Sizes given to torch *)

(** Decide the int64 test of every size in sight: the repeat count 1 by
    evaluation, a variable by cases, the failing case being a raise. *)
Ltac int64_cases :=
  cbn [forallb];
  change (is_int64 1) with true;
  repeat match goal with
         | |- context [is_int64 ?z] =>
           destruct (is_int64 z); [| cbn [andb negb bind]; discriminate]
         end;
  cbn [andb negb].

(** A draw that succeeds has the sizes asked for, none of them negative. *)
Lemma randn_Ok (sample : list nat -> R) (sizes : list Z) (t : tensor) :
  randn sample sizes = Ok t ->
  t = mkTensor (map Z.to_nat sizes) sample /\
  Forall (fun z => (0 <= z < 2 ^ 63)%Z) sizes.
Proof.
  unfold randn. destruct (forallb is_int64 sizes) eqn:H64; cbn [negb]; [| discriminate].
  destruct (existsb (fun z => (z <? 0)%Z) sizes) eqn:Hneg; [discriminate |].
  intros [= <-]. split; [reflexivity |].
  apply Forall_forall. intros z Hz.
  rewrite forallb_forall in H64. specialize (H64 z Hz).
  unfold is_int64 in H64. apply andb_prop in H64. destruct H64 as [_ Hhi].
  apply Z.ltb_lt in Hhi. split; [| exact Hhi].
  destruct (Z.ltb_spec z 0) as [C | H0]; [| exact H0].
  exfalso. assert (Hex : existsb (fun z => (z <? 0)%Z) sizes = true).
  { apply existsb_exists. exists z. split; [exact Hz | apply Z.ltb_lt; exact C]. }
  rewrite Hex in Hneg. discriminate Hneg.
Qed.

(** ** The likelihood: normalized log-weights and the weighted log-sum-exp *)

Lemma quad_weight_grid_spec (self : Likelihood) (raw : tensor) (sites : nat) :
  raw_quad_weight_grid self = Some raw ->
  shape raw = [sites] ->
  exists w,
    quad_weight_grid self = Ok w /\
    shape w = [sites] /\
    forall s, s < sites ->
      get w [s] =
      (get raw [s] - ln (sum_upto sites (fun k => exp (get raw [k]))))%R.
Proof.
  intros Hraw Hsh.
  unfold quad_weight_grid, self_raw_quad_weight_grid. rewrite Hraw. list_simpl.
  unfold logsumexp, rank. rewrite Hsh. norm_dims. list_simpl.
  unfold sub, binop. list_simpl. rewrite Hsh, broadcast_scalar_r.
  eexists. split; [reflexivity |]. list_simpl. split; [reflexivity |].
  intros s Hs. unfold bindex. simpl. rewrite bsel by exact Hs. reflexivity.
Qed.

Lemma normalized_weights_sum_to_one (raw : tensor) (sites : nat) (w : nat -> R) :
  1 <= sites ->
  (forall s, s < sites ->
     w s = (get raw [s] - ln (sum_upto sites (fun k => exp (get raw [k]))))%R) ->
  sum_upto sites (fun s => exp (w s)) = 1%R.
Proof.
  intros HS Hw.
  set (total := sum_upto sites (fun k => exp (get raw [k]))).
  assert (HZ : (0 < total)%R).
  { unfold total, sum_upto.
    rewrite <- (map_map (fun k => get raw [k]) exp).
    apply Rsum_exp_pos. destruct sites as [| m]; [lia |]. rewrite seq_S, map_app. simpl.
    intros H. symmetry in H. revert H. apply app_cons_not_nil. }
  rewrite (sum_upto_ext sites _ (fun s => (exp (get raw [s]) * / total)%R)).
  - unfold sum_upto.
    rewrite <- (map_map (fun k => exp (get raw [k])) (fun x => (x * / total)%R)).
    rewrite Rsum_scale. fold (sum_upto sites (fun k => exp (get raw [k]))). fold total.
    apply Rinv_r. lra.
  - intros k Hk. rewrite (Hw k Hk). fold total.
    unfold Rminus. rewrite exp_plus, exp_Ropp, exp_ln by exact HZ. reflexivity.
Qed.

(** A value of the property body is what reading the property gives. *)
Lemma read_quad_weight_grid_Ok (self : Likelihood) (w : tensor) :
  quad_weight_grid self = Ok w -> read_quad_weight_grid self = Ok w.
Proof. intros H. unfold read_quad_weight_grid. rewrite H. reflexivity. Qed.

(** C1.  log_marginal, for either deep likelihood class ([super_log_marginal]
    is the base class's log_marginal): when the base returns a (sites x N)
    tensor and the raw weights have one entry per site, the result has one
    entry per observation, and entry n is the log-sum-exp over the sites s of
    normalized_log_weight[s] + site_log_marginal[s, n], the normalized
    log-weights being the value of the quad_weight_grid property. *)
Theorem log_marginal_is_weighted_logsumexp
    (Observations FunctionDist : Type)
    (super_log_marginal : Observations -> FunctionDist -> result tensor)
    (self : Likelihood) (observations : Observations) (function_dist : FunctionDist)
    (raw base : tensor) (sites N : nat) :
  raw_quad_weight_grid self = Some raw ->
  shape raw = [sites] ->
  super_log_marginal observations function_dist = Ok base ->
  shape base = [sites; N] ->
  exists w out,
    quad_weight_grid self = Ok w /\
    log_marginal Observations FunctionDist super_log_marginal
                 self observations function_dist = Ok out /\
    shape out = [N] /\
    forall n, n < N ->
      get out [n] =
      ln (sum_upto sites (fun s => exp (get w [s] + get base [s; n])%R)).
Proof.
  intros Hraw Hsh Hbase Hbsh.
  destruct (quad_weight_grid_spec self raw sites Hraw Hsh) as [w [Hw [Hwsh _]]].
  exists w. unfold log_marginal.
  rewrite Hbase, (read_quad_weight_grid_Ok self w Hw). list_simpl.
  unfold unsqueeze, rank. rewrite Hwsh. norm_dims. list_simpl.
  unfold add, binop. list_simpl. rewrite Hbsh, broadcast_col.
  unfold logsumexp, rank. list_simpl. norm_dims. list_simpl.
  eexists. split; [exact Hw |]. split; [reflexivity |].
  split; [reflexivity |].
  intros n Hn. list_simpl. f_equal. apply sum_upto_ext. intros k Hk.
  unfold bindex. simpl. rewrite !bsel by assumption. reflexivity.
Qed.

Lemma shape_eqb_refl (sh : list nat) : shape_eqb sh sh = true.
Proof.
  induction sh as [| x sh IH]; simpl; [reflexivity |].
  rewrite Nat.eqb_refl. exact IH.
Qed.

Lemma stack_spec (ts : list tensor) (sh : list nat) :
  ts <> [] ->
  (forall t, In t ts -> shape t = sh) ->
  exists r,
    stack ts = Ok r /\
    shape r = length ts :: sh /\
    forall i rest d, i < length ts -> get r (i :: rest) = get (nth i ts d) rest.
Proof.
  intros Hne Hall. destruct ts as [| t0 ts']; [contradiction |].
  unfold stack.
  assert (Hchk : forallb (fun t => shape_eqb (shape t) (shape t0)) (t0 :: ts') = true).
  { apply forallb_forall. intros t Ht.
    rewrite (Hall t Ht), (Hall t0 (or_introl eq_refl)). apply shape_eqb_refl. }
  rewrite Hchk. eexists. split; [reflexivity |]. cbn [shape get]. split.
  - rewrite (Hall t0 (or_introl eq_refl)). reflexivity.
  - intros i rest d Hi. f_equal. apply nth_indep. exact Hi.
Qed.

Lemma hermgauss_table_contract : hermgauss_contract hermgauss_table.
Proof.
  intros deg x w. unfold hermgauss_table.
  destruct (Z.leb_spec deg 0); [discriminate |].
  destruct (Z.eqb_spec deg 1); [subst; intros [= <- <-]; repeat split; lia |].
  destruct (Z.eqb_spec deg 2); [subst; intros [= <- <-]; repeat split; lia |].
  destruct (Z.eqb_spec deg 3); [subst; intros [= <- <-]; repeat split; lia |].
  discriminate.
Qed.

(** The raw log-weights a constructed likelihood holds: one per site, with at
    least one site unless the strategy is freeform and the order is 0. *)
Lemma Likelihood_init_raw (hermgauss : Z -> result (list R * list R))
    (sample : list nat -> R) (dims Q : Z) (strategy : string) (self : Likelihood) :
  hermgauss_contract hermgauss ->
  In strategy ["flipgrid"; "freegrid"; "freeform"] ->
  Likelihood_init hermgauss sample dims Q strategy = Ok self ->
  exists raw sites,
    raw_quad_weight_grid self = Some raw /\
    shape raw = [sites] /\
    (strategy <> "freeform" -> sites = Z.to_nat Q ^ Z.to_nat dims /\ 1 <= sites) /\
    (strategy = "freeform" -> sites = Z.to_nat Q).
Proof.
  intros Hc Hin Hinit. unfold Likelihood_init in Hinit.
  assert (Hgrid : forall xw,
             hermgauss Q = Ok xw ->
             (raw <- stack (map of_list
                              (product (repeat (map ln (snd xw)) (Z.to_nat dims)))) ;;
              data <- sum_dim raw (-1) ;;
              Ok (mkLikelihood Q (Some data))) = Ok self ->
             exists raw sites,
               raw_quad_weight_grid self = Some raw /\
               shape raw = [sites] /\
               sites = Z.to_nat Q ^ Z.to_nat dims /\ 1 <= sites).
  { intros [x w] Hh Hrest. destruct (Hc Q x w Hh) as [HQ [_ Hw]]. simpl snd in Hrest.
    set (pools := repeat (map ln w) (Z.to_nat dims)) in *.
    assert (Hpools : Forall (fun p => length p = Z.to_nat Q) pools).
    { apply Forall_forall. intros p Hp. apply repeat_spec in Hp. subst p.
      rewrite length_map. exact Hw. }
    assert (Hlen : length (product pools) = Z.to_nat Q ^ Z.to_nat dims).
    { rewrite (product_length (Z.to_nat Q)) by exact Hpools.
      unfold pools. rewrite repeat_length. reflexivity. }
    assert (Hpos : 1 <= Z.to_nat Q ^ Z.to_nat dims).
    { assert (Z.to_nat Q ^ Z.to_nat dims <> 0) by (apply Nat.pow_nonzero; lia). lia. }
    destruct (stack_spec (map of_list (product pools)) [Z.to_nat dims])
      as [raw [Hraw [Hrsh _]]].
    - intros Hnil. apply (f_equal (@length tensor)) in Hnil.
      rewrite length_map, Hlen in Hnil. simpl in Hnil. lia.
    - intros t Ht. apply in_map_iff in Ht. destruct Ht as [tup [<- Htup]].
      simpl. rewrite (product_elem_length _ _ Htup). unfold pools.
      rewrite repeat_length. reflexivity.
    - rewrite Hraw in Hrest. cbn [bind] in Hrest.
      unfold sum_dim, rank in Hrest. rewrite Hrsh in Hrest.
      norm_dims_in Hrest. cbn [bind] in Hrest.
      injection Hrest as <-. cbn [raw_quad_weight_grid].
      eexists. eexists. split; [reflexivity |]. list_simpl.
      rewrite length_map, Hlen. repeat split; try reflexivity. exact Hpos. }
  simpl in Hin. destruct Hin as [<- | [<- | [<- | []]]].
  - simpl in Hinit. apply bind_Ok in Hinit. destruct Hinit as [xw [Hh Hrest]].
    destruct (Hgrid xw Hh Hrest) as [raw [sites [H1 [H2 [H3 H4]]]]].
    exists raw, sites. repeat split; try assumption. discriminate.
  - simpl in Hinit. apply bind_Ok in Hinit. destruct Hinit as [xw [Hh Hrest]].
    destruct (Hgrid xw Hh Hrest) as [raw [sites [H1 [H2 [H3 H4]]]]].
    exists raw, sites. repeat split; try assumption. discriminate.
  - change (existsb (String.eqb "freeform") ["flipgrid"; "freegrid"]) with false in Hinit.
    change ("freeform" =? "freeform")%string with true in Hinit. cbv iota in Hinit.
    apply bind_Ok in Hinit. destruct Hinit as [r [Hr Hinit]].
    apply randn_Ok in Hr. destruct Hr as [-> _].
    injection Hinit as <-. simpl.
    exists (mkTensor [Z.to_nat Q] sample), (Z.to_nat Q).
    split; [reflexivity |]. split; [reflexivity |]. split; [| reflexivity].
    intros H. contradiction H. reflexivity.
Qed.

Lemma indices_1d (n : nat) : indices [n] = map (fun i => [i]) (seq 0 n).
Proof.
  simpl. induction (seq 0 n) as [| i l IH]; simpl; [reflexivity |].
  rewrite IH. reflexivity.
Qed.

Lemma sum_all_exp_1d (w : tensor) (n : nat) :
  shape w = [n] ->
  get (sum_all (tmap exp w)) [] = sum_upto n (fun s => exp (get w [s])).
Proof.
  intros Hsh. unfold sum_all, tmap, scalar, sum_upto. cbn [get shape].
  rewrite Hsh, indices_1d, map_map. reflexivity.
Qed.

(** C4, amended.  For every deep likelihood constructed with one of the three
    strategies that has at least one quadrature site (every flipgrid or
    freegrid likelihood, whose construction succeeds only for order >= 1, and
    every freeform likelihood of order >= 1), the quad_weight_grid property
    is the raw log-weights minus their log-sum-exp, and the exponentials of
    the normalized log-weights sum to 1 over the reals. *)
Theorem quad_weight_grid_sums_to_one
    (hermgauss : Z -> result (list R * list R)) (sample : list nat -> R)
    (dims Q : Z) (strategy : string) (self : Likelihood) :
  hermgauss_contract hermgauss ->
  In strategy ["flipgrid"; "freegrid"; "freeform"] ->
  (strategy = "freeform" -> (1 <= Q)%Z) ->
  Likelihood_init hermgauss sample dims Q strategy = Ok self ->
  exists raw w sites,
    raw_quad_weight_grid self = Some raw /\
    shape raw = [sites] /\
    quad_weight_grid self = Ok w /\
    shape w = [sites] /\
    (forall s, s < sites ->
       get w [s] =
       (get raw [s] - ln (sum_upto sites (fun k => exp (get raw [k]))))%R) /\
    get (sum_all (tmap exp w)) [] = 1%R.
Proof.
  intros Hc Hin Hfree Hinit.
  destruct (Likelihood_init_raw _ _ _ _ _ _ Hc Hin Hinit)
    as [raw [sites [Hraw [Hsh [Hgrid Hff]]]]].
  destruct (quad_weight_grid_spec self raw sites Hraw Hsh) as [w [Hw [Hwsh Hval]]].
  exists raw, w, sites. repeat (split; [assumption |]).
  rewrite (sum_all_exp_1d w sites Hwsh).
  apply (normalized_weights_sum_to_one raw); [| exact Hval].
  destruct (string_dec strategy "freeform") as [E | NE].
  - rewrite (Hff E). specialize (Hfree E). lia.
  - apply (Hgrid NE).
Qed.

(** C4 as stated fails for a freeform likelihood of order 0: construction
    succeeds with an empty weight vector, quad_weight_grid returns an empty
    tensor, and the exponentials of its entries sum to 0. *)
Lemma quad_weight_grid_order_zero_sums_to_zero :
  exists self w,
    Likelihood_init hermgauss_table (fun _ => 0%R) 1 0 "freeform" = Ok self /\
    quad_weight_grid self = Ok w /\
    shape w = [0] /\
    get (sum_all (tmap exp w)) [] <> 1%R.
Proof.
  eexists. eexists. split; [reflexivity |]. split; [reflexivity |].
  split; [reflexivity |]. simpl. lra.
Qed.

Lemma quad_weight_grid_sums_to_one_witness :
  hermgauss_contract hermgauss_table /\
  In "flipgrid" ["flipgrid"; "freegrid"; "freeform"] /\
  ("flipgrid" = "freeform" -> (1 <= 3)%Z) /\
  exists self,
    Likelihood_init hermgauss_table (fun _ => 0%R) 2 3 "flipgrid" = Ok self /\
    exists raw w sites,
      raw_quad_weight_grid self = Some raw /\
      shape raw = [sites] /\
      quad_weight_grid self = Ok w /\
      shape w = [sites] /\
      (forall s, s < sites ->
         get w [s] =
         (get raw [s] - ln (sum_upto sites (fun k => exp (get raw [k]))))%R) /\
      get (sum_all (tmap exp w)) [] = 1%R.
Proof.
  split; [exact hermgauss_table_contract |].
  split; [left; reflexivity |].
  split; [discriminate |].
  eexists. split; [reflexivity |].
  apply (quad_weight_grid_sums_to_one hermgauss_table (fun _ => 0%R) 2 3 "flipgrid").
  - exact hermgauss_table_contract.
  - left. reflexivity.
  - discriminate.
  - reflexivity.
Defined.

(** ** The grid: transposition, product, cat and stack *)

Lemma unsqueeze_scalar (p : tensor) :
  shape p = [] -> unsqueeze p (-1) = Ok (unit_vector p).
Proof.
  intros Hsh. unfold unsqueeze, rank, unit_vector. rewrite Hsh. reflexivity.
Qed.

Lemma locate_units (ts : list tensor) (d : tensor) (j : nat) :
  (forall t, In t ts -> shape t = [1]) ->
  j < length ts ->
  locate 0 ts j = Some (nth j ts d, 0).
Proof.
  revert j. induction ts as [| t ts IH]; intros j Hall Hj.
  - simpl in Hj. lia.
  - simpl. rewrite (Hall t (or_introl eq_refl)). simpl.
    destruct j as [| j]; simpl.
    + reflexivity.
    + rewrite Nat.sub_0_r. apply IH.
      * intros t' Ht'. apply Hall. right. exact Ht'.
      * simpl in Hj. lia.
Qed.

Lemma list_sum_units (ts : list tensor) :
  (forall t, In t ts -> shape t = [1]) ->
  list_sum (map (fun t => nth 0 (shape t) 0) ts) = length ts.
Proof.
  induction ts as [| t ts IH]; intros Hall; simpl.
  - reflexivity.
  - rewrite (Hall t (or_introl eq_refl)). simpl. f_equal.
    apply IH. intros t' Ht'. apply Hall. right. exact Ht'.
Qed.

(** torch.cat([p.unsqueeze(-1) for p in tup]) on a non-empty tuple of 0-d
    tensors: the 1-d tensor of their values. *)
Lemma cat_scalars (tup : list tensor) :
  tup <> [] ->
  (forall p, In p tup -> shape p = []) ->
  exists row,
    (ps <- mapM (fun p => unsqueeze p (-1)) tup ;; cat ps 0) = Ok row /\
    shape row = [length tup] /\
    forall j d, j < length tup -> get row [j] = get (nth j tup d) [].
Proof.
  intros Hne Hall.
  rewrite (mapM_map _ unit_vector)
    by (intros p Hp; apply unsqueeze_scalar, Hall, Hp).
  cbn [bind].
  assert (Hunits : forall t, In t (map unit_vector tup) -> shape t = [1]).
  { intros t Ht. apply in_map_iff in Ht. destruct Ht as [p [<- _]]. reflexivity. }
  destruct tup as [| p0 tup']; [contradiction |].
  unfold cat. cbn [map]. unfold rank. cbn [unit_vector shape length].
  norm_dims. cbn [bind].
  fold (unit_vector p0). change (unit_vector p0 :: map unit_vector tup')
    with (map unit_vector (p0 :: tup')).
  assert (Hchk : forallb (fun t => cat_compatible 0 (shape t) [1])
                         (map unit_vector (p0 :: tup')) = true).
  { apply forallb_forall. intros t Ht. rewrite (Hunits t Ht). reflexivity. }
  rewrite Hchk. eexists. split; [reflexivity |]. cbn [shape get]. split.
  - pose proof (list_sum_units _ Hunits) as Hs. rewrite length_map in Hs.
    cbn [map list_sum shape unit_vector nth length] in Hs.
    unfold set_at. cbn [firstn skipn app nth list_sum].
    rewrite Hs. reflexivity.
  - intros j d Hj. cbn [nth].
    rewrite (locate_units _ (unit_vector d)) by (rewrite ?length_map; assumption).
    rewrite map_nth. reflexivity.
Qed.

Lemma product_elem_in {A : Type} (pools : list (list A)) (tup : list A) (a : A) :
  In tup (product pools) -> In a tup -> exists pool, In pool pools /\ In a pool.
Proof.
  revert tup. induction pools as [| pool pools IH] using rev_ind; intros tup Hin Ha.
  - simpl in Hin. destruct Hin as [<- | []]. destruct Ha.
  - rewrite product_snoc in Hin. unfold product_step in Hin.
    apply in_flat_map in Hin. destruct Hin as [x [Hx Hin]].
    apply in_map_iff in Hin. destruct Hin as [y [<- Hy]].
    apply in_app_or in Ha. destruct Ha as [Ha | [<- | []]].
    + destruct (IH x Hx Ha) as [pl [Hpl Hapl]].
      exists pl. split; [apply in_or_app; left; exact Hpl | exact Hapl].
    + exists pool. split; [apply in_or_app; right; left; reflexivity | exact Hy].
Qed.

Lemma nth_map_seq {A : Type} (f : nat -> A) (n i : nat) (d : A) :
  i < n -> nth i (map f (seq 0 n)) d = f i.
Proof.
  intros Hi. rewrite (nth_indep _ d (f 0)) by (rewrite length_map, length_seq; exact Hi).
  rewrite (map_nth f). rewrite seq_nth by exact Hi. reflexivity.
Qed.

(** The tensor that the stack-of-cats expression builds from a Q x T
    tensor: Q^T rows of length T, row i taking from column j the entry at
    position [digit Q T i j]: the Cartesian product of the columns in
    lexicographic order. *)
Lemma stack_product_spec (x : tensor) (Q T : nat) :
  shape x = [Q; T] -> 1 <= Q -> 1 <= T ->
  exists res,
    stack_product x = Ok res /\
    shape res = [Q ^ T; T] /\
    forall i j, i < Q ^ T -> j < T -> get res [i; j] = get x [digit Q T i j; j].
Proof.
  intros Hsh HQ HT.
  unfold stack_product, t_, rank. rewrite Hsh. cbn [length Nat.leb bind rev app].
  set (xt := mkTensor [T; Q] (fun idx => get x (rev idx))).
  unfold iter at 1. cbn [shape xt bind].
  set (pools := map (fun c => map (select c) (seq 0 Q)) (map (select xt) (seq 0 T))).
  rewrite (mapM_map iter (fun c => map (select c) (seq 0 Q))); cycle 1.
  { intros c Hc. apply in_map_iff in Hc. destruct Hc as [j [<- _]]. reflexivity. }
  cbn [bind]. fold pools.
  assert (Hlenp : length pools = T).
  { unfold pools. rewrite !length_map, length_seq. reflexivity. }
  assert (Hpools : Forall (fun p => length p = Q) pools).
  { apply Forall_forall. intros p Hp. unfold pools in Hp.
    apply in_map_iff in Hp. destruct Hp as [c [<- _]].
    rewrite length_map, length_seq. reflexivity. }
  assert (Hscal : forall tup p, In tup (product pools) -> In p tup -> shape p = []).
  { intros tup p Htup Hp.
    destruct (product_elem_in pools tup p Htup Hp) as [pool [Hpool Hin]].
    unfold pools in Hpool. apply in_map_iff in Hpool. destruct Hpool as [c [<- Hc]].
    apply in_map_iff in Hc. destruct Hc as [j [<- _]].
    apply in_map_iff in Hin. destruct Hin as [q [<- _]]. reflexivity. }
  destruct (mapM_Forall2
              (fun tup => ps <- mapM (fun p => unsqueeze p (-1)) tup ;; cat ps 0)
              (fun tup row => shape row = [T] /\
                              forall j d, j < T -> get row [j] = get (nth j tup d) [])
              (product pools)) as [rows [Hrows Hrel]].
  { intros tup Htup.
    pose proof (product_elem_length pools tup Htup) as Hlt. rewrite Hlenp in Hlt.
    destruct (cat_scalars tup) as [row [Hrow [Hrsh Hrget]]].
    - intros ->. simpl in Hlt. lia.
    - intros p Hp. exact (Hscal tup p Htup Hp).
    - exists row. rewrite Hlt in *. repeat split; assumption. }
  rewrite Hrows. cbn [bind].
  assert (Hlen : length (product pools) = Q ^ T).
  { rewrite (product_length Q) by exact Hpools. rewrite Hlenp. reflexivity. }
  assert (Hlenr : length rows = Q ^ T).
  { rewrite <- Hlen. symmetry. exact (Forall2_length Hrel). }
  assert (Hpos : 1 <= Q ^ T).
  { assert (Q ^ T <> 0) by (apply Nat.pow_nonzero; lia). lia. }
  destruct (stack_spec rows [T]) as [res [Hres [Hressh Hresget]]].
  - intros ->. simpl in Hlenr. lia.
  - intros row Hrow. destruct (Forall2_In_r _ _ _ row Hrel Hrow) as [tup [_ [H _]]].
    exact H.
  - exists res. split; [exact Hres |]. split; [rewrite Hressh, Hlenr; reflexivity |].
    intros i j Hi Hj.
    rewrite (Hresget i [j] (scalar 0)) by lia.
    pose proof (Forall2_nth_rel _ _ _ [] (scalar 0) i Hrel) as Hi'.
    cbv beta in Hi'. destruct Hi' as [_ Hget]; [lia |].
    rewrite (Hget j (scalar 0) Hj).
    rewrite (product_nth Q pools (scalar 0)) by (rewrite ?Hlenp; assumption || lia).
    rewrite Hlenp.
    assert (Hd : digit Q T i j < Q) by (unfold digit; apply Nat.mod_upper_bound; lia).
    rewrite (nth_map_seq _ T j) by exact Hj. fold (digit Q T i j).
    unfold pools. rewrite map_map. rewrite (nth_map_seq _ T j) by exact Hj.
    rewrite (nth_map_seq _ Q) by exact Hd. reflexivity.
Qed.

Lemma stack_product_degenerate (x : tensor) (Q T : nat) :
  shape x = [Q; T] -> Q = 0 \/ T = 0 -> exists e, stack_product x = Raise e.
Proof.
  intros Hsh Hz.
  unfold stack_product, t_, rank. rewrite Hsh. cbn [length Nat.leb bind rev app].
  set (xt := mkTensor [T; Q] (fun idx => get x (rev idx))).
  unfold iter at 1. cbn [shape xt bind].
  rewrite (mapM_map iter (fun c => map (select c) (seq 0 Q))); cycle 1.
  { intros c Hc. apply in_map_iff in Hc. destruct Hc as [j [<- _]]. reflexivity. }
  cbn [bind].
  destruct T as [| T'].
  - eexists. reflexivity.
  - destruct Hz as [-> | Hz]; [| discriminate Hz].
    set (pools := map _ _).
    assert (Hnil : product pools = []).
    { apply length_zero_iff_nil. rewrite (product_length 0).
      - unfold pools. rewrite !length_map, length_seq. reflexivity.
      - apply Forall_forall. intros p Hp. unfold pools in Hp.
        apply in_map_iff in Hp. destruct Hp as [c [<- _]]. reflexivity. }
    rewrite Hnil. eexists. reflexivity.
Qed.

Lemma flip_sub_spec (x : tensor) (Q T : nat) :
  shape x = [Q; T] ->
  exists f xi_,
    flip0 x = Ok f /\
    sub x f = Ok xi_ /\
    shape xi_ = [Q; T] /\
    forall q j, q < Q -> j < T ->
      get xi_ [q; j] = (get x [q; j] - get x [(Q - 1 - q)%nat; j])%R.
Proof.
  intros Hsh. unfold flip0. rewrite Hsh.
  eexists. eexists. split; [reflexivity |].
  split.
  { unfold sub, binop. cbn [shape]. rewrite Hsh, broadcast_same. reflexivity. }
  cbn [shape get]. split; [reflexivity |].
  intros q j Hq Hj. unfold bindex. simpl. rewrite !bsel by assumption.
  reflexivity.
Qed.

(** Evaluating the assertion's expression on a tensor with two axes stops
    at [self.self]: the layer has no attribute of that name. *)
Lemma size_assertion_raises (self : Layer) (res : tensor) :
  length (shape res) = 2 ->
  size_assertion self res = Raise (AttributeError "self").
Proof.
  intros Hr. unfold size_assertion, size, rank. rewrite Hr. reflexivity.
Qed.

Lemma self_xi_Some (self : Layer) (x : tensor) :
  xi self = Some x -> self_xi self = Ok x.
Proof.
  intros H. unfold self_xi, getattr. simpl. rewrite H. reflexivity.
Qed.

(** The property body on the two grid strategies, by assertion mode. *)
Lemma quad_grid_grid_strategies (self : Layer) (x : tensor) (Q T : nat) :
  In (grid_strategy self) ["flipgrid"; "freegrid"] ->
  xi self = Some x -> shape x = [Q; T] -> 1 <= Q -> 1 <= T ->
  exists res,
    quad_grid false self = Ok (Some res) /\
    quad_grid true self = Raise (AttributeError "self") /\
    size_assertion self res = Raise (AttributeError "self") /\
    shape res = [Q ^ T; T] /\
    forall i j, i < Q ^ T -> j < T ->
      get res [i; j] = abscissa (grid_strategy self) x Q (digit Q T i j) j.
Proof.
  intros Hs Hxi Hsh HQ HT. pose proof (self_xi_Some self x Hxi) as Hx.
  unfold quad_grid, abscissa.
  simpl in Hs. destruct Hs as [Hs | [Hs | []]]; rewrite <- Hs; simpl String.eqb; cbv iota.
  - rewrite Hx. cbn [bind].
    destruct (flip_sub_spec x Q T Hsh) as [f [xi_ [Hf [Hsub [Hxsh Hxget]]]]].
    rewrite Hf. cbn [bind]. rewrite Hsub. cbn [bind].
    destruct (stack_product_spec xi_ Q T Hxsh HQ HT) as [res [Hres [Hrsh Hrget]]].
    rewrite Hres. cbn [bind]. exists res.
    assert (Ha : size_assertion self res = Raise (AttributeError "self"))
      by (apply size_assertion_raises; rewrite Hrsh; reflexivity).
    unfold assert_. rewrite Ha. cbn [bind].
    repeat (split; [reflexivity |]). split; [exact Hrsh |].
    intros i j Hi Hj. rewrite (Hrget i j Hi Hj).
    apply Hxget; [unfold digit; apply Nat.mod_upper_bound; lia | exact Hj].
  - rewrite Hx. cbn [bind].
    destruct (stack_product_spec x Q T Hsh HQ HT) as [res [Hres [Hrsh Hrget]]].
    rewrite Hres. cbn [bind]. exists res.
    assert (Ha : size_assertion self res = Raise (AttributeError "self"))
      by (apply size_assertion_raises; rewrite Hrsh; reflexivity).
    unfold assert_. rewrite Ha. cbn [bind].
    repeat (split; [reflexivity |]). split; [exact Hrsh |].
    exact Hrget.
Qed.

(** ** Digits of the mirrored row number *)

Lemma compl_div_mod (B c i : nat) :
  0 < B -> i < c * B ->
  (c * B - 1 - i) / B = c - 1 - i / B /\
  (c * B - 1 - i) mod B = B - 1 - i mod B.
Proof.
  intros HB Hi.
  pose proof (Nat.div_mod_eq i B) as Hdm.
  pose proof (Nat.mod_upper_bound i B ltac:(lia)) as Hr.
  assert (Ha : i / B < c) by (apply Nat.Div0.div_lt_upper_bound; lia).
  pose proof (Nat.div_mod_eq (c * B - 1 - i) B) as Hdm'.
  pose proof (Nat.mod_upper_bound (c * B - 1 - i) B ltac:(lia)) as Hr'.
  apply (Nat.div_mod_unique B); [exact Hr' | lia |].
  rewrite <- Hdm'.
  set (a := i / B) in *. set (r := i mod B) in *.
  assert (E : c = S (c - 1 - a) + a) by lia.
  rewrite E at 1. nia.
Qed.

Lemma digit_lt (Q T i j : nat) : 1 <= Q -> digit Q T i j < Q.
Proof. intros HQ. unfold digit. apply Nat.mod_upper_bound. lia. Qed.

Lemma digit_complement (Q T i j : nat) :
  1 <= Q -> i < Q ^ T -> j < T ->
  digit Q T (Q ^ T - 1 - i) j = Q - 1 - digit Q T i j.
Proof.
  intros HQ Hi Hj. unfold digit.
  set (m := T - 1 - j).
  assert (HB : 0 < Q ^ m).
  { assert (Q ^ m <> 0) by (apply Nat.pow_nonzero; lia). lia. }
  assert (HT : Q ^ T = (Q * Q ^ j) * Q ^ m).
  { replace T with (S j + m) by (unfold m; lia).
    rewrite Nat.pow_add_r, Nat.pow_succ_r'. reflexivity. }
  rewrite HT in *.
  destruct (compl_div_mod (Q ^ m) (Q * Q ^ j) i HB Hi) as [Hd _].
  rewrite Hd.
  assert (Ha : i / Q ^ m < Q ^ j * Q).
  { apply Nat.Div0.div_lt_upper_bound. lia. }
  replace (Q * Q ^ j) with (Q ^ j * Q) by lia.
  destruct (compl_div_mod Q (Q ^ j) (i / Q ^ m) ltac:(lia) Ha) as [_ Hm].
  exact Hm.
Qed.

(** ** Construction of a layer *)

Lemma assert_true (asserts : bool) : assert_ asserts (Ok true) = Ok tt.
Proof. destruct asserts; reflexivity. Qed.


Lemma Layer_init_flipgrid (asserts : bool) (hermgauss : Z -> result (list R * list R))
    (sample : list nat -> R) (input_dims_arg : Z) (output_dims_arg : option Z)
    (Q : Z) (sample_site_dims_arg : option Z) (self : Layer) :
  Layer_init asserts hermgauss sample input_dims_arg output_dims_arg Q
             "flipgrid" None sample_site_dims_arg = Ok self ->
  grid_strategy self = "flipgrid" /\
  exists x xs ws,
    hermgauss Q = Ok (xs, ws) /\
    xi self = Some x /\
    shape x = [length xs * 1; 1 * Z.to_nat (sample_site_dims self)] /\
    forall q j, j < Z.to_nat (sample_site_dims self) ->
      get x [q; j] = (1 / 2 * nth (q mod length xs) xs 0)%R.
Proof.
  unfold Layer_init. simpl existsb. rewrite assert_true. cbn [bind].
  simpl String.eqb. cbv iota.
  destruct (hermgauss Q) as [[xs ws] | e]; cbn [bind fst]; [| discriminate].
  unfold replicate_abscissae, unsqueeze, rank. cbn [of_list shape length].
  norm_dims. cbn [bind]. unfold repeat_, rank. list_simpl. int64_cases.
  cbn [Nat.eqb negb existsb Z.ltb Z.compare orb].
  set (dims := match sample_site_dims_arg with None => input_dims_arg | Some d => d end).
  destruct (dims <? 0)%Z eqn:Hd; cbn [bind orb]; [discriminate |].
  intros [= <-]. split; [reflexivity |].
  eexists. exists xs, ws. split; [reflexivity |]. split; [reflexivity |].
  cbn [sample_site_dims shape tmap get map combine fst snd]. split; [reflexivity |].
  intros q j Hj. unfold insert_at, delete_at. cbn [firstn skipn app hd].
  reflexivity.
Qed.

(** A layer constructed with a grid strategy and no xi argument holds an xi
    of Q rows and T columns, Q >= 1 being the order and T the sample-site
    dimensionality: the hypotheses of the statements on quad_grid below. *)
Lemma Layer_init_grid (asserts : bool) (hermgauss : Z -> result (list R * list R))
    (sample : list nat -> R) (input_dims_arg : Z) (output_dims_arg : option Z)
    (Q : Z) (strategy : string) (sample_site_dims_arg : option Z) (self : Layer) :
  hermgauss_contract hermgauss ->
  In strategy ["flipgrid"; "freegrid"] ->
  Layer_init asserts hermgauss sample input_dims_arg output_dims_arg Q
             strategy None sample_site_dims_arg = Ok self ->
  grid_strategy self = strategy /\
  num_sample_sites self = Q /\
  (1 <= Q)%Z /\
  (0 <= sample_site_dims self)%Z /\
  exists x,
    xi self = Some x /\
    shape x = [Z.to_nat Q; Z.to_nat (sample_site_dims self)].
Proof.
  intros Hc Hin. unfold Layer_init.
  set (dims := match sample_site_dims_arg with None => input_dims_arg | Some d => d end).
  assert (Hrep : forall xs r,
             length xs = Z.to_nat Q ->
             replicate_abscissae xs dims = Ok r ->
             shape r = [Z.to_nat Q; Z.to_nat dims] /\ (0 <= dims)%Z).
  { intros xs r Hlen. unfold replicate_abscissae, unsqueeze, rank.
    cbn [of_list shape length]. norm_dims. cbn [bind]. unfold repeat_, rank.
    list_simpl. int64_cases. cbn [Nat.eqb negb existsb Z.ltb Z.compare orb].
    destruct (Z.ltb_spec dims 0); cbn [bind orb]; [discriminate |].
    intros [= <-]. cbn [shape map combine fst snd]. rewrite Hlen.
    split; [| assumption]. f_equal; [| f_equal]; simpl; lia. }
  simpl in Hin. destruct Hin as [<- | [<- | []]];
    simpl existsb; rewrite assert_true; cbn [bind]; simpl String.eqb; cbv iota;
    (destruct (hermgauss Q) as [[xs ws] | e] eqn:Hh; cbn [bind fst]; [| discriminate]);
    destruct (Hc Q xs ws Hh) as [HQ [Hlx _]];
    (destruct (replicate_abscissae xs dims) as [r | e] eqn:Hr; cbn [bind]; [| discriminate]);
    destruct (Hrep xs r Hlx Hr) as [Hsh Hd];
    intros [= <-]; cbn [grid_strategy num_sample_sites sample_site_dims xi];
    repeat (split; [reflexivity || assumption |]);
    eexists; (split; [reflexivity |]); exact Hsh.
Qed.

(** On a freeform layer the property returns xi itself, in either assertion
    mode. *)
Lemma freeform_quad_grid_returns_xi (asserts : bool) (self : Layer) (x : tensor) :
  grid_strategy self = "freeform" ->
  xi self = Some x ->
  read_quad_grid asserts self = Ok (Some x).
Proof.
  intros Hs Hxi. unfold read_quad_grid, quad_grid. rewrite Hs.
  simpl String.eqb. cbv iota. rewrite (self_xi_Some _ _ Hxi). reflexivity.
Qed.

(** ** The quad_grid property *)

(** C2.  For a flipgrid or freegrid layer whose xi is Q x T with Q, T >= 1,
    the tensor the property builds is the Cartesian product of the T columns
    (of xi for freegrid, of xi - xi.flip for flipgrid) in lexicographic
    order, Q^T points of length T, and this is what the read returns when
    assertions are stripped (python -O); with assertions executed (the
    interpreter's default) the read raises AttributeError instead of
    returning the grid. *)
Theorem quad_grid_is_lexicographic_product (self : Layer) (x : tensor) (Q T : nat) :
  In (grid_strategy self) ["flipgrid"; "freegrid"] ->
  xi self = Some x -> shape x = [Q; T] -> 1 <= Q -> 1 <= T ->
  (exists res,
      read_quad_grid false self = Ok (Some res) /\
      shape res = [Q ^ T; T] /\
      forall i j, i < Q ^ T -> j < T ->
        get res [i; j] = abscissa (grid_strategy self) x Q (digit Q T i j) j) /\
  read_quad_grid true self = Raise (AttributeError "quad_grid").
Proof.
  intros Hs Hxi Hsh HQ HT.
  destruct (quad_grid_grid_strategies self x Q T Hs Hxi Hsh HQ HT)
    as [res [Hoff [Hon [_ [Hrsh Hget]]]]].
  unfold read_quad_grid. rewrite Hoff, Hon. split; [| reflexivity].
  exists res. repeat split; assumption.
Qed.

(** C3.  For a flipgrid or freegrid layer whose xi is Q x T with Q, T >= 1,
    evaluating the size assertion on the grid just built raises
    AttributeError at [self.self], so with assertions executed the property
    body raises AttributeError and the read of quad_grid does not complete. *)
Theorem quad_grid_assertion_raises (self : Layer) (x : tensor) (Q T : nat) :
  In (grid_strategy self) ["flipgrid"; "freegrid"] ->
  xi self = Some x -> shape x = [Q; T] -> 1 <= Q -> 1 <= T ->
  (exists res,
      quad_grid false self = Ok (Some res) /\
      size_assertion self res = Raise (AttributeError "self")) /\
  quad_grid true self = Raise (AttributeError "self") /\
  read_quad_grid true self = Raise (AttributeError "quad_grid").
Proof.
  intros Hs Hxi Hsh HQ HT.
  destruct (quad_grid_grid_strategies self x Q T Hs Hxi Hsh HQ HT)
    as [res [Hoff [Hon [Hassert _]]]].
  unfold read_quad_grid. rewrite Hon. split; [| split; reflexivity].
  exists res. split; assumption.
Qed.

Lemma read_quad_grid_Ok (asserts : bool) (self : Layer) (g : option tensor) :
  read_quad_grid asserts self = Ok g -> quad_grid asserts self = Ok g.
Proof.
  unfold read_quad_grid. destruct (quad_grid asserts self) as [g' | e].
  - intros H. exact H.
  - destruct e; discriminate.
Qed.

(** A grid built from xi - xi.flip(dims=[0]) is symmetric about zero,
    whatever xi holds: row Q^T - 1 - i is the negation of row i. *)
Lemma flipgrid_symmetric (asserts : bool) (self : Layer) (x g : tensor) (Q T : nat) :
  grid_strategy self = "flipgrid" ->
  xi self = Some x -> shape x = [Q; T] ->
  quad_grid asserts self = Ok (Some g) ->
  symmetric_grid g.
Proof.
  intros Hs Hxi Hsh Hg.
  destruct (Nat.eq_dec Q 0) as [HQ0 | HQ0]; [| destruct (Nat.eq_dec T 0) as [HT0 | HT0]].
  1, 2: exfalso; unfold quad_grid in Hg; rewrite Hs in Hg; simpl String.eqb in Hg;
    cbv iota in Hg; rewrite (self_xi_Some self x Hxi) in Hg; cbn [bind] in Hg;
    destruct (flip_sub_spec x Q T Hsh) as [f [xi_ [Hf [Hsub [Hxsh _]]]]];
    rewrite Hf in Hg; cbn [bind] in Hg; rewrite Hsub in Hg; cbn [bind] in Hg;
    destruct (stack_product_degenerate xi_ Q T Hxsh ltac:(lia)) as [e He];
    rewrite He in Hg; discriminate Hg.
  assert (HQ : 1 <= Q) by lia. assert (HT : 1 <= T) by lia.
  destruct (quad_grid_grid_strategies self x Q T) as [res [Hoff [Hon [_ [Hrsh Hget]]]]];
    try assumption.
  { rewrite Hs. left. reflexivity. }
  assert (g = res).
  { destruct asserts; rewrite ?Hon, ?Hoff in Hg; [discriminate | congruence]. }
  subst g. unfold symmetric_grid. rewrite Hrsh. cbn [nth].
  assert (Hpos : 1 <= Q ^ T).
  { assert (Q ^ T <> 0) by (apply Nat.pow_nonzero; lia). lia. }
  intros i Hi. exists (Q ^ T - 1 - i). split; [lia |].
  intros j Hj. rewrite !Hget by (assumption || lia).
  rewrite digit_complement by assumption.
  rewrite Hs. unfold abscissa. simpl String.eqb. cbv iota.
  pose proof (digit_lt Q T i j HQ) as Hd.
  replace (Q - 1 - (Q - 1 - digit Q T i j)) with (digit Q T i j) by lia.
  lra.
Qed.

(** C8.  For a flipgrid layer as constructed (xi not passed in, so xi is 0.5
    times the Gauss-Hermite abscissae replicated over the sample-site
    dimensions), the grid realized from xi - xi.flip(dims=[0]) is symmetric
    about zero: the negation of each grid point is a grid point.  This holds
    of the tensor the stack-of-product expression builds from the flipped
    difference, and of every grid that a read of quad_grid returns. *)
Theorem flipgrid_initial_grid_symmetric
    (asserts asserts' : bool) (hermgauss : Z -> result (list R * list R))
    (sample : list nat -> R) (input_dims_arg : Z) (output_dims_arg : option Z)
    (Q : Z) (sample_site_dims_arg : option Z) (self : Layer) :
  Layer_init asserts hermgauss sample input_dims_arg output_dims_arg Q
             "flipgrid" None sample_site_dims_arg = Ok self ->
  exists x f xi_,
    xi self = Some x /\
    flip0 x = Ok f /\
    sub x f = Ok xi_ /\
    (forall res, stack_product xi_ = Ok res -> symmetric_grid res) /\
    (forall g, read_quad_grid asserts' self = Ok (Some g) -> symmetric_grid g).
Proof.
  intros Hinit.
  destruct (Layer_init_flipgrid _ _ _ _ _ _ _ _ Hinit)
    as [Hs [x [xs [ws [_ [Hxi [Hsh _]]]]]]].
  destruct (flip_sub_spec x _ _ Hsh) as [f [xi_ [Hf [Hsub _]]]].
  exists x, f, xi_. repeat (split; [assumption |]). split.
  - intros res Hres.
    apply (flipgrid_symmetric false self x res _ _ Hs Hxi Hsh).
    unfold quad_grid. rewrite Hs. simpl String.eqb. cbv iota.
    rewrite (self_xi_Some self x Hxi). cbn [bind].
    rewrite Hf. cbn [bind]. rewrite Hsub. cbn [bind]. rewrite Hres. reflexivity.
  - intros g Hread. apply read_quad_grid_Ok in Hread.
    exact (flipgrid_symmetric asserts' self x g _ _ Hs Hxi Hsh Hread).
Qed.


(** ** The tensor handed on by [__call__] *)

Lemma quadrature_inputs_expand
    (asserts : bool) (self : Layer) (g mean variance : tensor) (sites N T : nat) :
  read_quad_grid asserts self = Ok (Some g) ->
  shape g = [sites; T] ->
  shape mean = [N; T] -> shape variance = [N; T] ->
  exists r,
    quadrature_inputs asserts self (MMVN mean variance) true = Ok (Tensor r) /\
    shape r = [sites; N; T] /\
    forall s n t, s < sites -> n < N -> t < T ->
      get r [s; n; t] =
      (get mean [n; t] + sqrt (get variance [n; t]) * get g [s; t])%R.
Proof.
  intros Hg Hgsh Hm Hv.
  unfold quadrature_inputs. unfold unsqueeze at 1 2, rank.
  cbn [tmap shape]. rewrite Hm, Hv. norm_dims. list_simpl.
  rewrite Hg. cbn [bind]. unfold unsqueeze, rank. rewrite Hgsh. norm_dims.
  list_simpl. cbn [fst snd].
  unfold mul, binop. cbn [shape]. list_simpl.
  rewrite broadcast_sites_batch. cbn [bind].
  unfold add, binop. cbn [shape]. rewrite broadcast_lead_one.
  eexists. split; [reflexivity |]. cbn [shape get]. split; [reflexivity |].
  intros s n t Hs Hn Ht. unfold bindex. simpl.
  bsel_all. reflexivity.
Qed.

Lemma quadrature_inputs_prealigned
    (asserts : bool) (self : Layer) (g mean variance : tensor) (sites N T : nat) :
  read_quad_grid asserts self = Ok (Some g) ->
  shape g = [sites; T] ->
  shape mean = [sites; N; T] -> shape variance = [sites; N; T] ->
  exists r,
    quadrature_inputs asserts self (MMVN mean variance) false = Ok (Tensor r) /\
    shape r = [sites; N; T] /\
    forall s n t, s < sites -> n < N -> t < T ->
      get r [s; n; t] =
      (get mean [s; n; t] + sqrt (get variance [s; n; t]) * get g [s; t])%R.
Proof.
  intros Hg Hgsh Hm Hv.
  unfold quadrature_inputs. cbn [bind]. rewrite Hg. cbn [bind].
  unfold unsqueeze, rank. rewrite Hgsh. norm_dims. list_simpl. cbn [fst snd].
  unfold mul, binop. cbn [tmap shape]. rewrite Hv. list_simpl.
  rewrite broadcast_batch_one. cbn [bind].
  unfold add, binop. cbn [shape]. rewrite Hm, broadcast_same.
  eexists. split; [reflexivity |]. cbn [shape get]. split; [reflexivity |].
  intros s n t Hs Hn Ht. unfold bindex. simpl.
  bsel_all. reflexivity.
Qed.

(** inputs.mean.unsqueeze(-3) succeeds on every tensor of two or more axes. *)
Lemma unsqueeze_batch_axis (t : tensor) :
  2 <= rank t -> exists u, unsqueeze t (-3) = Ok u.
Proof.
  intros Hr. unfold unsqueeze, norm_dim.
  destruct (Z.leb_spec (- Z.of_nat (S (rank t))) (-3)) as [_ | C]; [| lia].
  destruct (Z.ltb_spec (-3) (Z.of_nat (S (rank t)))) as [_ | C]; [| lia].
  cbn [andb bind]. eexists. reflexivity.
Qed.

(** Whatever stops the read of the grid stops the quadrature, and whatever
    stops the quadrature stops [__call__]. *)
Lemma quadrature_inputs_read_raises
    (asserts : bool) (self : Layer) (mean variance : tensor) (err : exn)
    (expand_for_quadgrid : bool) :
  2 <= rank mean -> 2 <= rank variance ->
  read_quad_grid asserts self = Raise err ->
  quadrature_inputs asserts self (MMVN mean variance) expand_for_quadgrid = Raise err.
Proof.
  intros Hm Hv Hread. unfold quadrature_inputs.
  destruct expand_for_quadgrid.
  - destruct (unsqueeze_batch_axis mean Hm) as [um Hum].
    destruct (unsqueeze_batch_axis (tmap sqrt variance) Hv) as [uv Huv].
    rewrite Hum, Huv. cbn [bind]. rewrite Hread. reflexivity.
  - cbn [bind]. rewrite Hread. reflexivity.
Qed.

Lemma quadrature_inputs_no_grid
    (asserts : bool) (self : Layer) (mean variance : tensor)
    (expand_for_quadgrid : bool) :
  2 <= rank mean -> 2 <= rank variance ->
  read_quad_grid asserts self = Ok None ->
  quadrature_inputs asserts self (MMVN mean variance) expand_for_quadgrid =
  Raise (AttributeError "unsqueeze").
Proof.
  intros Hm Hv Hread. unfold quadrature_inputs.
  destruct expand_for_quadgrid.
  - destruct (unsqueeze_batch_axis mean Hm) as [um Hum].
    destruct (unsqueeze_batch_axis (tmap sqrt variance) Hv) as [uv Huv].
    rewrite Hum, Huv. cbn [bind]. rewrite Hread. reflexivity.
  - cbn [bind]. rewrite Hread. reflexivity.
Qed.

Lemma call_inputs_quadrature_raises
    (asserts debug : bool) (self : Layer) (inputs : pyobj) (others : list tensor)
    (expand_for_quadgrid : bool) (err : exn) :
  quadrature_inputs asserts self inputs expand_for_quadgrid = Raise err ->
  call_inputs asserts debug self inputs others expand_for_quadgrid = Raise err.
Proof. intros H. unfold call_inputs. rewrite H. reflexivity. Qed.

(** C5.  For a flipgrid or freegrid layer whose xi is Q x T with Q, T >= 1,
    and a distribution input (mean mu, variance with non-negative entries):
    when assertions are stripped (python -O) the read of quad_grid returns
    the grid g of Q^T sites and, with expand_for_quadgrid true and mu,
    variance of shape (N, T), the tensor that replaces the input has shape
    (Q^T, N, T) and entry [s, n, t] equal to
    mu[n, t] + sqrt(variance[n, t]) * g[s, t] (mu and sigma get a new
    leading axis, the grid an axis before the batch axis), while with
    expand_for_quadgrid false and mu', variance' already of shape
    (Q^T, N, T) no axis is added to them and entry [s, n, t] is
    mu'[s, n, t] + sqrt(variance'[s, n, t]) * g[s, t]; with assertions
    executed (the interpreter's default) the read of the grid raises, so
    the quadrature and [__call__] raise AttributeError and no tensor is
    passed onward, whatever expand_for_quadgrid, the debug mode and the
    other inputs are. *)
Theorem quadrature_inputs_mu_plus_sigma_grid
    (self : Layer) (x mean variance mean' variance' : tensor) (Q T N : nat) :
  In (grid_strategy self) ["flipgrid"; "freegrid"] ->
  xi self = Some x -> shape x = [Q; T] -> 1 <= Q -> 1 <= T ->
  shape mean = [N; T] -> shape variance = [N; T] ->
  (forall idx, (0 <= get variance idx)%R) ->
  shape mean' = [Q ^ T; N; T] -> shape variance' = [Q ^ T; N; T] ->
  (forall idx, (0 <= get variance' idx)%R) ->
  (exists g,
     read_quad_grid false self = Ok (Some g) /\
     shape g = [Q ^ T; T] /\
     (exists r,
        quadrature_inputs false self (MMVN mean variance) true = Ok (Tensor r) /\
        shape r = [Q ^ T; N; T] /\
        forall s n t, s < Q ^ T -> n < N -> t < T ->
          get r [s; n; t] =
          (get mean [n; t] + sqrt (get variance [n; t]) * get g [s; t])%R) /\
     (exists r,
        quadrature_inputs false self (MMVN mean' variance') false = Ok (Tensor r) /\
        shape r = [Q ^ T; N; T] /\
        forall s n t, s < Q ^ T -> n < N -> t < T ->
          get r [s; n; t] =
          (get mean' [s; n; t] + sqrt (get variance' [s; n; t]) * get g [s; t])%R)) /\
  (forall expand_for_quadgrid,
     quadrature_inputs true self (MMVN mean variance) expand_for_quadgrid =
     Raise (AttributeError "quad_grid")) /\
  (forall debug other_inputs expand_for_quadgrid,
     call_inputs true debug self (MMVN mean variance) other_inputs expand_for_quadgrid =
     Raise (AttributeError "quad_grid")).
Proof.
  intros Hs Hxi Hsh HQ HT Hm Hv _ Hm' Hv' _.
  destruct (quad_grid_grid_strategies self x Q T Hs Hxi Hsh HQ HT)
    as [g [Hoff [Hon [_ [Hgsh _]]]]].
  assert (Hread : read_quad_grid false self = Ok (Some g))
    by (unfold read_quad_grid; rewrite Hoff; reflexivity).
  assert (Hraise : read_quad_grid true self = Raise (AttributeError "quad_grid"))
    by (unfold read_quad_grid; rewrite Hon; reflexivity).
  assert (Hq : forall e, quadrature_inputs true self (MMVN mean variance) e =
                         Raise (AttributeError "quad_grid")).
  { intros e. apply quadrature_inputs_read_raises; [| | exact Hraise].
    - unfold rank. rewrite Hm. simpl. lia.
    - unfold rank. rewrite Hv. simpl. lia. }
  split; [| split].
  - exists g. split; [exact Hread |]. split; [exact Hgsh |]. split.
    + exact (quadrature_inputs_expand false self g mean variance (Q ^ T) N T
               Hread Hgsh Hm Hv).
    + exact (quadrature_inputs_prealigned false self g mean' variance' (Q ^ T) N T
               Hread Hgsh Hm' Hv').
  - exact Hq.
  - intros debug others e. apply call_inputs_quadrature_raises. exact (Hq e).
Qed.

(** With no extra inputs, debug mode off and no output dimensions, what
    [__call__] hands to ApproximateGP.__call__ is the value computed by lines
    79-97. *)
Lemma call_inputs_plain (asserts : bool) (self : Layer) (inputs : pyobj)
    (expand_for_quadgrid : bool) :
  output_dims self = None ->
  call_inputs asserts false self inputs [] expand_for_quadgrid =
  quadrature_inputs asserts self inputs expand_for_quadgrid.
Proof.
  intros Hod. unfold call_inputs.
  destruct (quadrature_inputs asserts self inputs expand_for_quadgrid) as [o | e];
    [| reflexivity].
  cbn [bind concat_other_inputs length Nat.ltb Nat.leb debug_checks].
  unfold repeat_for_outputs. rewrite Hod. reflexivity.
Qed.

(** Sizes that fit in an int64 pass the argument check of expand. *)
Lemma is_int64_bounds (z : Z) : (- 2 ^ 63 <= z < 2 ^ 63)%Z -> is_int64 z = true.
Proof.
  intros [Hlo Hhi]. unfold is_int64.
  apply andb_true_intro. split; [apply Z.leb_le | apply Z.ltb_lt]; assumption.
Qed.

Lemma is_int64_of_nat (n : nat) : int64_extent n -> is_int64 (Z.of_nat n) = true.
Proof.
  unfold int64_extent. intros H. apply is_int64_bounds. split; [| exact H].
  apply Z.le_trans with 0%Z; [discriminate | apply Nat2Z.is_nonneg].
Qed.

Lemma expand_int64 (t : tensor) (sizes : list Z) :
  forallb is_int64 sizes = true ->
  expand t sizes =
  match expand_shape_rev (rev (shape t)) (rev sizes) with
  | Some sh => Ok (mkTensor (rev sh) (fun idx => get t (bindex (shape t) idx)))
  | None => Raise (RuntimeError "expanded size must match the existing size")
  end.
Proof. intros H. unfold expand. rewrite H. reflexivity. Qed.

(** An extra input of shape (N, d) is expanded to num_sample_sites copies,
    and concatenating it with an input of S sites succeeds exactly when S is
    num_sample_sites. *)
Lemma concat_other_inputs_site_axis (self : Layer) (t inp : tensor) (S' N D d : nat) :
  (0 <= num_sample_sites self < 2 ^ 63)%Z ->
  int64_extent N -> int64_extent d ->
  shape t = [S'; N; D] -> shape inp = [N; d] ->
  (exists r, process_other_input self inp = Ok r /\
             shape r = [Z.to_nat (num_sample_sites self); N; d]) /\
  (S' <> Z.to_nat (num_sample_sites self) ->
   concat_other_inputs self (Tensor t) [inp] =
   Raise (RuntimeError "sizes of tensors must match except in the cat dimension")) /\
  (S' = Z.to_nat (num_sample_sites self) ->
   exists c, concat_other_inputs self (Tensor t) [inp] = Ok (Tensor c) /\
             shape c = [S'; N; D + d]).
Proof.
  intros HQ HN Hd Ht Hinp.
  assert (Hproc : exists r, process_other_input self inp = Ok r /\
                            shape r = [Z.to_nat (num_sample_sites self); N; d]).
  { unfold process_other_input, unsqueeze, rank. rewrite Hinp. norm_dims. list_simpl.
    rewrite expand_int64.
    2:{ cbn [map forallb].
        rewrite (is_int64_bounds (num_sample_sites self)) by lia.
        rewrite !is_int64_of_nat by assumption. reflexivity. }
    cbn [shape map rev app expand_shape_rev].
    rewrite !Z.eqb_refl, !orb_true_r. cbn [option_map].
    destruct (Z.eqb_spec (num_sample_sites self) (-1)) as [E | _]; [lia |].
    cbn [orb].
    destruct (Z.eqb_spec (num_sample_sites self) (Z.of_nat 1)) as [E | _].
    - rewrite E. eexists. split; reflexivity.
    - destruct (Z.leb_spec 0 (num_sample_sites self)) as [_ | C]; [| lia].
      eexists. split; reflexivity. }
  split; [exact Hproc |].
  destruct Hproc as [r [Hr Hrsh]].
  unfold concat_other_inputs. cbn [length Nat.ltb Nat.leb mapM].
  rewrite Hr. cbn [bind]. unfold cat, rank. rewrite Ht. norm_dims. cbn [bind forallb].
  rewrite Hrsh, Ht. unfold cat_compatible, set_at.
  cbn [length Nat.eqb firstn skipn app shape_eqb].
  rewrite !Nat.eqb_refl. cbn [andb].
  split.
  - intros Hne. destruct (Nat.eqb_spec (Z.to_nat (num_sample_sites self)) S'); [lia |].
    reflexivity.
  - intros <-. rewrite Nat.eqb_refl. cbn [andb bind].
    eexists. split; [reflexivity |]. cbn [shape map nth list_sum].
    rewrite Ht, Hrsh. cbn [nth]. unfold list_sum. cbn [fold_right].
    rewrite Nat.add_0_r. reflexivity.
Qed.

(** C7.  A flipgrid layer of order 2 over 2 sample-site dimensions (input
    dimensionality 3: two distribution features and one extra covariate),
    with assertions stripped so that the grid can be read: the grid has
    4 = 2^2 sites and the quadrature-expanded input has 4 sites, the extra
    input is expanded to num_sample_sites = 2 copies, and the concatenation
    raises. *)
Theorem other_inputs_expanded_to_order_not_site_count :
  exists self g u r,
    Layer_init false hermgauss_table (fun _ => 0%R) 3 None 2 "flipgrid" None (Some 2%Z)
      = Ok self /\
    read_quad_grid false self = Ok (Some g) /\
    shape g = [4; 2] /\
    quadrature_inputs false self
      (MMVN (mkTensor [1; 2] (fun _ => 0%R)) (mkTensor [1; 2] (fun _ => 1%R))) true
      = Ok (Tensor u) /\
    shape u = [4; 1; 2] /\
    process_other_input self (mkTensor [1; 1] (fun _ => 0%R)) = Ok r /\
    shape r = [2; 1; 1] /\
    call_inputs false false self
      (MMVN (mkTensor [1; 2] (fun _ => 0%R)) (mkTensor [1; 2] (fun _ => 1%R)))
      [mkTensor [1; 1] (fun _ => 0%R)] true
      = Raise (RuntimeError "sizes of tensors must match except in the cat dimension").
Proof.
  assert (Hex : exists self,
             Layer_init false hermgauss_table (fun _ => 0%R) 3 None 2 "flipgrid"
                        None (Some 2%Z) = Ok self)
    by (eexists; reflexivity).
  destruct Hex as [self Hinit]. exists self.
  destruct (Layer_init_grid _ _ _ _ _ _ _ _ _ hermgauss_table_contract
              (or_introl eq_refl) Hinit)
    as [Hs [HQ [_ [_ [x [Hxi Hsh]]]]]].
  assert (Hdims : sample_site_dims self = 2%Z).
  { unfold Layer_init in Hinit. cbn [assert_ bind] in Hinit.
    apply bind_Ok in Hinit. destruct Hinit as [x' [_ [= <-]]]. reflexivity. }
  rewrite Hdims in Hsh. change (Z.to_nat 2) with 2 in Hsh.
  destruct (quad_grid_grid_strategies self x 2 2) as [g [Hoff [_ [_ [Hgsh _]]]]];
    try assumption; try lia.
  { rewrite Hs. left. reflexivity. }
  assert (Hread : read_quad_grid false self = Ok (Some g))
    by (unfold read_quad_grid; rewrite Hoff; reflexivity).
  destruct (quadrature_inputs_expand false self g
              (mkTensor [1; 2] (fun _ => 0%R)) (mkTensor [1; 2] (fun _ => 1%R))
              4 1 2 Hread Hgsh eq_refl eq_refl) as [u [Hu [Hush _]]].
  destruct (concat_other_inputs_site_axis self u (mkTensor [1; 1] (fun _ => 0%R))
              4 1 2 1) as [[r [Hr Hrsh]] [Hmis _]];
    try assumption; try reflexivity.
  { rewrite HQ. lia. }
  rewrite HQ in Hrsh, Hmis. change (Z.to_nat 2) with 2 in Hrsh, Hmis.
  exists g, u, r. repeat (split; [assumption |]).
  unfold call_inputs. rewrite Hu. cbn [bind]. rewrite Hmis by lia. reflexivity.
Qed.

(** ** The debug-mode checks *)

Lemma debug_checks_off (self : Layer) (inputs : pyobj) :
  debug_checks false self inputs = Ok tt.
Proof. reflexivity. Qed.

Lemma debug_checks_shape_mismatch (self : Layer) (t : tensor) (n : nat) :
  size t (-1) = Ok n ->
  Z.of_nat n <> input_dims self ->
  debug_checks true self (Tensor t) =
  Raise (RuntimeError
           ("Input shape did not match self.input_dims. Got total feature dims ["
              ++ str_int (Z.of_nat n) ++ "], expected ["
              ++ str_int (input_dims self) ++ "]")).
Proof.
  intros Hn Hne. unfold debug_checks. cbn [is_tensor negb bind pyobj_size].
  rewrite Hn. cbn [bind].
  destruct (Z.eqb_spec (Z.of_nat n) (input_dims self)) as [E | _]; [contradiction |].
  cbn [negb]. reflexivity.
Qed.

Lemma debug_checks_shape_match (self : Layer) (t : tensor) (n : nat) :
  size t (-1) = Ok n ->
  Z.of_nat n = input_dims self ->
  debug_checks true self (Tensor t) = Ok tt.
Proof.
  intros Hn He. unfold debug_checks. cbn [is_tensor negb bind pyobj_size].
  rewrite Hn. cbn [bind].
  rewrite He, Z.eqb_refl. reflexivity.
Qed.

(** C10.  With debug mode on and an input that is neither a distribution nor
    a tensor (an object of class [cls]), building the ValueError's message
    evaluates inputs.__class__.__Name__, which is not an attribute of a
    class: the check raises AttributeError, and so does [__call__]; the
    ValueError naming the class is never raised. *)
Theorem debug_type_check_raises_attribute_error
    (asserts : bool) (self : Layer) (cls : string) (expand_for_quadgrid : bool) :
  debug_checks true self (Other cls) = Raise (AttributeError "__Name__") /\
  call_inputs asserts true self (Other cls) [] expand_for_quadgrid =
  Raise (AttributeError "__Name__") /\
  forall msg, call_inputs asserts true self (Other cls) [] expand_for_quadgrid <>
              Raise (ValueError msg).
Proof.
  split; [reflexivity |]. split; [reflexivity |].
  intros msg. discriminate.
Qed.

(** ** The composite KL divergence *)

Lemma collect_strategies_layers (vss : list VariationalStrategy) :
  collect_strategies (OtherModule :: map ApproximateGP vss) = vss.
Proof.
  simpl. induction vss as [| vs vss IH]; simpl; [reflexivity |].
  rewrite IH. reflexivity.
Qed.

(** C6.  kl_divergence returns the sum, over the sub-GP strategies
    discovered (the memo when there is one, otherwise the strategies of the
    ApproximateGP modules among model.modules()), of each strategy's KL
    tensor summed over all its entries; for a container that yields itself
    and k layers this is the sum of the k per-layer KL scalars, and two
    layers with KL 1.5 and 2.5 give 4. *)
Theorem kl_divergence_is_sum_of_component_kls :
  (forall self,
      fst (kl_divergence self) =
      Rsum (map (fun s => Rsum (map (get (strategy_kl_divergence s))
                                    (indices (shape (strategy_kl_divergence s)))))
                (fst (sub_variational_strategies self)))) /\
  (forall vss,
      fst (kl_divergence
             (DeepGPVariationalStrategy_init
                (mkDeepGP (OtherModule :: map ApproximateGP vss)))) =
      Rsum (map (fun s => get (sum_all (strategy_kl_divergence s)) []) vss)) /\
  fst (kl_divergence
         (DeepGPVariationalStrategy_init
            (mkDeepGP [OtherModule;
                       ApproximateGP (mkStrategy (scalar (3 / 2)));
                       ApproximateGP (mkStrategy (scalar (5 / 2)))]))) = 4%R.
Proof.
  split; [| split].
  - intros self. unfold kl_divergence.
    destruct (sub_variational_strategies self) as [strategies self'].
    cbn [fst]. rewrite py_sum_Rsum. reflexivity.
  - intros vss. unfold kl_divergence, sub_variational_strategies.
    cbn [DeepGPVariationalStrategy_init sub_variational_strategies_memo model modules fst].
    rewrite collect_strategies_layers, py_sum_Rsum. reflexivity.
  - unfold kl_divergence. simpl. unfold py_sum. simpl. lra.
Qed.

(** * The statements at concrete inputs *)

Lemma log_marginal_is_weighted_logsumexp_witness :
  raw_quad_weight_grid example_likelihood = Some (of_list [0%R; 0%R]) /\
  shape (of_list [0%R; 0%R]) = [2] /\
  example_base_log_marginal tt tt = Ok (mkTensor [2; 3] example_sample) /\
  shape (mkTensor [2; 3] example_sample) = [2; 3] /\
  exists w out,
    quad_weight_grid example_likelihood = Ok w /\
    log_marginal unit unit example_base_log_marginal example_likelihood tt tt = Ok out /\
    shape out = [3] /\
    forall n, n < 3 ->
      get out [n] =
      ln (sum_upto 2 (fun s => exp (get w [s] + example_sample [s; n])%R)).
Proof.
  split; [reflexivity |]. split; [reflexivity |].
  split; [reflexivity |]. split; [reflexivity |].
  apply (log_marginal_is_weighted_logsumexp unit unit example_base_log_marginal
           example_likelihood tt tt (of_list [0%R; 0%R])
           (mkTensor [2; 3] example_sample) 2 3); reflexivity.
Defined.

Lemma quad_grid_is_lexicographic_product_witness :
  Layer_init true hermgauss_table example_sample 2 None 3 "flipgrid" None None
    = Ok example_flipgrid_layer /\
  In (grid_strategy example_flipgrid_layer) ["flipgrid"; "freegrid"] /\
  xi example_flipgrid_layer = Some example_flipgrid_xi /\
  shape example_flipgrid_xi = [3; 2] /\
  1 <= 3 /\ 1 <= 2 /\
  (exists res,
      read_quad_grid false example_flipgrid_layer = Ok (Some res) /\
      shape res = [3 ^ 2; 2] /\
      forall i j, i < 3 ^ 2 -> j < 2 ->
        get res [i; j] =
        abscissa (grid_strategy example_flipgrid_layer) example_flipgrid_xi 3
                 (digit 3 2 i j) j) /\
  read_quad_grid true example_flipgrid_layer = Raise (AttributeError "quad_grid").
Proof.
  split; [reflexivity |].
  split; [left; reflexivity |]. split; [reflexivity |].
  split; [reflexivity |]. split; [lia |]. split; [lia |].
  apply (quad_grid_is_lexicographic_product
           example_flipgrid_layer example_flipgrid_xi 3 2).
  - left. reflexivity.
  - reflexivity.
  - reflexivity.
  - lia.
  - lia.
Defined.

Lemma quad_grid_assertion_raises_witness :
  Layer_init true hermgauss_table example_sample 2 None 3 "flipgrid" None None
    = Ok example_flipgrid_layer /\
  In (grid_strategy example_flipgrid_layer) ["flipgrid"; "freegrid"] /\
  xi example_flipgrid_layer = Some example_flipgrid_xi /\
  shape example_flipgrid_xi = [3; 2] /\
  1 <= 3 /\ 1 <= 2 /\
  (exists res,
      quad_grid false example_flipgrid_layer = Ok (Some res) /\
      size_assertion example_flipgrid_layer res = Raise (AttributeError "self")) /\
  quad_grid true example_flipgrid_layer = Raise (AttributeError "self") /\
  read_quad_grid true example_flipgrid_layer = Raise (AttributeError "quad_grid").
Proof.
  split; [reflexivity |].
  split; [left; reflexivity |]. split; [reflexivity |].
  split; [reflexivity |]. split; [lia |]. split; [lia |].
  apply (quad_grid_assertion_raises
           example_flipgrid_layer example_flipgrid_xi 3 2).
  - left. reflexivity.
  - reflexivity.
  - reflexivity.
  - lia.
  - lia.
Defined.

Lemma quadrature_inputs_mu_plus_sigma_grid_witness :
  Layer_init true hermgauss_table example_sample 2 None 3 "flipgrid" None None
    = Ok example_flipgrid_layer /\
  In (grid_strategy example_flipgrid_layer) ["flipgrid"; "freegrid"] /\
  xi example_flipgrid_layer = Some example_flipgrid_xi /\
  shape example_flipgrid_xi = [3; 2] /\
  1 <= 3 /\ 1 <= 2 /\
  shape (mkTensor [3; 2] example_sample) = [3; 2] /\
  shape (mkTensor [3; 2] (fun _ => 4%R)) = [3; 2] /\
  (forall idx, Rle 0 (get (mkTensor [3; 2] (fun _ => 4%R)) idx)) /\
  shape (mkTensor [9; 3; 2] example_sample) = [3 ^ 2; 3; 2] /\
  shape (mkTensor [9; 3; 2] (fun _ => 4%R)) = [3 ^ 2; 3; 2] /\
  (forall idx, Rle 0 (get (mkTensor [9; 3; 2] (fun _ => 4%R)) idx)) /\
  (exists g,
     read_quad_grid false example_flipgrid_layer = Ok (Some g) /\
     shape g = [3 ^ 2; 2] /\
     (exists r,
        quadrature_inputs false example_flipgrid_layer
          (MMVN (mkTensor [3; 2] example_sample) (mkTensor [3; 2] (fun _ => 4%R))) true
          = Ok (Tensor r) /\
        shape r = [3 ^ 2; 3; 2] /\
        forall s n t, s < 3 ^ 2 -> n < 3 -> t < 2 ->
          get r [s; n; t] =
          (example_sample [n; t] + sqrt 4 * get g [s; t])%R) /\
     (exists r,
        quadrature_inputs false example_flipgrid_layer
          (MMVN (mkTensor [9; 3; 2] example_sample) (mkTensor [9; 3; 2] (fun _ => 4%R)))
          false = Ok (Tensor r) /\
        shape r = [3 ^ 2; 3; 2] /\
        forall s n t, s < 3 ^ 2 -> n < 3 -> t < 2 ->
          get r [s; n; t] =
          (example_sample [s; n; t] + sqrt 4 * get g [s; t])%R)) /\
  (forall expand_for_quadgrid,
     quadrature_inputs true example_flipgrid_layer
       (MMVN (mkTensor [3; 2] example_sample) (mkTensor [3; 2] (fun _ => 4%R)))
       expand_for_quadgrid = Raise (AttributeError "quad_grid")) /\
  (forall debug other_inputs expand_for_quadgrid,
     call_inputs true debug example_flipgrid_layer
       (MMVN (mkTensor [3; 2] example_sample) (mkTensor [3; 2] (fun _ => 4%R)))
       other_inputs expand_for_quadgrid = Raise (AttributeError "quad_grid")).
Proof.
  split; [reflexivity |].
  split; [left; reflexivity |]. split; [reflexivity |].
  split; [reflexivity |]. split; [lia |]. split; [lia |].
  split; [reflexivity |]. split; [reflexivity |].
  split; [intros idx; simpl; lra |].
  split; [reflexivity |]. split; [reflexivity |].
  split; [intros idx; simpl; lra |].
  apply (quadrature_inputs_mu_plus_sigma_grid example_flipgrid_layer example_flipgrid_xi
           (mkTensor [3; 2] example_sample) (mkTensor [3; 2] (fun _ => 4%R))
           (mkTensor [9; 3; 2] example_sample) (mkTensor [9; 3; 2] (fun _ => 4%R))
           3 2 3).
  - left. reflexivity.
  - reflexivity.
  - reflexivity.
  - lia.
  - lia.
  - reflexivity.
  - reflexivity.
  - intros idx. simpl. lra.
  - reflexivity.
  - reflexivity.
  - intros idx. simpl. lra.
Defined.

Lemma flipgrid_initial_grid_symmetric_witness :
  exists self,
    Layer_init true hermgauss_table example_sample 1 None 2 "flipgrid" None None = Ok self /\
    (exists g, read_quad_grid false self = Ok (Some g)) /\
    exists x f xi_,
      xi self = Some x /\
      flip0 x = Ok f /\
      sub x f = Ok xi_ /\
      (forall res, stack_product xi_ = Ok res -> symmetric_grid res) /\
      (forall g, read_quad_grid false self = Ok (Some g) -> symmetric_grid g).
Proof.
  eexists. split; [reflexivity |]. split; [eexists; reflexivity |].
  apply (flipgrid_initial_grid_symmetric true false hermgauss_table example_sample
           1 None 2 None).
  reflexivity.
Defined.


(** * Further properties of the code *)

(** ** Construction of a layer *)

Lemma Layer_init_grid_xi
    (asserts : bool) (hermgauss : Z -> result (list R * list R))
    (sample : list nat -> R) (input_dims_arg : Z) (output_dims_arg : option Z)
    (Q : Z) (strategy : string) (sample_site_dims_arg : option Z) (self : Layer) :
  hermgauss_contract hermgauss ->
  In strategy ["flipgrid"; "freegrid"] ->
  Layer_init asserts hermgauss sample input_dims_arg output_dims_arg Q
             strategy None sample_site_dims_arg = Ok self ->
  (1 <= Q)%Z /\ (0 <= sample_site_dims self)%Z /\
  exists xs ws x,
    hermgauss Q = Ok (xs, ws) /\
    xi self = Some x /\
    shape x = [Z.to_nat Q; Z.to_nat (sample_site_dims self)] /\
    forall q j, q < Z.to_nat Q -> j < Z.to_nat (sample_site_dims self) ->
      get x [q; j] = (initial_scale strategy * nth q xs 0)%R.
Proof.
  intros Hc Hin. unfold Layer_init.
  set (dims := match sample_site_dims_arg with None => input_dims_arg | Some d => d end).
  assert (Hrep : forall xs r,
             length xs = Z.to_nat Q ->
             replicate_abscissae xs dims = Ok r ->
             (0 <= dims)%Z /\
             shape r = [Z.to_nat Q; Z.to_nat dims] /\
             forall q j, q < Z.to_nat Q -> get r [q; j] = nth q xs 0%R).
  { intros xs r Hlen. unfold replicate_abscissae, unsqueeze, rank.
    cbn [of_list shape length]. norm_dims. cbn [bind]. unfold repeat_, rank.
    list_simpl. int64_cases. cbn [Nat.eqb negb existsb Z.ltb Z.compare orb].
    destruct (Z.ltb_spec dims 0); cbn [bind orb]; [discriminate |].
    intros [= <-]. cbn [shape get map combine fst snd]. rewrite Hlen.
    split; [assumption |]. split.
    - f_equal; [| f_equal]; simpl; lia.
    - intros q j Hq. unfold delete_at. cbn [firstn skipn app hd].
      rewrite Nat.mod_small by exact Hq. reflexivity. }
  simpl in Hin. destruct Hin as [<- | [<- | []]];
    simpl existsb; rewrite assert_true; cbn [bind]; simpl String.eqb; cbv iota;
    (destruct (hermgauss Q) as [[xs ws] | e] eqn:Hh; cbn [bind fst]; [| discriminate]);
    destruct (Hc Q xs ws Hh) as [HQ [Hlx _]];
    (destruct (replicate_abscissae xs dims) as [r | e] eqn:Hr; cbn [bind]; [| discriminate]);
    destruct (Hrep xs r Hlx Hr) as [Hd [Hsh Hget]];
    intros [= <-]; cbn [sample_site_dims xi];
    (split; [exact HQ |]); (split; [exact Hd |]);
    eexists xs, ws, _; (split; [reflexivity |]); (split; [reflexivity |]);
    cbn [tmap shape get]; (split; [exact Hsh |]);
    intros q j Hq Hj; rewrite (Hget q j Hq); unfold initial_scale; simpl String.eqb;
    cbv iota; lra.
Qed.

(** X1.  A layer constructed with flipgrid or freegrid and no xi argument
    holds the Gauss-Hermite abscissae of order Q replicated over the T
    sample-site dimensions: xi has shape (Q, T) and xi[q, j] is abscissa q,
    times 0.5 for flipgrid; construction succeeds only for Q >= 1 and
    T >= 0. *)
Theorem initial_xi_replicates_abscissae
    (asserts : bool) (hermgauss : Z -> result (list R * list R))
    (sample : list nat -> R) (input_dims_arg : Z) (output_dims_arg : option Z)
    (Q : Z) (strategy : string) (sample_site_dims_arg : option Z) (self : Layer) :
  hermgauss_contract hermgauss ->
  In strategy ["flipgrid"; "freegrid"] ->
  Layer_init asserts hermgauss sample input_dims_arg output_dims_arg Q
             strategy None sample_site_dims_arg = Ok self ->
  (1 <= Q)%Z /\ (0 <= sample_site_dims self)%Z /\
  exists xs ws x,
    hermgauss Q = Ok (xs, ws) /\
    xi self = Some x /\
    shape x = [Z.to_nat Q; Z.to_nat (sample_site_dims self)] /\
    forall q j, q < Z.to_nat Q -> j < Z.to_nat (sample_site_dims self) ->
      get x [q; j] = (initial_scale strategy * nth q xs 0)%R.
Proof.
  exact (Layer_init_grid_xi asserts hermgauss sample input_dims_arg output_dims_arg
           Q strategy sample_site_dims_arg self).
Qed.

Lemma initial_xi_replicates_abscissae_witness :
  hermgauss_contract hermgauss_table /\
  In "flipgrid" ["flipgrid"; "freegrid"] /\
  Layer_init true hermgauss_table example_sample 2 None 3 "flipgrid" None None
    = Ok example_flipgrid_layer /\
  (1 <= 3)%Z /\ (0 <= sample_site_dims example_flipgrid_layer)%Z /\
  exists xs ws x,
    hermgauss_table 3 = Ok (xs, ws) /\
    xi example_flipgrid_layer = Some x /\
    shape x = [Z.to_nat 3; Z.to_nat (sample_site_dims example_flipgrid_layer)] /\
    forall q j, q < Z.to_nat 3 -> j < Z.to_nat (sample_site_dims example_flipgrid_layer) ->
      get x [q; j] = (initial_scale "flipgrid" * nth q xs 0)%R.
Proof.
  split; [exact hermgauss_table_contract |].
  split; [left; reflexivity |].
  split; [reflexivity |].
  apply (initial_xi_replicates_abscissae true hermgauss_table example_sample
           2 None 3 "flipgrid" None example_flipgrid_layer).
  - exact hermgauss_table_contract.
  - left. reflexivity.
  - reflexivity.
Defined.

Lemma size_assertion_same (self self' : Layer) (res : tensor) :
  size_assertion self res = size_assertion self' res.
Proof.
  unfold size_assertion. destruct (size res (-2)) as [n | e]; reflexivity.
Qed.

Lemma read_quad_grid_depends_on_strategy_and_xi (asserts : bool) (self self' : Layer) :
  grid_strategy self = grid_strategy self' ->
  xi self = xi self' ->
  read_quad_grid asserts self = read_quad_grid asserts self'.
Proof.
  intros Hs Hxi.
  assert (Hx : self_xi self = self_xi self').
  { unfold self_xi, getattr. simpl. rewrite Hxi. reflexivity. }
  unfold read_quad_grid, quad_grid. rewrite Hs, Hx.
  destruct (grid_strategy self' =? "flipgrid")%string;
    [| destruct (grid_strategy self' =? "freegrid")%string]; [| | reflexivity].
  - destruct (self_xi self') as [x | e]; [| reflexivity]. cbn [bind].
    destruct (flip0 x) as [f | e]; [| reflexivity]. cbn [bind].
    destruct (sub x f) as [d | e]; [| reflexivity]. cbn [bind].
    destruct (stack_product d) as [res | e]; [| reflexivity]. cbn [bind].
    rewrite (size_assertion_same self self' res). reflexivity.
  - destruct (self_xi self') as [x | e]; [| reflexivity]. cbn [bind].
    destruct (stack_product x) as [res | e]; [| reflexivity]. cbn [bind].
    rewrite (size_assertion_same self self' res). reflexivity.
Qed.

(** X2.  Passing xi to [__init__] shares it: with a valid strategy the
    construction succeeds whatever the order, the dimensions and hermgauss
    are (no abscissae are computed, nothing is drawn), the layer holds the
    tensor passed in, and two layers built with the same strategy and the
    same xi read the same grid, in either assertion mode. *)
Theorem shared_xi_layers_read_same_grid
    (asserts1 asserts2 : bool) (hermgauss1 hermgauss2 : Z -> result (list R * list R))
    (sample1 sample2 : list nat -> R) (in1 in2 : Z) (od1 od2 : option Z)
    (Q1 Q2 : Z) (ssd1 ssd2 : option Z) (strategy : string) (x : tensor) :
  In strategy ["flipgrid"; "freegrid"; "freeform"] ->
  exists self1 self2,
    Layer_init asserts1 hermgauss1 sample1 in1 od1 Q1 strategy (Some x) ssd1 = Ok self1 /\
    Layer_init asserts2 hermgauss2 sample2 in2 od2 Q2 strategy (Some x) ssd2 = Ok self2 /\
    xi self1 = Some x /\ xi self2 = Some x /\
    forall asserts, read_quad_grid asserts self1 = read_quad_grid asserts self2.
Proof.
  intros Hin.
  assert (Hex : existsb (String.eqb strategy) ["flipgrid"; "freegrid"; "freeform"] = true).
  { apply existsb_exists. exists strategy. split; [exact Hin | apply String.eqb_refl]. }
  unfold Layer_init. rewrite Hex, !assert_true. cbn [bind].
  eexists. eexists. split; [reflexivity |]. split; [reflexivity |].
  split; [reflexivity |]. split; [reflexivity |].
  intros asserts. apply read_quad_grid_depends_on_strategy_and_xi; reflexivity.
Qed.

Lemma shared_xi_layers_read_same_grid_witness :
  In "freegrid" ["flipgrid"; "freegrid"; "freeform"] /\
  exists self1 self2,
    Layer_init true hermgauss_table example_sample 1 None 0 "freegrid"
               (Some (mkTensor [3; 1] example_sample)) None = Ok self1 /\
    Layer_init false hermgauss_table example_sample 1 (Some 2%Z) 3 "freegrid"
               (Some (mkTensor [3; 1] example_sample)) None = Ok self2 /\
    xi self1 = Some (mkTensor [3; 1] example_sample) /\
    xi self2 = Some (mkTensor [3; 1] example_sample) /\
    forall asserts, read_quad_grid asserts self1 = read_quad_grid asserts self2.
Proof.
  split; [right; left; reflexivity |].
  apply (shared_xi_layers_read_same_grid true false hermgauss_table hermgauss_table
           example_sample example_sample 1 1 None (Some 2%Z) 0 3 None None
           "freegrid" (mkTensor [3; 1] example_sample)).
  right. left. reflexivity.
Defined.

(** ** The flipgrid grid for any xi *)

Lemma flipgrid_read_spec (asserts : bool) (self : Layer) (x g : tensor) (Q T : nat) :
  grid_strategy self = "flipgrid" ->
  xi self = Some x -> shape x = [Q; T] ->
  read_quad_grid asserts self = Ok (Some g) ->
  1 <= Q /\ 1 <= T /\
  shape g = [Q ^ T; T] /\
  forall i j, i < Q ^ T -> j < T ->
    get g [i; j] =
    (get x [digit Q T i j; j] - get x [(Q - 1 - digit Q T i j)%nat; j])%R.
Proof.
  intros Hs Hxi Hsh Hread. apply read_quad_grid_Ok in Hread.
  destruct (Nat.eq_dec Q 0) as [HQ0 | HQ0]; [| destruct (Nat.eq_dec T 0) as [HT0 | HT0]].
  1, 2: exfalso; unfold quad_grid in Hread; rewrite Hs in Hread;
    simpl String.eqb in Hread; cbv iota in Hread;
    rewrite (self_xi_Some self x Hxi) in Hread; cbn [bind] in Hread;
    destruct (flip_sub_spec x Q T Hsh) as [f [xi_ [Hf [Hsub [Hxsh _]]]]];
    rewrite Hf in Hread; cbn [bind] in Hread; rewrite Hsub in Hread;
    cbn [bind] in Hread;
    destruct (stack_product_degenerate xi_ Q T Hxsh ltac:(lia)) as [e He];
    rewrite He in Hread; discriminate Hread.
  assert (HQ : 1 <= Q) by lia. assert (HT : 1 <= T) by lia.
  destruct (quad_grid_grid_strategies self x Q T) as [res [Hoff [Hon [_ [Hrsh Hget]]]]];
    try assumption.
  { rewrite Hs. left. reflexivity. }
  assert (g = res).
  { destruct asserts; rewrite ?Hon, ?Hoff in Hread; [discriminate | congruence]. }
  subst g. repeat (split; [assumption |]).
  intros i j Hi Hj. rewrite (Hget i j Hi Hj), Hs. unfold abscissa.
  simpl String.eqb. cbv iota. reflexivity.
Qed.

(** X3.  For a flipgrid layer with any Q x T xi (trained or passed in, not
    only the initial one), every grid that a read of quad_grid returns has
    Q^T rows of length T, and row Q^T - 1 - i is the negation of row i. *)
Theorem flipgrid_rows_mirror
    (asserts : bool) (self : Layer) (x g : tensor) (Q T : nat) :
  grid_strategy self = "flipgrid" ->
  xi self = Some x -> shape x = [Q; T] ->
  read_quad_grid asserts self = Ok (Some g) ->
  shape g = [Q ^ T; T] /\
  forall i j, i < Q ^ T -> j < T ->
    get g [Q ^ T - 1 - i; j] = Ropp (get g [i; j]).
Proof.
  intros Hs Hxi Hsh Hread.
  destruct (flipgrid_read_spec asserts self x g Q T Hs Hxi Hsh Hread)
    as [HQ [HT [Hgsh Hget]]].
  split; [exact Hgsh |]. intros i j Hi Hj.
  rewrite !Hget by (assumption || lia).
  rewrite digit_complement by assumption.
  pose proof (digit_lt Q T i j HQ) as Hd.
  replace (Q - 1 - (Q - 1 - digit Q T i j)) with (digit Q T i j) by lia.
  lra.
Qed.

Lemma flipgrid_rows_mirror_witness :
  grid_strategy example_trained_layer = "flipgrid" /\
  xi example_trained_layer = Some (mkTensor [3; 1] example_sample) /\
  shape (mkTensor [3; 1] example_sample) = [3; 1] /\
  exists g,
    read_quad_grid false example_trained_layer = Ok (Some g) /\
    shape g = [3 ^ 1; 1] /\
    forall i j, i < 3 ^ 1 -> j < 1 ->
      get g [3 ^ 1 - 1 - i; j] = Ropp (get g [i; j]).
Proof.
  split; [reflexivity |]. split; [reflexivity |]. split; [reflexivity |].
  eexists. split; [reflexivity |].
  apply (flipgrid_rows_mirror false example_trained_layer
           (mkTensor [3; 1] example_sample) _ 3 1); reflexivity.
Defined.

(** X4.  For a flipgrid layer of odd order Q with any Q x T xi, the middle
    row of every grid read, row (Q^T - 1) / 2, is the origin: all its
    coordinates are 0. *)
Theorem flipgrid_odd_order_contains_origin
    (asserts : bool) (self : Layer) (x g : tensor) (Q T : nat) :
  grid_strategy self = "flipgrid" ->
  xi self = Some x -> shape x = [Q; T] ->
  Nat.odd Q = true ->
  read_quad_grid asserts self = Ok (Some g) ->
  forall j, j < T -> get g [(Q ^ T - 1) / 2; j] = 0%R.
Proof.
  intros Hs Hxi Hsh Hodd Hread j Hj.
  destruct (flipgrid_read_spec asserts self x g Q T Hs Hxi Hsh Hread)
    as [HQ [HT [Hgsh Hget]]].
  assert (Hpodd : Nat.odd (Q ^ T) = true).
  { rewrite Nat.odd_pow by lia. exact Hodd. }
  apply Nat.odd_spec in Hpodd. destruct Hpodd as [m Hm].
  assert (Hmid : (Q ^ T - 1) / 2 = m).
  { rewrite Hm. replace (2 * m + 1 - 1) with (m * 2) by lia.
    apply Nat.div_mul. lia. }
  rewrite Hmid.
  assert (Hlt : m < Q ^ T) by lia.
  rewrite (Hget m j Hlt Hj).
  pose proof (digit_complement Q T m j HQ Hlt Hj) as Hc.
  replace (Q ^ T - 1 - m) with m in Hc by lia.
  rewrite <- Hc. lra.
Qed.

Lemma flipgrid_odd_order_contains_origin_witness :
  grid_strategy example_trained_layer = "flipgrid" /\
  xi example_trained_layer = Some (mkTensor [3; 1] example_sample) /\
  shape (mkTensor [3; 1] example_sample) = [3; 1] /\
  Nat.odd 3 = true /\
  exists g,
    read_quad_grid false example_trained_layer = Ok (Some g) /\
    forall j, j < 1 -> get g [(3 ^ 1 - 1) / 2; j] = 0%R.
Proof.
  split; [reflexivity |]. split; [reflexivity |]. split; [reflexivity |].
  split; [reflexivity |].
  eexists. split; [reflexivity |].
  apply (flipgrid_odd_order_contains_origin false example_trained_layer
           (mkTensor [3; 1] example_sample) _ 3 1); reflexivity.
Defined.

(** ** Edge cases of the grid *)

Lemma stack_product_empty_axis (x : tensor) (Q T : nat) :
  shape x = [Q; T] -> Q = 0 \/ T = 0 ->
  exists msg, stack_product x = Raise (RuntimeError msg).
Proof.
  intros Hsh Hz.
  unfold stack_product, t_, rank. rewrite Hsh. cbn [length Nat.leb bind rev app].
  set (xt := mkTensor [T; Q] (fun idx => get x (rev idx))).
  unfold iter at 1. cbn [shape xt bind].
  rewrite (mapM_map iter (fun c => map (select c) (seq 0 Q))); cycle 1.
  { intros c Hc. apply in_map_iff in Hc. destruct Hc as [j [<- _]]. reflexivity. }
  cbn [bind].
  destruct T as [| T'].
  - eexists. reflexivity.
  - destruct Hz as [-> | Hz]; [| discriminate Hz].
    set (pools := map _ _).
    assert (Hnil : product pools = []).
    { apply length_zero_iff_nil. rewrite (product_length 0).
      - unfold pools. rewrite !length_map, length_seq. reflexivity.
      - apply Forall_forall. intros p Hp. unfold pools in Hp.
        apply in_map_iff in Hp. destruct Hp as [c [<- _]]. reflexivity. }
    rewrite Hnil. eexists. reflexivity.
Qed.

(** X5.  A flipgrid or freegrid layer whose xi has no rows or no columns
    (order 0 through a passed-in xi, or sample-site dimensionality 0) has no
    grid: in either assertion mode the read of quad_grid raises the
    RuntimeError of torch.cat or torch.stack on an empty list, before any
    assertion is reached. *)
Theorem quad_grid_empty_axis_raises
    (asserts : bool) (self : Layer) (x : tensor) (Q T : nat) :
  In (grid_strategy self) ["flipgrid"; "freegrid"] ->
  xi self = Some x -> shape x = [Q; T] ->
  Q = 0 \/ T = 0 ->
  exists msg, read_quad_grid asserts self = Raise (RuntimeError msg).
Proof.
  intros Hs Hxi Hsh Hz. pose proof (self_xi_Some self x Hxi) as Hx.
  unfold read_quad_grid, quad_grid.
  simpl in Hs. destruct Hs as [Hs | [Hs | []]]; rewrite <- Hs; simpl String.eqb; cbv iota.
  - rewrite Hx. cbn [bind].
    destruct (flip_sub_spec x Q T Hsh) as [f [xi_ [Hf [Hsub [Hxsh _]]]]].
    rewrite Hf. cbn [bind]. rewrite Hsub. cbn [bind].
    destruct (stack_product_empty_axis xi_ Q T Hxsh Hz) as [msg Hmsg].
    rewrite Hmsg. exists msg. reflexivity.
  - rewrite Hx. cbn [bind].
    destruct (stack_product_empty_axis x Q T Hsh Hz) as [msg Hmsg].
    rewrite Hmsg. exists msg. reflexivity.
Qed.

Lemma quad_grid_empty_axis_raises_witness :
  In (grid_strategy example_zero_dim_layer) ["flipgrid"; "freegrid"] /\
  xi example_zero_dim_layer = Some (mkTensor [2; 0] example_sample) /\
  shape (mkTensor [2; 0] example_sample) = [2; 0] /\
  (2 = 0 \/ 0 = 0) /\
  exists msg, read_quad_grid true example_zero_dim_layer = Raise (RuntimeError msg).
Proof.
  split; [right; left; reflexivity |]. split; [reflexivity |].
  split; [reflexivity |]. split; [right; reflexivity |].
  apply (quad_grid_empty_axis_raises true example_zero_dim_layer
           (mkTensor [2; 0] example_sample) 2 0).
  - right. left. reflexivity.
  - reflexivity.
  - reflexivity.
  - right. reflexivity.
Defined.

Lemma not_in_strategies (s : string) (l : list string) :
  ~ In s l -> existsb (String.eqb s) l = false.
Proof.
  intros Hn. destruct (existsb (String.eqb s) l) eqn:E; [| reflexivity].
  apply existsb_exists in E. destruct E as [s' [Hin Heq]].
  apply String.eqb_eq in Heq. subst s'. contradiction.
Qed.

(** X6.  The strategy name is validated by an assert statement only: with a
    name outside flipgrid, freegrid, freeform, [__init__] raises
    AssertionError when assertions are executed; with assertions stripped it
    returns a layer without xi, whose quad_grid is None, and whose
    [__call__] on a distribution (mean and variance of two or more axes)
    raises AttributeError at the grid's unsqueeze, whatever
    expand_for_quadgrid, the debug mode and the other inputs are. *)
Theorem unknown_strategy_is_caught_by_assert_only
    (hermgauss : Z -> result (list R * list R)) (sample : list nat -> R)
    (input_dims_arg : Z) (output_dims_arg : option Z) (Q : Z) (strategy : string)
    (xi_arg : option tensor) (sample_site_dims_arg : option Z)
    (mean variance : tensor) :
  ~ In strategy ["flipgrid"; "freegrid"; "freeform"] ->
  2 <= rank mean -> 2 <= rank variance ->
  Layer_init true hermgauss sample input_dims_arg output_dims_arg Q
             strategy xi_arg sample_site_dims_arg = Raise AssertionError /\
  exists self,
    Layer_init false hermgauss sample input_dims_arg output_dims_arg Q
               strategy None sample_site_dims_arg = Ok self /\
    xi self = None /\
    (forall asserts, read_quad_grid asserts self = Ok None) /\
    (forall asserts expand_for_quadgrid,
       quadrature_inputs asserts self (MMVN mean variance) expand_for_quadgrid =
       Raise (AttributeError "unsqueeze")) /\
    (forall asserts debug other_inputs expand_for_quadgrid,
       call_inputs asserts debug self (MMVN mean variance) other_inputs
                   expand_for_quadgrid =
       Raise (AttributeError "unsqueeze")).
Proof.
  intros Hn Hm Hv. pose proof (not_in_strategies _ _ Hn) as Hex.
  assert (Hne : (strategy =? "flipgrid")%string = false /\
                (strategy =? "freegrid")%string = false /\
                (strategy =? "freeform")%string = false).
  { repeat split; apply String.eqb_neq; intros ->; apply Hn; simpl; tauto. }
  destruct Hne as [H1 [H2 H3]].
  unfold Layer_init. rewrite Hex. cbn [assert_ bind].
  split; [reflexivity |]. rewrite H1, H2, H3. cbn [bind].
  eexists. split; [reflexivity |]. split; [reflexivity |].
  assert (Hread : forall asserts,
             read_quad_grid asserts
               (mkLayer input_dims_arg output_dims_arg strategy Q
                  match sample_site_dims_arg with
                  | Some d => d
                  | None => input_dims_arg
                  end None) = Ok None).
  { intros asserts. unfold read_quad_grid, quad_grid. cbn [grid_strategy].
    rewrite H1, H2, H3. reflexivity. }
  split; [exact Hread |].
  split.
  - intros asserts e. apply quadrature_inputs_no_grid; [exact Hm | exact Hv |].
    apply Hread.
  - intros asserts debug others e. apply call_inputs_quadrature_raises.
    apply quadrature_inputs_no_grid; [exact Hm | exact Hv |]. apply Hread.
Qed.

Lemma unknown_strategy_is_caught_by_assert_only_witness :
  ~ In "grid" ["flipgrid"; "freegrid"; "freeform"] /\
  2 <= rank (mkTensor [3; 1] example_sample) /\
  2 <= rank (mkTensor [3; 1] (fun _ => 4%R)) /\
  Layer_init true hermgauss_table example_sample 1 None 3 "grid" None None
    = Raise AssertionError /\
  exists self,
    Layer_init false hermgauss_table example_sample 1 None 3 "grid" None None = Ok self /\
    xi self = None /\
    (forall asserts, read_quad_grid asserts self = Ok None) /\
    (forall asserts expand_for_quadgrid,
       quadrature_inputs asserts self
         (MMVN (mkTensor [3; 1] example_sample) (mkTensor [3; 1] (fun _ => 4%R)))
         expand_for_quadgrid =
       Raise (AttributeError "unsqueeze")) /\
    (forall asserts debug other_inputs expand_for_quadgrid,
       call_inputs asserts debug self
         (MMVN (mkTensor [3; 1] example_sample) (mkTensor [3; 1] (fun _ => 4%R)))
         other_inputs expand_for_quadgrid =
       Raise (AttributeError "unsqueeze")).
Proof.
  assert (Hn : ~ In "grid" ["flipgrid"; "freegrid"; "freeform"]).
  { simpl. intros [H | [H | [H | []]]]; discriminate H. }
  split; [exact Hn |].
  split; [unfold rank; simpl; lia |]. split; [unfold rank; simpl; lia |].
  apply (unknown_strategy_is_caught_by_assert_only hermgauss_table example_sample
           1 None 3 "grid" None None
           (mkTensor [3; 1] example_sample) (mkTensor [3; 1] (fun _ => 4%R)) Hn).
  - unfold rank. simpl. lia.
  - unfold rank. simpl. lia.
Defined.

(** ** The rest of [__call__]'s preparation of the input *)

Lemma concat_other_inputs_spec
    (self : Layer) (t inp : tensor) (S' N D d : nat) :
  (0 <= num_sample_sites self < 2 ^ 63)%Z ->
  int64_extent N -> int64_extent d ->
  shape t = [S'; N; D] -> shape inp = [N; d] ->
  (S' = Z.to_nat (num_sample_sites self) ->
   exists c,
     concat_other_inputs self (Tensor t) [inp] = Ok (Tensor c) /\
     shape c = [S'; N; D + d] /\
     forall s n k, s < S' -> n < N -> k < D + d ->
       get c [s; n; k] = if k <? D then get t [s; n; k] else get inp [n; k - D]) /\
  (S' <> Z.to_nat (num_sample_sites self) ->
   exists msg, concat_other_inputs self (Tensor t) [inp] = Raise (RuntimeError msg)).
Proof.
  intros HQ HN Hd Ht Hinp.
  assert (Hproc : exists r, process_other_input self inp = Ok r /\
                            shape r = [Z.to_nat (num_sample_sites self); N; d] /\
                            forall s n k, s < Z.to_nat (num_sample_sites self) ->
                                          n < N -> k < d ->
                                          get r [s; n; k] = get inp [n; k]).
  { unfold process_other_input, unsqueeze, rank. rewrite Hinp. norm_dims. list_simpl.
    rewrite expand_int64.
    2:{ cbn [map forallb].
        rewrite (is_int64_bounds (num_sample_sites self)) by lia.
        rewrite !is_int64_of_nat by assumption. reflexivity. }
    cbn [shape map rev app expand_shape_rev].
    rewrite !Z.eqb_refl, !orb_true_r. cbn [option_map].
    destruct (Z.eqb_spec (num_sample_sites self) (-1)) as [E | _]; [lia |].
    cbn [orb].
    assert (Hget : forall s n k, n < N -> k < d ->
               get inp (delete_at 0 (bindex [1; N; d] [s; n; k])) = get inp [n; k]).
    { intros s n k Hn Hk. unfold bindex. simpl. bsel_all. reflexivity. }
    destruct (Z.eqb_spec (num_sample_sites self) (Z.of_nat 1)) as [E | _].
    - rewrite E. eexists. split; [reflexivity |]. split; [reflexivity |].
      intros s n k _ Hn Hk. cbn [get]. exact (Hget s n k Hn Hk).
    - destruct (Z.leb_spec 0 (num_sample_sites self)) as [_ | C]; [| lia].
      eexists. split; [reflexivity |]. split; [reflexivity |].
      intros s n k _ Hn Hk. cbn [get]. exact (Hget s n k Hn Hk). }
  destruct Hproc as [r [Hr [Hrsh Hrget]]].
  unfold concat_other_inputs. change (0 <? length [inp]) with true. cbv iota.
  cbn [mapM].
  rewrite Hr. cbn [bind]. unfold cat, rank. rewrite Ht. norm_dims. cbn [bind forallb].
  rewrite Hrsh, Ht. unfold cat_compatible, set_at.
  cbn [length Nat.eqb firstn skipn app shape_eqb].
  rewrite !Nat.eqb_refl. cbn [andb].
  split.
  - intros HS. rewrite <- HS in Hrget, Hrsh |- *. rewrite Nat.eqb_refl. cbn [andb bind].
    eexists. split; [reflexivity |]. cbn [shape get map nth].
    rewrite Ht, Hrsh. cbn [nth]. split.
    + unfold list_sum. cbn [fold_right]. rewrite Nat.add_0_r. reflexivity.
    + intros s n k Hs Hn Hk. cbn [locate]. rewrite Ht, Hrsh. cbn [nth].
      destruct (Nat.ltb_spec k D) as [Hlt | Hge].
      * cbn [firstn skipn app]. reflexivity.
      * destruct (Nat.ltb_spec (k - D) d) as [Hlt' | Hge']; [| lia].
        cbn [firstn skipn app]. apply Hrget; assumption || lia.
  - intros Hne. destruct (Nat.eqb_spec (Z.to_nat (num_sample_sites self)) S'); [lia |].
    eexists. reflexivity.
Qed.

(** X7.  For an input of shape (S, N, D) and one extra input of shape (N, d),
    with 0 <= num_sample_sites < 2^63 and extents N and d below 2^63 (the
    sizes that expand accepts): the extra input is expanded to
    num_sample_sites copies; if S is num_sample_sites the concatenation has
    shape (S, N, D + d), its first D features being the input's and its last
    d features the extra input's, the same for every site; otherwise
    torch.cat raises RuntimeError. *)
Theorem concat_other_inputs_appends_features
    (self : Layer) (t inp : tensor) (S' N D d : nat) :
  (0 <= num_sample_sites self < 2 ^ 63)%Z ->
  int64_extent N -> int64_extent d ->
  shape t = [S'; N; D] -> shape inp = [N; d] ->
  (S' = Z.to_nat (num_sample_sites self) ->
   exists c,
     concat_other_inputs self (Tensor t) [inp] = Ok (Tensor c) /\
     shape c = [S'; N; D + d] /\
     forall s n k, s < S' -> n < N -> k < D + d ->
       get c [s; n; k] = if k <? D then get t [s; n; k] else get inp [n; k - D]) /\
  (S' <> Z.to_nat (num_sample_sites self) ->
   exists msg, concat_other_inputs self (Tensor t) [inp] = Raise (RuntimeError msg)).
Proof.
  exact (concat_other_inputs_spec self t inp S' N D d).
Qed.

Lemma concat_other_inputs_appends_features_witness :
  (0 <= num_sample_sites example_wide_layer < 2 ^ 63)%Z /\
  int64_extent 3 /\ int64_extent 1 /\
  shape example_inputs3 = [2; 3; 2] /\
  shape example_other_input = [3; 1] /\
  2 = Z.to_nat (num_sample_sites example_wide_layer) /\
  exists c,
    concat_other_inputs example_wide_layer (Tensor example_inputs3)
                        [example_other_input] = Ok (Tensor c) /\
    shape c = [2; 3; 2 + 1] /\
    forall s n k, s < 2 -> n < 3 -> k < 2 + 1 ->
      get c [s; n; k] =
      if k <? 2 then get example_inputs3 [s; n; k]
      else get example_other_input [n; k - 2].
Proof.
  split; [simpl; lia |]. split; [reflexivity |]. split; [reflexivity |].
  split; [reflexivity |]. split; [reflexivity |]. split; [reflexivity |].
  apply (concat_other_inputs_appends_features example_wide_layer example_inputs3
           example_other_input 2 3 2 1).
  - simpl. lia.
  - reflexivity.
  - reflexivity.
  - reflexivity.
  - reflexivity.
  - reflexivity.
Defined.

Lemma repeat_for_outputs_spec
    (self : Layer) (od : Z) (t2 t3 : tensor) (S' N D : nat) :
  output_dims self = Some od -> (0 <= od < 2 ^ 63)%Z ->
  int64_extent S' -> int64_extent N -> int64_extent D ->
  shape t2 = [N; D] -> shape t3 = [S'; N; D] ->
  (exists r,
      repeat_for_outputs self (Tensor t2) = Ok (Tensor r) /\
      shape r = [Z.to_nat od; N; D] /\
      forall o n k, o < Z.to_nat od -> n < N -> k < D ->
        get r [o; n; k] = get t2 [n; k]) /\
  (exists r,
      repeat_for_outputs self (Tensor t3) = Ok (Tensor r) /\
      shape r = [S'; Z.to_nat od; N; D] /\
      forall s o n k, s < S' -> o < Z.to_nat od -> n < N -> k < D ->
        get r [s; o; n; k] = get t3 [s; n; k]).
Proof.
  intros Hod Hpos HS HN HD H2 H3.
  assert (Hm1 : (od =? -1)%Z = false) by (apply Z.eqb_neq; lia).
  assert (Hod64 : is_int64 od = true) by (apply is_int64_bounds; lia).
  assert (Hle : (0 <=? od)%Z = true) by (apply Z.leb_le; lia).
  assert (Hone : forall c : list nat,
             (if (od =? Z.of_nat 1)%Z then Some (1 :: c)
              else Some (Z.to_nat od :: c)) =
             Some (Z.to_nat od :: c)).
  { intros c. destruct (Z.eqb_spec od (Z.of_nat 1)) as [E | _]; [rewrite E |]; reflexivity. }
  split.
  - unfold repeat_for_outputs. rewrite Hod. unfold unsqueeze, rank. rewrite H2.
    norm_dims. list_simpl. cbn [map].
    unfold expand.
    cbn [shape length Nat.sub firstn skipn app rev expand_shape_rev forallb].
    rewrite Hod64, !is_int64_of_nat by assumption. cbn [andb negb].
    rewrite !Z.eqb_refl, !orb_true_r, Hm1, Hle. cbn [orb andb Nat.eqb option_map].
    rewrite Hone. cbn [option_map rev app bind].
    eexists. split; [reflexivity |]. split; [reflexivity |].
    intros o n k Ho Hn Hk. cbn [get]. unfold bindex. simpl. bsel_all. reflexivity.
  - unfold repeat_for_outputs. rewrite Hod. unfold unsqueeze, rank. rewrite H3.
    norm_dims. list_simpl. cbn [map].
    unfold expand.
    cbn [shape length Nat.sub firstn skipn app rev expand_shape_rev forallb].
    rewrite Hod64, !is_int64_of_nat by assumption. cbn [andb negb].
    rewrite !Z.eqb_refl, !orb_true_r, Hm1, Hle. cbn [orb andb Nat.eqb option_map].
    rewrite Hone. cbn [option_map rev app bind].
    eexists. split; [reflexivity |]. split; [reflexivity |].
    intros s o n k Hs Ho Hn Hk. cbn [get]. unfold bindex. simpl. bsel_all. reflexivity.
Qed.

(** X8.  With output_dims = od, 0 <= od < 2^63, and the input's extents
    below 2^63 (the sizes that expand accepts), the input is replicated
    along a new axis placed before its last two axes: a tensor of shape
    (N, D) becomes (od, N, D) and one of shape (S, N, D) becomes
    (S, od, N, D), every copy holding the input's entries. *)
Theorem repeat_for_outputs_replicates
    (self : Layer) (od : Z) (t2 t3 : tensor) (S' N D : nat) :
  output_dims self = Some od -> (0 <= od < 2 ^ 63)%Z ->
  int64_extent S' -> int64_extent N -> int64_extent D ->
  shape t2 = [N; D] -> shape t3 = [S'; N; D] ->
  (exists r,
      repeat_for_outputs self (Tensor t2) = Ok (Tensor r) /\
      shape r = [Z.to_nat od; N; D] /\
      forall o n k, o < Z.to_nat od -> n < N -> k < D ->
        get r [o; n; k] = get t2 [n; k]) /\
  (exists r,
      repeat_for_outputs self (Tensor t3) = Ok (Tensor r) /\
      shape r = [S'; Z.to_nat od; N; D] /\
      forall s o n k, s < S' -> o < Z.to_nat od -> n < N -> k < D ->
        get r [s; o; n; k] = get t3 [s; n; k]).
Proof.
  exact (repeat_for_outputs_spec self od t2 t3 S' N D).
Qed.

Lemma repeat_for_outputs_replicates_witness :
  output_dims example_wide_layer = Some 4%Z /\ (0 <= 4 < 2 ^ 63)%Z /\
  int64_extent 2 /\ int64_extent 3 /\ int64_extent 2 /\
  shape (mkTensor [3; 2] example_sample) = [3; 2] /\
  shape example_inputs3 = [2; 3; 2] /\
  (exists r,
      repeat_for_outputs example_wide_layer (Tensor (mkTensor [3; 2] example_sample))
        = Ok (Tensor r) /\
      shape r = [Z.to_nat 4; 3; 2] /\
      forall o n k, o < Z.to_nat 4 -> n < 3 -> k < 2 ->
        get r [o; n; k] = example_sample [n; k]) /\
  (exists r,
      repeat_for_outputs example_wide_layer (Tensor example_inputs3) = Ok (Tensor r) /\
      shape r = [2; Z.to_nat 4; 3; 2] /\
      forall s o n k, s < 2 -> o < Z.to_nat 4 -> n < 3 -> k < 2 ->
        get r [s; o; n; k] = get example_inputs3 [s; n; k]).
Proof.
  split; [reflexivity |]. split; [lia |]. split; [reflexivity |].
  split; [reflexivity |]. split; [reflexivity |]. split; [reflexivity |].
  split; [reflexivity |].
  apply (repeat_for_outputs_replicates example_wide_layer 4
           (mkTensor [3; 2] example_sample) example_inputs3 2 3 2).
  - reflexivity.
  - lia.
  - reflexivity.
  - reflexivity.
  - reflexivity.
  - reflexivity.
  - reflexivity.
Defined.

Lemma size_last (t : tensor) (sh : list nat) (n : nat) :
  shape t = (sh ++ [n])%list -> size t (-1) = Ok n.
Proof.
  intros Hsh. unfold size, rank, norm_dim. rewrite Hsh, length_app. simpl length.
  destruct (Z.leb_spec (- Z.of_nat (length sh + 1)) (-1)) as [_ | C]; [| lia].
  destruct (Z.ltb_spec (-1) (Z.of_nat (length sh + 1))) as [_ | C]; [| lia].
  cbn [andb bind]. change (-1 <? 0)%Z with true. cbv iota.
  replace (Z.to_nat (-1 + Z.of_nat (length sh + 1))) with (length sh) by lia.
  rewrite nth_middle. reflexivity.
Qed.

(** X9.  With debug mode on, a tensor input whose last axis has extent n
    passes the checks exactly when n equals the layer's input_dims;
    otherwise the layer raises the RuntimeError whose message gives n and
    input_dims in decimal. *)
Theorem debug_checks_feature_dimension
    (self : Layer) (t : tensor) (sh : list nat) (n : nat) :
  shape t = (sh ++ [n])%list ->
  (Z.of_nat n = input_dims self -> debug_checks true self (Tensor t) = Ok tt) /\
  (Z.of_nat n <> input_dims self ->
   debug_checks true self (Tensor t) =
   Raise (RuntimeError
            ("Input shape did not match self.input_dims. Got total feature dims ["
               ++ str_int (Z.of_nat n) ++ "], expected ["
               ++ str_int (input_dims self) ++ "]"))).
Proof.
  intros Hsh. pose proof (size_last t sh n Hsh) as Hn. split.
  - exact (debug_checks_shape_match self t n Hn).
  - exact (debug_checks_shape_mismatch self t n Hn).
Qed.

Lemma debug_checks_feature_dimension_witness :
  shape example_inputs3 = ([2; 3] ++ [2])%list /\
  (Z.of_nat 2 = input_dims example_trained_layer ->
   debug_checks true example_trained_layer (Tensor example_inputs3) = Ok tt) /\
  (Z.of_nat 2 <> input_dims example_trained_layer ->
   debug_checks true example_trained_layer (Tensor example_inputs3) =
   Raise (RuntimeError
            "Input shape did not match self.input_dims. Got total feature dims [2], expected [1]")).
Proof.
  split; [reflexivity |].
  exact (debug_checks_feature_dimension example_trained_layer example_inputs3
           [2; 3] 2 eq_refl).
Defined.

(** X10.  A tensor input is not touched by the quadrature: with no extra
    inputs, no output dimensions and a last axis equal to input_dims,
    [__call__] hands the tensor itself to the GP, in either debug mode and
    either assertion mode, whatever the grid strategy; the grid is never
    read. *)
Theorem tensor_input_passes_unchanged
    (self : Layer) (t : tensor) (sh : list nat) (n : nat) :
  output_dims self = None ->
  shape t = (sh ++ [n])%list ->
  Z.of_nat n = input_dims self ->
  forall asserts debug expand_for_quadgrid,
    call_inputs asserts debug self (Tensor t) [] expand_for_quadgrid = Ok (Tensor t).
Proof.
  intros Hod Hsh Hn asserts debug e.
  unfold call_inputs. cbn [quadrature_inputs bind].
  change (concat_other_inputs self (Tensor t) []) with (@Ok pyobj (Tensor t)).
  cbn [bind].
  assert (Hd : debug_checks debug self (Tensor t) = Ok tt).
  { destruct debug; [| reflexivity].
    exact (debug_checks_shape_match self t n (size_last t sh n Hsh) Hn). }
  rewrite Hd. cbn [bind]. unfold repeat_for_outputs. rewrite Hod. reflexivity.
Qed.

Lemma tensor_input_passes_unchanged_witness :
  output_dims example_flipgrid_layer = None /\
  shape example_inputs3 = ([2; 3] ++ [2])%list /\
  Z.of_nat 2 = input_dims example_flipgrid_layer /\
  forall asserts debug expand_for_quadgrid,
    call_inputs asserts debug example_flipgrid_layer (Tensor example_inputs3) []
                expand_for_quadgrid = Ok (Tensor example_inputs3).
Proof.
  split; [reflexivity |]. split; [reflexivity |]. split; [reflexivity |].
  apply (tensor_input_passes_unchanged example_flipgrid_layer example_inputs3 [2; 3] 2);
    reflexivity.
Defined.

(** With a first input that is not a tensor, torch.cat cannot succeed:
    either an extra input fails to expand or the list is refused. *)
Lemma concat_other_inputs_not_tensor
    (self : Layer) (o : pyobj) (inp : tensor) (others : list tensor) :
  is_tensor o = false ->
  exists err, concat_other_inputs self o (inp :: others) = Raise err.
Proof.
  intros Ho. unfold concat_other_inputs.
  change (0 <? length (inp :: others)) with true. cbv iota.
  destruct (mapM (process_other_input self) (inp :: others)) as [ps | err].
  - cbn [bind]. destruct o as [m v | t | cls | cls rep];
      [| discriminate Ho | |]; eexists; reflexivity.
  - exists err. reflexivity.
Qed.

(** X11.  The type of the input is checked in debug mode only.  For an
    object that is neither a distribution nor a tensor, given without extra
    inputs: with debug mode off and no output dimensions it is handed to
    the GP as it is; with output dimensions od the layer calls the
    object's own unsqueeze and expand, so an object without an unsqueeze
    attribute fails there with AttributeError and one that has them is
    replaced by what they return; with debug mode on the call raises
    AttributeError at [__Name__].  Given with at least one extra input the
    call raises in either debug mode. *)
Theorem debug_off_wrong_type_is_not_rejected
    (asserts : bool) (self : Layer) (o : pyobj) (expand_for_quadgrid : bool) :
  is_tensor o = false ->
  (forall mean variance, o <> MMVN mean variance) ->
  call_inputs asserts false self o [] expand_for_quadgrid =
    match output_dims self, o with
    | None, _ => Ok o
    | Some od, TensorLike _ repeated => repeated od
    | Some _, _ => Raise (AttributeError "unsqueeze")
    end /\
  call_inputs asserts true self o [] expand_for_quadgrid =
    Raise (AttributeError "__Name__") /\
  forall debug inp others,
    exists err,
      call_inputs asserts debug self o (inp :: others) expand_for_quadgrid = Raise err.
Proof.
  intros Ho Hd.
  assert (Hq : quadrature_inputs asserts self o expand_for_quadgrid = Ok o).
  { destruct o as [m v | t | cls | cls rep]; try reflexivity.
    exfalso. exact (Hd m v eq_refl). }
  unfold call_inputs. rewrite Hq. cbn [bind].
  split; [| split].
  - change (concat_other_inputs self o []) with (@Ok pyobj o).
    cbn [bind debug_checks]. unfold repeat_for_outputs.
    destruct (output_dims self) as [od |]; [| reflexivity].
    destruct o as [m v | t | cls | cls rep]; try reflexivity. discriminate Ho.
  - change (concat_other_inputs self o []) with (@Ok pyobj o).
    cbn [bind]. unfold debug_checks. rewrite Ho. reflexivity.
  - intros debug inp others.
    destruct (concat_other_inputs_not_tensor self o inp others Ho) as [err Herr].
    exists err. rewrite Herr. reflexivity.
Qed.

Lemma debug_off_wrong_type_is_not_rejected_witness :
  is_tensor (TensorLike "LazyTensor" (fun od => Ok (Other "LazyTensor"))) = false /\
  (forall mean variance,
     TensorLike "LazyTensor" (fun od => Ok (Other "LazyTensor")) <> MMVN mean variance) /\
  call_inputs true false example_wide_layer
    (TensorLike "LazyTensor" (fun od => Ok (Other "LazyTensor"))) [] true =
    Ok (Other "LazyTensor") /\
  call_inputs true true example_wide_layer
    (TensorLike "LazyTensor" (fun od => Ok (Other "LazyTensor"))) [] true =
    Raise (AttributeError "__Name__") /\
  forall debug inp others,
    exists err,
      call_inputs true debug example_wide_layer
        (TensorLike "LazyTensor" (fun od => Ok (Other "LazyTensor"))) (inp :: others) true
      = Raise err.
Proof.
  split; [reflexivity |]. split; [intros mean variance; discriminate |].
  apply (debug_off_wrong_type_is_not_rejected true example_wide_layer
           (TensorLike "LazyTensor" (fun od => Ok (Other "LazyTensor"))) true).
  - reflexivity.
  - intros mean variance. discriminate.
Defined.

(** ** The likelihood's weights *)

(** X12.  For a flipgrid or freegrid likelihood of order Q over T dimensions,
    the raw log-weights have one entry per site, Q^T in all, and entry i is
    the sum over the dimensions j of the log of the Gauss-Hermite weight
    whose position is digit j of i in base Q: the log-weight of the grid
    point that the layer's quad_grid puts in row i, the two products running
    in the same lexicographic order. *)
Theorem raw_weights_follow_grid_order
    (hermgauss : Z -> result (list R * list R)) (sample : list nat -> R)
    (dims Q : Z) (strategy : string) (self : Likelihood) (xs ws : list R) :
  hermgauss_contract hermgauss ->
  In strategy ["flipgrid"; "freegrid"] ->
  hermgauss Q = Ok (xs, ws) ->
  Likelihood_init hermgauss sample dims Q strategy = Ok self ->
  exists raw,
    raw_quad_weight_grid self = Some raw /\
    shape raw = [Z.to_nat Q ^ Z.to_nat dims] /\
    forall i, i < Z.to_nat Q ^ Z.to_nat dims ->
      get raw [i] =
      sum_upto (Z.to_nat dims)
               (fun j => ln (nth (digit (Z.to_nat Q) (Z.to_nat dims) i j) ws 0%R)).
Proof.
  intros Hc Hin Hh Hinit. destruct (Hc Q xs ws Hh) as [HQ [_ Hw]].
  unfold Likelihood_init in Hinit.
  assert (Hex : existsb (String.eqb strategy) ["flipgrid"; "freegrid"] = true).
  { apply existsb_exists. exists strategy. split; [exact Hin | apply String.eqb_refl]. }
  rewrite Hex, Hh in Hinit. cbn [bind snd] in Hinit.
  set (Q' := Z.to_nat Q) in *. set (T' := Z.to_nat dims) in *.
  set (pools := repeat (map ln ws) T') in *.
  assert (Hlenp : length pools = T') by (unfold pools; apply repeat_length).
  assert (Hpools : Forall (fun p => length p = Q') pools).
  { apply Forall_forall. intros p Hp. apply repeat_spec in Hp. subst p.
    rewrite length_map. exact Hw. }
  assert (Hlen : length (product pools) = Q' ^ T').
  { rewrite (product_length Q') by exact Hpools. rewrite Hlenp. reflexivity. }
  assert (Hpos : 1 <= Q' ^ T').
  { assert (Q' ^ T' <> 0) by (apply Nat.pow_nonzero; unfold Q'; lia). lia. }
  destruct (stack_spec (map of_list (product pools)) [T']) as [raw0 [Hraw0 [Hsh0 Hget0]]].
  - intros Hnil. apply (f_equal (@length tensor)) in Hnil.
    rewrite length_map, Hlen in Hnil. simpl in Hnil. lia.
  - intros t Ht. apply in_map_iff in Ht. destruct Ht as [tup [<- Htup]].
    simpl. rewrite (product_elem_length _ _ Htup), Hlenp. reflexivity.
  - rewrite Hraw0 in Hinit. cbn [bind] in Hinit.
    unfold sum_dim, rank in Hinit. rewrite Hsh0 in Hinit.
    norm_dims_in Hinit. cbn [bind] in Hinit.
    injection Hinit as <-. cbn [raw_quad_weight_grid].
    eexists. split; [reflexivity |]. list_simpl. rewrite length_map, Hlen.
    split; [reflexivity |].
    intros i Hi. cbn [nth]. apply sum_upto_ext. intros k Hk.
    rewrite (Hget0 i [k] (of_list [])) by (rewrite length_map, Hlen; exact Hi).
    rewrite (map_nth of_list). cbn [of_list get hd].
    rewrite (product_nth Q' pools 0%R) by (rewrite ?Hlenp; assumption || (unfold Q'; lia)).
    rewrite Hlenp. rewrite (nth_map_seq _ T' k) by exact Hk.
    assert (Hd : digit Q' T' i k < Q') by (apply digit_lt; unfold Q'; lia).
    fold (digit Q' T' i k).
    assert (Hpool : nth k pools [] = map ln ws).
    { unfold pools. rewrite (nth_indep _ [] (map ln ws)) by (rewrite repeat_length; exact Hk).
      apply nth_repeat. }
    rewrite Hpool.
    rewrite (nth_indep _ 0%R (ln 0)) by (rewrite length_map, Hw; exact Hd).
    apply (map_nth ln).
Qed.

Lemma raw_weights_follow_grid_order_witness :
  hermgauss_contract hermgauss_table /\
  In "flipgrid" ["flipgrid"; "freegrid"] /\
  hermgauss_table 2 = Ok ([(- / sqrt 2)%R; (/ sqrt 2)%R],
                          [(sqrt PI / 2)%R; (sqrt PI / 2)%R]) /\
  exists self,
    Likelihood_init hermgauss_table example_sample 2 2 "flipgrid" = Ok self /\
    exists raw,
      raw_quad_weight_grid self = Some raw /\
      shape raw = [Z.to_nat 2 ^ Z.to_nat 2] /\
      forall i, i < Z.to_nat 2 ^ Z.to_nat 2 ->
        get raw [i] =
        sum_upto (Z.to_nat 2)
                 (fun j => ln (nth (digit (Z.to_nat 2) (Z.to_nat 2) i j)
                                   [(sqrt PI / 2)%R; (sqrt PI / 2)%R] 0%R)).
Proof.
  split; [exact hermgauss_table_contract |].
  split; [left; reflexivity |]. split; [reflexivity |].
  eexists. split; [reflexivity |].
  apply (raw_weights_follow_grid_order hermgauss_table example_sample 2 2 "flipgrid" _
           [(- / sqrt 2)%R; (/ sqrt 2)%R] [(sqrt PI / 2)%R; (sqrt PI / 2)%R]).
  - exact hermgauss_table_contract.
  - left. reflexivity.
  - reflexivity.
  - reflexivity.
Defined.

Lemma sum_upto_scale (n : nat) (f : nat -> R) (c : R) :
  sum_upto n (fun k => (f k * c)%R) = (sum_upto n f * c)%R.
Proof.
  unfold sum_upto. rewrite <- (map_map f (fun x => (x * c)%R)). apply Rsum_scale.
Qed.

Lemma sum_upto_le (n : nat) (f g : nat -> R) :
  (forall k, k < n -> (f k <= g k)%R) -> (sum_upto n f <= sum_upto n g)%R.
Proof.
  unfold sum_upto. intros H.
  assert (Hl : forall l, (forall k, In k l -> k < n) ->
                         (Rsum (map f l) <= Rsum (map g l))%R).
  { induction l as [| k l IH]; intros Hin; simpl; [lra |].
    pose proof (H k (Hin k (or_introl eq_refl))).
    assert (Rsum (map f l) <= Rsum (map g l))%R
      by (apply IH; intros k' Hk'; apply Hin; right; exact Hk').
    lra. }
  apply Hl. intros k Hk. apply in_seq in Hk. lia.
Qed.

Lemma sum_upto_exp_pos (n : nat) (f : nat -> R) :
  1 <= n -> (0 < sum_upto n (fun k => exp (f k)))%R.
Proof.
  intros Hn. unfold sum_upto. rewrite <- (map_map f exp).
  apply Rsum_exp_pos. destruct n as [| m]; [lia |]. rewrite seq_S, map_app. simpl.
  intros H. symmetry in H. revert H. apply app_cons_not_nil.
Qed.

(** X13.  The normalized log-weights depend on the raw log-weights only up
    to a common shift: two likelihoods whose raw weight vectors (of the same
    non-zero length) differ by a constant have the same quad_weight_grid. *)
Theorem quad_weight_grid_shift_invariant
    (self self' : Likelihood) (raw raw' : tensor) (sites : nat) (c : R) :
  raw_quad_weight_grid self = Some raw -> shape raw = [sites] ->
  raw_quad_weight_grid self' = Some raw' -> shape raw' = [sites] ->
  1 <= sites ->
  (forall s, s < sites -> get raw' [s] = (get raw [s] + c)%R) ->
  exists w w',
    quad_weight_grid self = Ok w /\
    quad_weight_grid self' = Ok w' /\
    shape w = [sites] /\ shape w' = [sites] /\
    forall s, s < sites -> get w' [s] = get w [s].
Proof.
  intros Hraw Hsh Hraw' Hsh' Hs Hshift.
  destruct (quad_weight_grid_spec self raw sites Hraw Hsh) as [w [Hw [Hwsh Hwget]]].
  destruct (quad_weight_grid_spec self' raw' sites Hraw' Hsh') as [w' [Hw' [Hwsh' Hwget']]].
  exists w, w'. repeat (split; [assumption |]).
  intros s Hlt. rewrite (Hwget' s Hlt), (Hwget s Hlt), (Hshift s Hlt).
  rewrite (sum_upto_ext sites (fun k => exp (get raw' [k]))
             (fun k => (exp (get raw [k]) * exp c)%R)).
  - rewrite sum_upto_scale.
    rewrite ln_mult by (apply sum_upto_exp_pos || apply exp_pos; assumption).
    rewrite ln_exp. lra.
  - intros k Hk. rewrite (Hshift k Hk). apply exp_plus.
Qed.

Lemma quad_weight_grid_shift_invariant_witness :
  raw_quad_weight_grid example_likelihood3 = Some (of_list [0%R; 1%R; 2%R]) /\
  shape (of_list [0%R; 1%R; 2%R]) = [3] /\
  raw_quad_weight_grid (mkLikelihood 3 (Some (tmap (fun v => (v + 5)%R)
                                                   (of_list [0%R; 1%R; 2%R]))))
    = Some (tmap (fun v => (v + 5)%R) (of_list [0%R; 1%R; 2%R])) /\
  shape (tmap (fun v => (v + 5)%R) (of_list [0%R; 1%R; 2%R])) = [3] /\
  1 <= 3 /\
  (forall s, s < 3 ->
     get (tmap (fun v => (v + 5)%R) (of_list [0%R; 1%R; 2%R])) [s] =
     (get (of_list [0%R; 1%R; 2%R]) [s] + 5)%R) /\
  exists w w',
    quad_weight_grid example_likelihood3 = Ok w /\
    quad_weight_grid (mkLikelihood 3 (Some (tmap (fun v => (v + 5)%R)
                                                 (of_list [0%R; 1%R; 2%R])))) = Ok w' /\
    shape w = [3] /\ shape w' = [3] /\
    forall s, s < 3 -> get w' [s] = get w [s].
Proof.
  split; [reflexivity |]. split; [reflexivity |]. split; [reflexivity |].
  split; [reflexivity |]. split; [lia |]. split; [intros s _; reflexivity |].
  apply (quad_weight_grid_shift_invariant example_likelihood3 _
           (of_list [0%R; 1%R; 2%R])
           (tmap (fun v => (v + 5)%R) (of_list [0%R; 1%R; 2%R])) 3 5%R);
    try reflexivity; try lia.
Defined.

Lemma log_marginal_spec
    (Observations FunctionDist : Type)
    (super_log_marginal : Observations -> FunctionDist -> result tensor)
    (self : Likelihood) (observations : Observations) (function_dist : FunctionDist)
    (raw base : tensor) (sites N : nat) :
  raw_quad_weight_grid self = Some raw ->
  shape raw = [sites] ->
  super_log_marginal observations function_dist = Ok base ->
  shape base = [sites; N] ->
  exists w out,
    quad_weight_grid self = Ok w /\
    (forall s, s < sites ->
       get w [s] =
       (get raw [s] - ln (sum_upto sites (fun k => exp (get raw [k]))))%R) /\
    log_marginal Observations FunctionDist super_log_marginal
                 self observations function_dist = Ok out /\
    shape out = [N] /\
    forall n, n < N ->
      get out [n] =
      ln (sum_upto sites (fun s => exp (get w [s] + get base [s; n])%R)).
Proof.
  intros Hraw Hsh Hbase Hbsh.
  destruct (quad_weight_grid_spec self raw sites Hraw Hsh) as [w [Hw [Hwsh Hwget]]].
  exists w. unfold log_marginal.
  rewrite Hbase, (read_quad_weight_grid_Ok self w Hw). list_simpl.
  unfold unsqueeze, rank. rewrite Hwsh. norm_dims. list_simpl.
  unfold add, binop. list_simpl. rewrite Hbsh, broadcast_col.
  unfold logsumexp, rank. list_simpl. norm_dims. list_simpl.
  eexists. split; [exact Hw |]. split; [exact Hwget |]. split; [reflexivity |].
  split; [reflexivity |].
  intros n Hn. list_simpl. f_equal. apply sum_upto_ext. intros k Hk.
  unfold bindex. simpl. rewrite !bsel by assumption. reflexivity.
Qed.

(** X14.  The deep log-marginal is a weighted average in the log domain: with
    at least one site, for every observation n the result lies between any
    lower and upper bound of the per-site log-marginals of n; in particular
    when all sites agree on n the result is their common value. *)
Theorem log_marginal_between_site_bounds
    (Observations FunctionDist : Type)
    (super_log_marginal : Observations -> FunctionDist -> result tensor)
    (self : Likelihood) (observations : Observations) (function_dist : FunctionDist)
    (raw base : tensor) (sites N : nat) :
  raw_quad_weight_grid self = Some raw ->
  shape raw = [sites] ->
  super_log_marginal observations function_dist = Ok base ->
  shape base = [sites; N] ->
  1 <= sites ->
  exists out,
    log_marginal Observations FunctionDist super_log_marginal
                 self observations function_dist = Ok out /\
    forall n lo hi, n < N ->
      (forall s, s < sites -> (lo <= get base [s; n] <= hi)%R) ->
      (lo <= get out [n] <= hi)%R.
Proof.
  intros Hraw Hsh Hbase Hbsh Hs.
  destruct (log_marginal_spec _ _ super_log_marginal self observations function_dist
              raw base sites N Hraw Hsh Hbase Hbsh)
    as [w [out [_ [Hwget [Hout [_ Hget]]]]]].
  exists out. split; [exact Hout |].
  intros n lo hi Hn Hb. rewrite (Hget n Hn).
  pose proof (normalized_weights_sum_to_one raw sites (fun s => get w [s]) Hs Hwget)
    as Hone.
  set (total := sum_upto sites (fun s => exp (get w [s] + get base [s; n]))).
  assert (Hpos : (0 < total)%R) by (apply sum_upto_exp_pos; exact Hs).
  assert (Hhi : (total <= exp hi)%R).
  { replace (exp hi) with (sum_upto sites (fun s => exp (get w [s])) * exp hi)%R
      by (rewrite Hone; lra).
    rewrite <- sum_upto_scale. apply sum_upto_le. intros k Hk.
    rewrite exp_plus. apply Rmult_le_compat_l; [left; apply exp_pos |].
    destruct (Hb k Hk) as [_ [Hlt | Heq]]; [left; apply exp_increasing; exact Hlt |].
    rewrite Heq. right. reflexivity. }
  assert (Hlo : (exp lo <= total)%R).
  { replace (exp lo) with (sum_upto sites (fun s => exp (get w [s])) * exp lo)%R
      by (rewrite Hone; lra).
    rewrite <- sum_upto_scale. apply sum_upto_le. intros k Hk.
    rewrite exp_plus. apply Rmult_le_compat_l; [left; apply exp_pos |].
    destruct (Hb k Hk) as [[Hlt | Heq] _]; [left; apply exp_increasing; exact Hlt |].
    rewrite Heq. right. reflexivity. }
  split.
  - rewrite <- (ln_exp lo). destruct Hlo as [Hlt | Heq].
    + left. apply ln_increasing; [apply exp_pos | exact Hlt].
    + rewrite Heq. right. reflexivity.
  - rewrite <- (ln_exp hi). destruct Hhi as [Hlt | Heq].
    + left. apply ln_increasing; [exact Hpos | exact Hlt].
    + rewrite Heq. right. reflexivity.
Qed.

Lemma log_marginal_between_site_bounds_witness :
  raw_quad_weight_grid example_likelihood = Some (of_list [0%R; 0%R]) /\
  shape (of_list [0%R; 0%R]) = [2] /\
  example_base_log_marginal tt tt = Ok (mkTensor [2; 3] example_sample) /\
  shape (mkTensor [2; 3] example_sample) = [2; 3] /\
  1 <= 2 /\
  exists out,
    log_marginal unit unit example_base_log_marginal example_likelihood tt tt = Ok out /\
    forall n lo hi, n < 3 ->
      (forall s, s < 2 -> (lo <= example_sample [s; n] <= hi)%R) ->
      (lo <= get out [n] <= hi)%R.
Proof.
  split; [reflexivity |]. split; [reflexivity |].
  split; [reflexivity |]. split; [reflexivity |]. split; [lia |].
  apply (log_marginal_between_site_bounds unit unit example_base_log_marginal
           example_likelihood tt tt (of_list [0%R; 0%R])
           (mkTensor [2; 3] example_sample) 2 3); try reflexivity. lia.
Defined.

(** X15.  A likelihood is not validated at construction: with a strategy
    name outside flipgrid, freegrid, freeform, [__init__] succeeds without
    registering raw weights (no assertion guards it, unlike the layer), and
    every later read of quad_weight_grid, and every log_marginal whose base
    computation succeeds, raises the AttributeError that names
    quad_weight_grid: the property body fails on raw_quad_weight_grid and
    the attribute fallback of torch.nn.Module reports the property. *)
Theorem likelihood_unknown_strategy_has_no_weights
    (hermgauss : Z -> result (list R * list R)) (sample : list nat -> R)
    (dims Q : Z) (strategy : string) :
  ~ In strategy ["flipgrid"; "freegrid"; "freeform"] ->
  exists self,
    Likelihood_init hermgauss sample dims Q strategy = Ok self /\
    raw_quad_weight_grid self = None /\
    read_quad_weight_grid self = Raise (AttributeError "quad_weight_grid") /\
    forall (Observations FunctionDist : Type)
           (super_log_marginal : Observations -> FunctionDist -> result tensor)
           observations function_dist base,
      super_log_marginal observations function_dist = Ok base ->
      log_marginal Observations FunctionDist super_log_marginal
                   self observations function_dist =
      Raise (AttributeError "quad_weight_grid").
Proof.
  intros Hn.
  assert (Hex : existsb (String.eqb strategy) ["flipgrid"; "freegrid"] = false).
  { apply not_in_strategies. intros Hin. apply Hn. simpl in *. tauto. }
  assert (H3 : (strategy =? "freeform")%string = false).
  { apply String.eqb_neq. intros ->. apply Hn. simpl. tauto. }
  unfold Likelihood_init. rewrite Hex, H3.
  eexists. split; [reflexivity |]. split; [reflexivity |]. split; [reflexivity |].
  intros Obs FD super obs fd base Hbase. unfold log_marginal. rewrite Hbase. reflexivity.
Qed.

Lemma likelihood_unknown_strategy_has_no_weights_witness :
  ~ In "grid" ["flipgrid"; "freegrid"; "freeform"] /\
  exists self,
    Likelihood_init hermgauss_table example_sample 1 3 "grid" = Ok self /\
    raw_quad_weight_grid self = None /\
    read_quad_weight_grid self = Raise (AttributeError "quad_weight_grid") /\
    forall (Observations FunctionDist : Type)
           (super_log_marginal : Observations -> FunctionDist -> result tensor)
           observations function_dist base,
      super_log_marginal observations function_dist = Ok base ->
      log_marginal Observations FunctionDist super_log_marginal
                   self observations function_dist =
      Raise (AttributeError "quad_weight_grid").
Proof.
  assert (Hn : ~ In "grid" ["flipgrid"; "freegrid"; "freeform"]).
  { simpl. intros [H | [H | [H | []]]]; discriminate H. }
  split; [exact Hn |].
  exact (likelihood_unknown_strategy_has_no_weights hermgauss_table example_sample
           1 3 "grid" Hn).
Defined.

(** X16.  Order 0 or below cannot be constructed on the grid strategies:
    hermgauss rejects it, so both the layer's [__init__] (when xi is not
    passed in) and the likelihood's [__init__] raise, in either assertion
    mode. *)
Theorem nonpositive_order_grid_construction_fails
    (asserts : bool) (hermgauss : Z -> result (list R * list R))
    (sample : list nat -> R) (input_dims_arg : Z) (output_dims_arg : option Z)
    (dims Q : Z) (strategy : string) (sample_site_dims_arg : option Z) :
  hermgauss_contract hermgauss ->
  In strategy ["flipgrid"; "freegrid"] ->
  (Q <= 0)%Z ->
  (exists e, Layer_init asserts hermgauss sample input_dims_arg output_dims_arg Q
                        strategy None sample_site_dims_arg = Raise e) /\
  (exists e, Likelihood_init hermgauss sample dims Q strategy = Raise e).
Proof.
  intros Hc Hin HQ.
  assert (Hh : exists e, hermgauss Q = Raise e).
  { destruct (hermgauss Q) as [[xs ws] | e] eqn:Hh; [| exists e; reflexivity].
    destruct (Hc Q xs ws Hh) as [H1 _]. lia. }
  destruct Hh as [e Hh]. split.
  - exists e. unfold Layer_init.
    simpl in Hin. destruct Hin as [<- | [<- | []]];
      simpl existsb; rewrite assert_true; cbn [bind]; simpl String.eqb; cbv iota;
      rewrite Hh; reflexivity.
  - exists e. unfold Likelihood_init.
    simpl in Hin. destruct Hin as [<- | [<- | []]];
      simpl existsb; cbv iota; rewrite Hh; reflexivity.
Qed.

Lemma nonpositive_order_grid_construction_fails_witness :
  hermgauss_contract hermgauss_table /\
  In "freegrid" ["flipgrid"; "freegrid"] /\
  (0 <= 0)%Z /\
  (exists e, Layer_init true hermgauss_table example_sample 1 None 0
                        "freegrid" None None = Raise e) /\
  (exists e, Likelihood_init hermgauss_table example_sample 1 0 "freegrid" = Raise e).
Proof.
  split; [exact hermgauss_table_contract |].
  split; [right; left; reflexivity |]. split; [lia |].
  apply (nonpositive_order_grid_construction_fails true hermgauss_table example_sample
           1 None 1 0 "freegrid" None).
  - exact hermgauss_table_contract.
  - right. left. reflexivity.
  - lia.
Defined.

(** ** The composite KL divergence: memo, additivity, order *)

(** X17.  The sub-strategies are discovered once: kl_divergence leaves the
    discovered list on the object, and from then on the value does not
    follow the container, whatever modules the container holds later. *)
Theorem kl_divergence_keeps_first_discovery
    (self : DeepGPVariationalStrategy) (later : AbstractDeepGP) :
  sub_variational_strategies_memo (snd (kl_divergence self)) =
  Some (fst (sub_variational_strategies self)) /\
  kl_divergence (snd (kl_divergence self)) = kl_divergence self /\
  fst (kl_divergence
         (mkDeepStrategy later (sub_variational_strategies_memo (snd (kl_divergence self))))) =
  fst (kl_divergence self).
Proof.
  unfold kl_divergence, sub_variational_strategies.
  destruct self as [m [memo |]]; cbn; repeat split; reflexivity.
Qed.

Lemma collect_strategies_app (ms ms' : list Module_) :
  collect_strategies (ms ++ ms') = (collect_strategies ms ++ collect_strategies ms')%list.
Proof.
  induction ms as [| [vs |] ms IH]; simpl; [reflexivity | |]; rewrite IH; reflexivity.
Qed.

Lemma Rsum_app (l l' : list R) : Rsum (l ++ l') = (Rsum l + Rsum l')%R.
Proof.
  induction l as [| x l IH]; simpl; [lra |]. rewrite IH. lra.
Qed.

Lemma kl_fresh (ms : list Module_) :
  fst (kl_divergence (DeepGPVariationalStrategy_init (mkDeepGP ms))) =
  Rsum (map (fun s => get (sum_all (strategy_kl_divergence s)) [])
            (collect_strategies ms)).
Proof.
  unfold kl_divergence, sub_variational_strategies.
  cbn [DeepGPVariationalStrategy_init sub_variational_strategies_memo model modules fst].
  apply py_sum_Rsum.
Qed.

(** X18.  On freshly built containers the composite KL is additive: the KL
    of a container holding the modules of two containers is the sum of their
    KLs, and modules that are not approximate GPs contribute nothing. *)
Theorem kl_divergence_additive (ms ms' : list Module_) :
  fst (kl_divergence (DeepGPVariationalStrategy_init (mkDeepGP (ms ++ ms')))) =
  (fst (kl_divergence (DeepGPVariationalStrategy_init (mkDeepGP ms))) +
   fst (kl_divergence (DeepGPVariationalStrategy_init (mkDeepGP ms'))))%R /\
  fst (kl_divergence (DeepGPVariationalStrategy_init (mkDeepGP (OtherModule :: ms)))) =
  fst (kl_divergence (DeepGPVariationalStrategy_init (mkDeepGP ms))) /\
  fst (kl_divergence (DeepGPVariationalStrategy_init (mkDeepGP []))) = 0%R.
Proof.
  rewrite !kl_fresh. rewrite collect_strategies_app, map_app, Rsum_app.
  repeat split; reflexivity.
Qed.

Lemma collect_strategies_Permutation (ms ms' : list Module_) :
  Permutation ms ms' -> Permutation (collect_strategies ms) (collect_strategies ms').
Proof.
  intros H. induction H as [| m l l' _ IH | m m' l | l l' l'' _ IH1 _ IH2].
  - constructor.
  - destruct m; simpl; [constructor |]; exact IH.
  - destruct m, m'; simpl; try apply Permutation_refl. constructor.
  - exact (Permutation_trans IH1 IH2).
Qed.

Lemma Rsum_Permutation (l l' : list R) : Permutation l l' -> Rsum l = Rsum l'.
Proof.
  intros H. induction H as [| x l l' _ IH | x y l | l l' l'' _ IH1 _ IH2]; simpl.
  - reflexivity.
  - rewrite IH. reflexivity.
  - lra.
  - rewrite IH1. exact IH2.
Qed.

(** X19.  Over the reals the composite KL does not depend on the order in
    which the container yields its modules: containers whose module lists
    are permutations of one another have the same KL. *)
Theorem kl_divergence_order_independent (ms ms' : list Module_) :
  Permutation ms ms' ->
  fst (kl_divergence (DeepGPVariationalStrategy_init (mkDeepGP ms))) =
  fst (kl_divergence (DeepGPVariationalStrategy_init (mkDeepGP ms'))).
Proof.
  intros H. rewrite !kl_fresh. apply Rsum_Permutation, Permutation_map.
  apply collect_strategies_Permutation. exact H.
Qed.

Lemma kl_divergence_order_independent_witness :
  Permutation [ApproximateGP (mkStrategy (scalar 1)); OtherModule;
               ApproximateGP (mkStrategy (scalar 2))]
              [OtherModule; ApproximateGP (mkStrategy (scalar 2));
               ApproximateGP (mkStrategy (scalar 1))] /\
  fst (kl_divergence
         (DeepGPVariationalStrategy_init
            (mkDeepGP [ApproximateGP (mkStrategy (scalar 1)); OtherModule;
                       ApproximateGP (mkStrategy (scalar 2))]))) =
  fst (kl_divergence
         (DeepGPVariationalStrategy_init
            (mkDeepGP [OtherModule; ApproximateGP (mkStrategy (scalar 2));
                       ApproximateGP (mkStrategy (scalar 1))]))).
Proof.
  assert (Hp : Permutation
                 [ApproximateGP (mkStrategy (scalar 1)); OtherModule;
                  ApproximateGP (mkStrategy (scalar 2))]
                 [OtherModule; ApproximateGP (mkStrategy (scalar 2));
                  ApproximateGP (mkStrategy (scalar 1))]).
  { apply (Permutation_trans (perm_swap _ _ _)). apply perm_skip. apply perm_swap. }
  split; [exact Hp |].
  exact (kl_divergence_order_independent _ _ Hp).
Defined.

(** ** The whole preparation of the input, and the initial grids *)

(** X20.  End to end on a freeform layer of S sites over T dimensions with
    od output dimensions, 0 <= od < 2^63: for a distribution with mean and
    variance of shape (N, T) and one extra input of shape (N, d), with
    input_dims = T + d and the extents S, N and T + d below 2^63 (the sizes
    that expand accepts),
    [__call__] hands the GP a tensor of shape (S, od, N, T + d) whose entry
    [s, o, n, k] is mu[n, k] + sqrt(variance[n, k]) * xi[s, k] for k < T and
    the extra input's [n, k - T] otherwise, in either debug mode and either
    assertion mode. *)
Theorem freeform_call_inputs_end_to_end
    (self : Layer) (x mean variance inp : tensor) (od : Z) (S' N T d : nat) :
  grid_strategy self = "freeform" ->
  xi self = Some x -> shape x = [S'; T] ->
  num_sample_sites self = Z.of_nat S' ->
  output_dims self = Some od -> (0 <= od < 2 ^ 63)%Z ->
  input_dims self = Z.of_nat (T + d) ->
  int64_extent S' -> int64_extent N -> int64_extent (T + d) ->
  shape mean = [N; T] -> shape variance = [N; T] -> shape inp = [N; d] ->
  forall asserts debug,
  exists r,
    call_inputs asserts debug self (MMVN mean variance) [inp] true = Ok (Tensor r) /\
    shape r = [S'; Z.to_nat od; N; T + d] /\
    forall s o n k, s < S' -> o < Z.to_nat od -> n < N -> k < T + d ->
      get r [s; o; n; k] =
      if k <? T
      then (get mean [n; k] + sqrt (get variance [n; k]) * get x [s; k])%R
      else get inp [n; k - T].
Proof.
  intros Hs Hxi Hxsh HQ Hod Hpos Hin HS64 HN64 HD64 Hm Hv Hinp asserts debug.
  assert (Hd64 : int64_extent d) by (unfold int64_extent in *; lia).
  pose proof (freeform_quad_grid_returns_xi asserts self x Hs Hxi) as Hread.
  destruct (quadrature_inputs_expand asserts self x mean variance S' N T
              Hread Hxsh Hm Hv) as [u [Hu [Hush Huget]]].
  destruct (concat_other_inputs_spec self u inp S' N T d) as [Hcat _];
    try assumption; try (rewrite HQ; unfold int64_extent in HS64; lia).
  destruct Hcat as [c [Hc [Hcsh Hcget]]]; [rewrite HQ; lia |].
  destruct (repeat_for_outputs_spec self od (mkTensor [N; T + d] (fun _ => 0%R)) c
              S' N (T + d) Hod Hpos HS64 HN64 HD64 eq_refl Hcsh)
    as [_ [r [Hr [Hrsh Hrget]]]].
  exists r. unfold call_inputs. rewrite Hu. cbn [bind]. rewrite Hc. cbn [bind].
  assert (Hd : debug_checks debug self (Tensor c) = Ok tt).
  { destruct debug; [| reflexivity].
    apply (debug_checks_shape_match self c (T + d)).
    - apply (size_last c [S'; N]). exact Hcsh.
    - symmetry. exact Hin. }
  rewrite Hd. cbn [bind]. split; [exact Hr |]. split; [exact Hrsh |].
  intros s o n k Hlt Ho Hn Hk. rewrite (Hrget s o n k Hlt Ho Hn Hk).
  rewrite (Hcget s n k Hlt Hn Hk).
  destruct (Nat.ltb_spec k T) as [Hkt | Hkt]; [| reflexivity].
  apply Huget; assumption.
Qed.

Lemma freeform_call_inputs_end_to_end_witness :
  grid_strategy example_freeform_wide_layer = "freeform" /\
  xi example_freeform_wide_layer = Some (mkTensor [2; 2] example_sample) /\
  shape (mkTensor [2; 2] example_sample) = [2; 2] /\
  num_sample_sites example_freeform_wide_layer = Z.of_nat 2 /\
  output_dims example_freeform_wide_layer = Some 4%Z /\ (0 <= 4 < 2 ^ 63)%Z /\
  input_dims example_freeform_wide_layer = Z.of_nat (2 + 1) /\
  int64_extent 2 /\ int64_extent 3 /\ int64_extent (2 + 1) /\
  shape (mkTensor [3; 2] example_sample) = [3; 2] /\
  shape (mkTensor [3; 2] (fun _ => 4%R)) = [3; 2] /\
  shape example_other_input = [3; 1] /\
  forall asserts debug,
  exists r,
    call_inputs asserts debug example_freeform_wide_layer
      (MMVN (mkTensor [3; 2] example_sample) (mkTensor [3; 2] (fun _ => 4%R)))
      [example_other_input] true = Ok (Tensor r) /\
    shape r = [2; Z.to_nat 4; 3; 2 + 1] /\
    forall s o n k, s < 2 -> o < Z.to_nat 4 -> n < 3 -> k < 2 + 1 ->
      get r [s; o; n; k] =
      if k <? 2
      then (example_sample [n; k] + sqrt 4 * example_sample [s; k])%R
      else get example_other_input [n; k - 2].
Proof.
  split; [reflexivity |]. split; [reflexivity |]. split; [reflexivity |].
  split; [reflexivity |]. split; [reflexivity |]. split; [lia |].
  split; [reflexivity |]. split; [reflexivity |]. split; [reflexivity |].
  split; [reflexivity |]. split; [reflexivity |]. split; [reflexivity |].
  split; [reflexivity |].
  apply (freeform_call_inputs_end_to_end example_freeform_wide_layer
           (mkTensor [2; 2] example_sample) (mkTensor [3; 2] example_sample)
           (mkTensor [3; 2] (fun _ => 4%R)) example_other_input 4 2 3 2 1);
    try reflexivity. lia.
Defined.

Lemma freegrid_read_spec (asserts : bool) (self : Layer) (x g : tensor) (Q T : nat) :
  grid_strategy self = "freegrid" ->
  xi self = Some x -> shape x = [Q; T] ->
  read_quad_grid asserts self = Ok (Some g) ->
  1 <= Q /\ 1 <= T /\
  shape g = [Q ^ T; T] /\
  forall i j, i < Q ^ T -> j < T -> get g [i; j] = get x [digit Q T i j; j].
Proof.
  intros Hs Hxi Hsh Hread. apply read_quad_grid_Ok in Hread.
  destruct (Nat.eq_dec Q 0) as [HQ0 | HQ0]; [| destruct (Nat.eq_dec T 0) as [HT0 | HT0]].
  1, 2: exfalso; unfold quad_grid in Hread; rewrite Hs in Hread;
    simpl String.eqb in Hread; cbv iota in Hread;
    rewrite (self_xi_Some self x Hxi) in Hread; cbn [bind] in Hread;
    destruct (stack_product_degenerate x Q T Hsh ltac:(lia)) as [e He];
    rewrite He in Hread; discriminate Hread.
  assert (HQ : 1 <= Q) by lia. assert (HT : 1 <= T) by lia.
  destruct (quad_grid_grid_strategies self x Q T) as [res [Hoff [Hon [_ [Hrsh Hget]]]]];
    try assumption.
  { rewrite Hs. right. left. reflexivity. }
  assert (g = res).
  { destruct asserts; rewrite ?Hon, ?Hoff in Hread; [discriminate | congruence]. }
  subst g. repeat (split; [assumption |]).
  intros i j Hi Hj. rewrite (Hget i j Hi Hj), Hs. reflexivity.
Qed.

(** X21.  As constructed, the grid of a flipgrid or freegrid layer is the
    tensor product of the Gauss-Hermite abscissae: every grid that a read of
    quad_grid returns has Q^T rows of length T and entry [i, j] is the
    abscissa whose position is digit j of i in base Q; for flipgrid this
    holds when the abscissae are antisymmetric, x[Q-1-q] = -x[q] (as those of
    the Gauss-Hermite rule are), so that the factor 0.5 and the
    flip-subtraction cancel and the two strategies start from the same
    grid. *)
Theorem initial_grid_is_abscissae_product
    (asserts asserts' : bool) (hermgauss : Z -> result (list R * list R))
    (sample : list nat -> R) (input_dims_arg : Z) (output_dims_arg : option Z)
    (Q : Z) (strategy : string) (sample_site_dims_arg : option Z) (self : Layer)
    (xs ws : list R) (g : tensor) :
  hermgauss_contract hermgauss ->
  In strategy ["flipgrid"; "freegrid"] ->
  Layer_init asserts hermgauss sample input_dims_arg output_dims_arg Q
             strategy None sample_site_dims_arg = Ok self ->
  hermgauss Q = Ok (xs, ws) ->
  (strategy = "flipgrid" ->
   forall q, q < Z.to_nat Q ->
             nth (Z.to_nat Q - 1 - q) xs 0%R = Ropp (nth q xs 0%R)) ->
  read_quad_grid asserts' self = Ok (Some g) ->
  shape g = [Z.to_nat Q ^ Z.to_nat (sample_site_dims self);
             Z.to_nat (sample_site_dims self)] /\
  forall i j, i < Z.to_nat Q ^ Z.to_nat (sample_site_dims self) ->
              j < Z.to_nat (sample_site_dims self) ->
    get g [i; j] =
    nth (digit (Z.to_nat Q) (Z.to_nat (sample_site_dims self)) i j) xs 0%R.
Proof.
  intros Hc Hin Hinit Hh Hanti Hread.
  destruct (Layer_init_grid _ _ _ _ _ _ _ _ _ Hc Hin Hinit) as [Hs _].
  destruct (Layer_init_grid_xi _ _ _ _ _ _ _ _ _ Hc Hin Hinit)
    as [HQ [_ [xs' [ws' [x [Hh' [Hxi [Hsh Hxget]]]]]]]].
  rewrite Hh in Hh'. injection Hh' as <- <-.
  set (Q' := Z.to_nat Q) in *. set (T' := Z.to_nat (sample_site_dims self)) in *.
  simpl in Hin. destruct Hin as [Hst | [Hst | []]]; subst strategy.
  - destruct (flipgrid_read_spec asserts' self x g Q' T' Hs Hxi Hsh Hread)
      as [HQ1 [HT1 [Hgsh Hget]]].
    split; [exact Hgsh |]. intros i j Hi Hj.
    pose proof (digit_lt Q' T' i j HQ1) as Hd.
    rewrite (Hget i j Hi Hj), !Hxget by (assumption || lia).
    rewrite (Hanti eq_refl _ Hd). unfold initial_scale. simpl String.eqb. cbv iota.
    lra.
  - destruct (freegrid_read_spec asserts' self x g Q' T' Hs Hxi Hsh Hread)
      as [HQ1 [HT1 [Hgsh Hget]]].
    split; [exact Hgsh |]. intros i j Hi Hj.
    pose proof (digit_lt Q' T' i j HQ1) as Hd.
    rewrite (Hget i j Hi Hj), Hxget by assumption.
    unfold initial_scale. simpl String.eqb. cbv iota. lra.
Qed.

Lemma initial_grid_is_abscissae_product_witness :
  hermgauss_contract hermgauss_table /\
  In "flipgrid" ["flipgrid"; "freegrid"] /\
  Layer_init true hermgauss_table example_sample 2 None 3 "flipgrid" None None
    = Ok example_flipgrid_layer /\
  hermgauss_table 3 = Ok ([(- sqrt (3 / 2))%R; 0%R; sqrt (3 / 2)],
                          [(sqrt PI / 6)%R; (2 * sqrt PI / 3)%R; (sqrt PI / 6)%R]) /\
  ("flipgrid" = "flipgrid" ->
   forall q, q < Z.to_nat 3 ->
             nth (Z.to_nat 3 - 1 - q) [(- sqrt (3 / 2))%R; 0%R; sqrt (3 / 2)] 0%R =
             Ropp (nth q [(- sqrt (3 / 2))%R; 0%R; sqrt (3 / 2)] 0%R)) /\
  read_quad_grid false example_flipgrid_layer = Ok (Some example_flipgrid_grid) /\
  shape example_flipgrid_grid =
    [Z.to_nat 3 ^ Z.to_nat (sample_site_dims example_flipgrid_layer);
     Z.to_nat (sample_site_dims example_flipgrid_layer)] /\
  forall i j, i < Z.to_nat 3 ^ Z.to_nat (sample_site_dims example_flipgrid_layer) ->
              j < Z.to_nat (sample_site_dims example_flipgrid_layer) ->
    get example_flipgrid_grid [i; j] =
    nth (digit (Z.to_nat 3) (Z.to_nat (sample_site_dims example_flipgrid_layer)) i j)
        [(- sqrt (3 / 2))%R; 0%R; sqrt (3 / 2)] 0%R.
Proof.
  assert (Hanti : "flipgrid" = "flipgrid" ->
                  forall q, q < Z.to_nat 3 ->
                    nth (Z.to_nat 3 - 1 - q) [(- sqrt (3 / 2))%R; 0%R; sqrt (3 / 2)] 0%R =
                    Ropp (nth q [(- sqrt (3 / 2))%R; 0%R; sqrt (3 / 2)] 0%R)).
  { intros _ q Hq. change (Z.to_nat 3) with 3 in *.
    destruct q as [| [| [| q]]]; simpl; try lra. lia. }
  split; [exact hermgauss_table_contract |].
  split; [left; reflexivity |]. split; [reflexivity |]. split; [reflexivity |].
  split; [exact Hanti |]. split; [reflexivity |].
  apply (initial_grid_is_abscissae_product true false hermgauss_table example_sample
           2 None 3 "flipgrid" None example_flipgrid_layer
           [(- sqrt (3 / 2))%R; 0%R; sqrt (3 / 2)]
           [(sqrt PI / 6)%R; (2 * sqrt PI / 3)%R; (sqrt PI / 6)%R]
           example_flipgrid_grid).
  - exact hermgauss_table_contract.
  - left. reflexivity.
  - reflexivity.
  - reflexivity.
  - exact Hanti.
  - reflexivity.
Defined.
